(** * Portfolio backend: profile mutations, search, and skill aggregation

    A shallow embedding of the Express route handlers of the portfolio
    backend (routes/profile, routes/search, routes/skills, routes/projects),
    of the instance methods of the Profile model and of the central error
    responder, followed by the properties the specification states about
    them.

    Conventions of the embedding.
    - JavaScript strings are [string], the UTF-8 encoding of the text.
      [trim] strips the white space and the line terminators of the
      language.  The store's [$toLower] maps the letters A to Z
      ([JS.toLowerCase]).  The handlers' [toLowerCase], which maps every
      letter that has a lower case, is an interface ([LowerCase]); where a
      statement names no instance it is about [AsciiCase], the mapping of
      the letters A to Z, with which the handlers agree on ASCII text.
    - Numbers that the handlers obtain with [parseInt] are integers [Z];
      [Math.ceil (a / b)] is evaluated over the rationals.
    - The document store is a list of Profile documents in natural order.
      A query is a filter over that list, an aggregation pipeline a
      composition of list transformers ([$match], [$unwind], [$group],
      [$sort], [$skip], [$limit]).  [$group] emits its groups in order of
      first occurrence and [$sort] is stable; the store leaves both orders
      open, the embedding fixes them.
    - The regular-expression engine of the store is an interface
      ([RegexEngine]); the handlers hand it the pattern text they build.
      A text that is no regular expression makes the request fail; the
      routes are embedded for the requests they answer.
    - A query on an ObjectId path casts the text of the request to the
      ObjectId its 24 hexadecimal digits spell.
    - Schema validation of request bodies is done by the validation library
      before the handler logic runs; a handler receives its outcome.
    - [save] runs the validators of the schema and replaces the stored
      document.  Where a handler can hand it a document that the body
      validation has not checked to the schema's standard (the update of a
      project, PUT /api/profile) the verdict of the validators is part of
      the model; elsewhere the document is valid before and after the
      change, and [save] succeeds.  Time stamps are left as they are. *)

From Stdlib Require Import String Ascii List ZArith QArith Qround Lia Bool.
From Stdlib Require Import Sorting.Sorted Sorting.Permutation OrdersEx RelationClasses.
Import ListNotations.
Local Open Scope Z_scope.
Local Open Scope list_scope.

(* ================================================================= *)
(** ** JavaScript built-ins used by the handlers *)

Module JS.

Definition isUpper (c : ascii) : bool :=
  let n := N_of_ascii c in ((65 <=? n) && (n <=? 90))%N.

Definition lowerChar (c : ascii) : ascii :=
  if isUpper c then ascii_of_N (N_of_ascii c + 32) else c.

(** The store's [$toLower], and [String.prototype.toLowerCase] on ASCII
    text: the letters A to Z are mapped to a to z. *)
Fixpoint toLowerCase (s : string) : string :=
  match s with
  | EmptyString => EmptyString
  | String c r => String (lowerChar c) (toLowerCase r)
  end.

(** The white space that [trim] strips (WhiteSpace and LineTerminator of
    the language), by the length of its UTF-8 encoding.  One byte: tab, line
    feed, vertical tab, form feed, carriage return, space. *)
Definition isWhiteSpace (c : ascii) : bool :=
  let n := N_of_ascii c in (((9 <=? n) && (n <=? 13)) || (n =? 32))%N.

(** Two bytes: U+00A0. *)
Definition isWhiteSpace2 (c d : ascii) : bool :=
  ((N_of_ascii c =? 194) && (N_of_ascii d =? 160))%N.

(** Three bytes: U+1680, U+2000 .. U+200A, U+2028, U+2029, U+202F, U+205F,
    U+3000, U+FEFF. *)
Definition isWhiteSpace3 (c d e : ascii) : bool :=
  let (x, y) := (N_of_ascii c, N_of_ascii d) in
  let z := N_of_ascii e in
  (((x =? 225) && (y =? 154) && (z =? 128)) ||
   ((x =? 226) && (y =? 128) &&
    (((128 <=? z) && (z <=? 138)) || (z =? 168) || (z =? 169) || (z =? 175))) ||
   ((x =? 226) && (y =? 129) && (z =? 159)) ||
   ((x =? 227) && (y =? 128) && (z =? 128)) ||
   ((x =? 239) && (y =? 187) && (z =? 191)))%N.

(** The text after its first character, when that is white space. *)
Definition skipWhiteSpace (s : string) : option string :=
  match s with
  | EmptyString => None
  | String c r =>
      if isWhiteSpace c then Some r
      else match r with
           | EmptyString => None
           | String d r' =>
               if isWhiteSpace2 c d then Some r'
               else match r' with
                    | EmptyString => None
                    | String e r'' => if isWhiteSpace3 c d e then Some r'' else None
                    end
           end
  end.

Fixpoint trimStart (s : string) : string :=
  match s with
  | EmptyString => EmptyString
  | String c r =>
      if isWhiteSpace c then trimStart r
      else match r with
           | EmptyString => s
           | String d r' =>
               if isWhiteSpace2 c d then trimStart r'
               else match r' with
                    | EmptyString => s
                    | String e r'' => if isWhiteSpace3 c d e then trimStart r'' else s
                    end
           end
  end.

(** The text holds white space only. *)
Fixpoint isWhiteSpaceOnly (s : string) : bool :=
  match s with
  | EmptyString => true
  | String c r =>
      if isWhiteSpace c then isWhiteSpaceOnly r
      else match r with
           | EmptyString => false
           | String d r' =>
               if isWhiteSpace2 c d then isWhiteSpaceOnly r'
               else match r' with
                    | EmptyString => false
                    | String e r'' => isWhiteSpace3 c d e && isWhiteSpaceOnly r''
                    end
           end
  end.

Fixpoint trimEnd (s : string) : string :=
  match s with
  | EmptyString => EmptyString
  | String c r => if isWhiteSpaceOnly s then EmptyString else String c (trimEnd r)
  end.

(** [String.prototype.trim]. *)
Definition trim (s : string) : string := trimEnd (trimStart s).

(** [s.startsWith(p)]. *)
Definition startsWith (s p : string) : bool := String.prefix p s.

(** [s.includes(sub)] on strings. *)
Fixpoint String_includes (s sub : string) : bool :=
  String.prefix sub s ||
  match s with
  | EmptyString => false
  | String _ r => String_includes r sub
  end.

(** [arr.includes(x)] on an array of strings. *)
Definition Array_includes (arr : list string) (x : string) : bool :=
  existsb (String.eqb x) arr.

(** [arr.findIndex(f)], [-1] when no element satisfies [f]. *)
Fixpoint findIndex {A : Type} (f : A -> bool) (arr : list A) : Z :=
  match arr with
  | [] => -1
  | x :: r =>
      if f x then 0
      else let i := findIndex f r in if i <? 0 then -1 else i + 1
  end.

(** [arr.find(f)]. *)
Definition Array_find {A : Type} (f : A -> bool) (arr : list A) : option A :=
  List.find f arr.

(** [arr.filter((x, index, self) => f x index self)]. *)
Fixpoint filter_from {A : Type} (f : A -> Z -> list A -> bool)
         (self : list A) (index : Z) (arr : list A) : list A :=
  match arr with
  | [] => []
  | x :: r =>
      if f x index self then x :: filter_from f self (index + 1) r
      else filter_from f self (index + 1) r
  end.

Definition filter_indexed {A : Type} (f : A -> Z -> list A -> bool)
           (arr : list A) : list A :=
  filter_from f arr 0 arr.

(** Relative index of [Array.prototype.slice]: negative counts from the end. *)
Definition relIndex (len k : Z) : Z :=
  if k <? 0 then Z.max (len + k) 0 else Z.min k len.

(** [arr.slice(start, end)]. *)
Definition slice {A : Type} (arr : list A) (start end_ : Z) : list A :=
  let len := Z.of_nat (length arr) in
  let s := relIndex len start in
  let e := relIndex len end_ in
  firstn (Z.to_nat (e - s)) (skipn (Z.to_nat s) arr).

(** [Math.ceil(a / b)] for integers [a], [b] with [b <> 0]. *)
Definition Math_ceil_div (a b : Z) : Z :=
  Qceiling (inject_Z a / inject_Z b)%Q.

(** Truthiness of an optional string: [undefined] and [""] are falsy. *)
Definition truthy (o : option string) : bool :=
  match o with
  | Some s => negb (String.eqb s EmptyString)
  | None => false
  end.

End JS.

(** [String.prototype.toLowerCase] maps every letter to which Unicode gives
    a lower case.  The handlers' use of it is an interface of the
    embedding; [AsciiCase] is the mapping of the letters A to Z, which it is
    on ASCII text. *)
Class LowerCase := { toLowerCase : string -> string }.

#[export] Instance AsciiCase : LowerCase := {| toLowerCase := JS.toLowerCase |}.

(* ================================================================= *)
(** ** Data model (models/Profile.js) *)

Definition ObjectId := string.

Module Project.
Record t := mk {
  _id : ObjectId;
  title : string;
  description : string;
  links : list string;
  technologies : list string;
  imageUrl : option string;
  isPublic : bool;
  createdAt : Z;
  updatedAt : Z
}.
End Project.

Module WorkExperience.
Record t := mk {
  _id : ObjectId;
  company : string;
  position : string;
  description : string;
  startDate : string;
  endDate : string;
  isCurrent : bool;
  location : option string
}.
End WorkExperience.

Module Links.
Record t := mk {
  github : option string;
  linkedin : option string;
  portfolio : option string;
  website : option string
}.
End Links.

Module Profile.
Record t := mk {
  _id : ObjectId;
  userId : ObjectId;
  name : string;
  email : string;
  education : option string;
  bio : option string;
  skills : list string;
  projects : list Project.t;
  work : list WorkExperience.t;
  links : Links.t;
  avatar : option string;
  location : option string;
  isPublic : bool;
  createdAt : Z;
  updatedAt : Z
}.

Definition set_skills (this : t) (v : list string) : t :=
  mk (_id this) (userId this) (name this) (email this) (education this)
     (bio this) v (projects this) (work this) (links this) (avatar this)
     (location this) (isPublic this) (createdAt this) (updatedAt this).

Definition set_projects (this : t) (v : list Project.t) : t :=
  mk (_id this) (userId this) (name this) (email this) (education this)
     (bio this) (skills this) v (work this) (links this) (avatar this)
     (location this) (isPublic this) (createdAt this) (updatedAt this).
End Profile.

(** The collection of Profile documents, in natural order. *)
Definition Store := list Profile.t.

(* ================================================================= *)
(** ** The store: queries and aggregation stages *)

(** [regex_i pattern subject]: the store's test of [subject] against the
    regular expression whose source text is [pattern], with option ['i'].
    The interface speaks of texts that are regular expressions.  A request
    text that is none makes the handler ([new RegExp]) or the store
    ([$regex]) fail, and the request is answered with status 500: the
    routes that build a pattern from the request are embedded for the
    requests they answer, and what is proved of them is proved of their
    answers. *)
Class RegexEngine := { regex_i : string -> string -> bool }.

(** The engine restricted to patterns without metacharacters: a pattern
    anchored with [^] is a case-insensitive prefix test, any other pattern a
    case-insensitive substring test. *)
Definition literal_regex_i (pattern subject : string) : bool :=
  match pattern with
  | String "^"%char p => JS.startsWith (JS.toLowerCase subject) (JS.toLowerCase p)
  | _ => JS.String_includes (JS.toLowerCase subject) (JS.toLowerCase pattern)
  end.

Definition LiteralRegex : RegexEngine := {| regex_i := literal_regex_i |}.

(** The engine for patterns made of literal characters and the wildcard
    [.], optionally anchored with [^]. *)
Fixpoint match_here (pattern subject : string) : bool :=
match pattern with
| EmptyString => true
| String c p =>
    match subject with
    | EmptyString => false
    | String d s =>
        (Ascii.eqb c "."%char || Ascii.eqb (JS.lowerChar c) (JS.lowerChar d))
        && match_here p s
    end
end.

Fixpoint match_anywhere (pattern subject : string) : bool :=
match_here pattern subject ||
match subject with
| EmptyString => false
| String _ s => match_anywhere pattern s
end.

Definition wildcard_regex_i (pattern subject : string) : bool :=
match pattern with
| String "^"%char p => match_here p subject
| _ => match_anywhere pattern subject
end.

Definition WildcardRegex : RegexEngine := {| regex_i := wildcard_regex_i |}.

Module Mongo.

(** A condition on an optional field: an absent field matches nothing. *)
Definition test_opt (f : string -> bool) (o : option string) : bool :=
  match o with
  | Some s => f s
  | None => false
  end.

(** [.limit(n)] / [$limit] and [.skip(k)] / [$skip], for [n >= 1], [k >= 0]. *)
Definition limit {A : Type} (n : Z) (docs : list A) : list A :=
  firstn (Z.to_nat n) docs.

Definition skip {A : Type} (k : Z) (docs : list A) : list A :=
  skipn (Z.to_nat k) docs.

(** [$sort] as a stable insertion sort; [le a b] says that [a] may stand
    before [b]. *)
Fixpoint insert {A : Type} (le : A -> A -> bool) (x : A) (l : list A) : list A :=
  match l with
  | [] => [x]
  | y :: r => if le x y then x :: l else y :: insert le x r
  end.

Definition sortBy {A : Type} (le : A -> A -> bool) (docs : list A) : list A :=
  fold_right (insert le) [] docs.

(** [$unwind: '$skills'] and [$unwind: '$projects']. *)
Definition unwind_skills (docs : list Profile.t) : list (Profile.t * string) :=
  flat_map (fun p => map (pair p) (Profile.skills p)) docs.

Definition unwind_projects (docs : list Profile.t) : list (Profile.t * Project.t) :=
  flat_map (fun p => map (pair p) (Profile.projects p)) docs.

(** [$group]: a group is its [_id] and the documents that fell into it, in
    input order; groups are kept in order of first occurrence. *)
Record Group (D : Type) := mkGroup { _id : string; docs : list D }.
Arguments mkGroup {D} _ _.
Arguments _id {D} _.
Arguments docs {D} _.

Fixpoint group_add {D : Type} (k : string) (d : D) (gs : list (Group D))
  : list (Group D) :=
  match gs with
  | [] => [mkGroup k [d]]
  | g :: rest =>
      if String.eqb (_id g) k then mkGroup (_id g) (docs g ++ [d]) :: rest
      else g :: group_add k d rest
  end.

Definition group_by {D : Type} (key : D -> string) (input : list D)
  : list (Group D) :=
  fold_left (fun gs d => group_add (key d) d gs) input [].

(** Accumulators: [{ $sum: 1 }], [{ $first: f }], [{ $addToSet: f }]. *)
Definition acc_count {D : Type} (g : Group D) : Z :=
  Z.of_nat (length (docs g)).

Definition acc_first {D : Type} (f : D -> string) (g : Group D) : string :=
  match docs g with
  | d :: _ => f d
  | [] => EmptyString
  end.

Definition set_add (x : string) (s : list string) : list string :=
  if JS.Array_includes s x then s else s ++ [x].

Definition acc_addToSet {D : Type} (f : D -> string) (g : Group D) : list string :=
  fold_left (fun s d => set_add (f d) s) (docs g) [].

(** Sort keys used by the pipelines. *)
Definition by_count_desc {D : Type} (a b : Group D) : bool :=
  acc_count b <=? acc_count a.

Definition by_count_desc_then {D : Type} (name : Group D -> string)
           (a b : Group D) : bool :=
  (acc_count b <? acc_count a) ||
  ((acc_count a =? acc_count b) && String.leb (name a) (name b)).

(** A query on an [ObjectId] path casts the text it is given to the
    ObjectId that its 24 hexadecimal digits spell, whatever the case of the
    digits, and refuses any other text with a [CastError].  An ObjectId is
    held as the store shows it, in lower-case digits. *)
Definition isHexDigit (c : ascii) : bool :=
  let n := N_of_ascii c in
  (((48 <=? n) && (n <=? 57)) || ((97 <=? n) && (n <=? 102)) ||
   ((65 <=? n) && (n <=? 70)))%N.

Definition isObjectIdHex (s : string) : bool :=
  (Nat.eqb (String.length s) 24) && forallb isHexDigit (list_ascii_of_string s).

Definition castObjectId (text : string) : ObjectId := JS.toLowerCase text.

(** [findOne] with a predicate: the first matching document. *)
Definition findOne (f : Profile.t -> bool) (db : Store) : option Profile.t :=
  List.find f db.

(** [doc.save()]: the stored document with the same [_id] is replaced. *)
Definition save (doc : Profile.t) (db : Store) : Store :=
  map (fun x => if String.eqb (Profile._id x) (Profile._id doc) then doc else x) db.

End Mongo.

(* ================================================================= *)
(** ** Errors and the central responder (middleware/errorHandler) *)

Module ErrorHandler.

Record JsError := mkError {
  name : string;
  message : string;
  statusCode : option Z;
  code : option Z
}.

(** [new AppError(message, statusCode)]; its [name] is the class name. *)
Definition AppError (message : string) (statusCode : Z) : JsError :=
  mkError "AppError" message (Some statusCode) None.

(** [new Error(message)]. *)
Definition Error (message : string) : JsError :=
  mkError "Error" message None None.

Module createError.
Definition badRequest (message : string) := AppError message 400.
Definition unauthorized (message : string) := AppError message 401.
Definition forbidden (message : string) := AppError message 403.
Definition notFound (message : string) := AppError message 404.
Definition conflict (message : string) := AppError message 409.
Definition unprocessable (message : string) := AppError message 422.
Definition tooManyRequests (message : string) := AppError message 429.
Definition internal (message : string) := AppError message 500.
End createError.

(** Body of an error response; [error] is only present in development
    (the [stack] that accompanies it there is not modelled). *)
Record ErrorBody := mkErrorBody {
  success : bool;
  body_message : string;
  error : option string
}.

Definition status_and_message (e : JsError) : Z * string :=
  if String.eqb (name e) "ValidationError" then (400, "Validation failed"%string)
  else if String.eqb (name e) "CastError" then (400, "Invalid ID format"%string)
  else if String.eqb (name e) "MongoError" then
    match code e with
    | Some 11000 => (409, "Duplicate field value"%string)
    | _ => (500, "Database error"%string)
    end
  else if String.eqb (name e) "JsonWebTokenError" then (401, "Invalid token"%string)
  else if String.eqb (name e) "TokenExpiredError" then (401, "Token expired"%string)
  else if String.eqb (name e) "MulterError" then (400, "File upload error"%string)
  else
    match statusCode e with
    | Some c => if c =? 0 then (500, "Internal server error"%string) else (c, message e)
    | None => (500, "Internal server error"%string)
    end.

(** What a handler produces: a JSON body, or a thrown error. *)
Inductive Result (A : Type) :=
| Ok (body : A)
| Throw (e : JsError).
Arguments Ok {A} _.
Arguments Throw {A} _.

(** What the client receives. *)
Inductive Response (A : Type) :=
| Json (status : Z) (body : A)
| Failed (status : Z) (body : ErrorBody).
Arguments Json {A} _ _.
Arguments Failed {A} _ _.

Definition errorHandler {A : Type} (development : bool) (e : JsError) : Response A :=
  let (statusCode, message) := status_and_message e in
  Failed statusCode
         (mkErrorBody false message
                      (if development then Some (ErrorHandler.message e) else None)).

(** [asyncHandler]: a returned body is sent with status 200, a thrown
    error is forwarded to [errorHandler]. *)
Definition asyncHandler {A : Type} (development : bool) (r : Result A) : Response A :=
  match r with
  | Ok body => Json 200 body
  | Throw e => errorHandler development e
  end.

(** The success envelope [{ success: true, message?, data }]. *)
Record Envelope (A : Type) := mkEnvelope {
  env_success : bool;
  env_message : option string;
  data : A
}.
Arguments mkEnvelope {A} _ _ _.
Arguments env_success {A} _.
Arguments env_message {A} _.
Arguments data {A} _.

End ErrorHandler.

(* ================================================================= *)
(** ** Instance methods of the Profile model (models/Profile.js) *)

Module ProfileModel.
Import ErrorHandler.

Record PublicProfile := mkPublicProfile {
  id : ObjectId;
  name : string;
  bio : option string;
  education : option string;
  skills : list string;
  projects : list Project.t;
  work : list WorkExperience.t;
  links : Links.t;
  avatar : option string;
  location : option string;
  createdAt : Z;
  updatedAt : Z
}.

Definition getPublicProfile (this : Profile.t) : PublicProfile :=
  mkPublicProfile
    (Profile._id this) (Profile.name this) (Profile.bio this)
    (Profile.education this) (Profile.skills this)
    (filter Project.isPublic (Profile.projects this))
    (Profile.work this) (Profile.links this) (Profile.avatar this)
    (Profile.location this) (Profile.createdAt this) (Profile.updatedAt this).

(** Each method returns the document after the call together with the
    store after [this.save()].  [push] casts the text with the setter of
    the schema path ([trim: true]); [includes] looks for the text as
    given. *)
Definition addSkill (this : Profile.t) (skill : string) (db : Store)
  : Profile.t * Store :=
  let this' :=
    if negb (JS.Array_includes (Profile.skills this) skill)
    then Profile.set_skills this (Profile.skills this ++ [JS.trim skill])
    else this in
  (this', Mongo.save this' db).

Definition removeSkill (this : Profile.t) (skill : string) (db : Store)
  : Profile.t * Store :=
  let this' :=
    Profile.set_skills this
      (filter (fun s => negb (String.eqb s skill)) (Profile.skills this)) in
  (this', Mongo.save this' db).

(** A validated project payload: [title] and [description] are required,
    the other fields may be absent. *)
Record ProjectData := mkProjectData {
  pd_title : string;
  pd_description : string;
  pd_links : option (list string);
  pd_technologies : option (list string);
  pd_imageUrl : option string;
  pd_isPublic : option bool
}.

Definition or_else {A : Type} (o : option A) (d : A) : A :=
  match o with
  | Some v => v
  | None => d
  end.

(** [{ ...project.toObject(), ...projectData }]. *)
Definition spread (project : Project.t) (projectData : ProjectData) : Project.t :=
  Project.mk
    (Project._id project)
    (pd_title projectData)
    (pd_description projectData)
    (or_else (pd_links projectData) (Project.links project))
    (or_else (pd_technologies projectData) (Project.technologies project))
    (match pd_imageUrl projectData with
     | Some u => Some u
     | None => Project.imageUrl project
     end)
    (or_else (pd_isPublic projectData) (Project.isPublic project))
    (Project.createdAt project)
    (Project.updatedAt project).

(** [arr[i] = v] for an index inside the array. *)
Fixpoint assignAt {A : Type} (i : nat) (v : A) (arr : list A) : list A :=
  match arr, i with
  | [], _ => []
  | _ :: r, O => v :: r
  | x :: r, S j => x :: assignAt j v r
  end.

(** The subdocument that the array holds after the assignment of a plain
    object: every text is cast with the setter of its schema path
    ([trim: true]). *)
Definition castProject (o : Project.t) : Project.t :=
  Project.mk (Project._id o) (JS.trim (Project.title o))
             (JS.trim (Project.description o))
             (map JS.trim (Project.links o))
             (map JS.trim (Project.technologies o))
             (option_map JS.trim (Project.imageUrl o))
             (Project.isPublic o) (Project.createdAt o) (Project.updatedAt o).

(** [v] starts with a line terminator, which [.] does not match. *)
Definition startsWithLineTerminator (v : string) : bool :=
  match v with
  | EmptyString => false
  | String c r =>
      ((N_of_ascii c =? 10) || (N_of_ascii c =? 13) ||
       match r with
       | String d (String e _) =>
           (N_of_ascii c =? 226) && (N_of_ascii d =? 128) &&
           ((N_of_ascii e =? 168) || (N_of_ascii e =? 169))
       | _ => false
       end)%N
  end.

(** [/^https?:\/\/.+/.test(v)], the validator of a project link. *)
Definition isHttpLink (v : string) : bool :=
  let rest :=
    if String.prefix "https://" v then Some (String.substring 8 (String.length v - 8) v)
    else if String.prefix "http://" v
         then Some (String.substring 7 (String.length v - 7) v)
         else None in
  match rest with
  | Some r => negb (String.eqb r EmptyString) && negb (startsWithLineTerminator r)
  | None => false
  end.

(** The validators that [save] runs on an embedded project: [required] on
    the title and the description, the pattern of the links; the message of
    the first that fails.  (The length limits of the schema are those of
    the body validation, which ran before.) *)
Definition projectError (o : Project.t) : option string :=
  if String.eqb (Project.title o) EmptyString
  then Some "Project title is required"%string
  else if String.eqb (Project.description o) EmptyString
  then Some "Project description is required"%string
  else if negb (forallb isHttpLink (Project.links o))
  then Some "Project links must be valid URLs"%string
  else None.

(** [save] rejects with a [ValidationError] and writes nothing when a
    validator fails. *)
Definition updateProject (this : Profile.t) (projectId : string)
           (projectData : ProjectData) (db : Store)
  : Result (Profile.t * Store) :=
  let projectIndex :=
    JS.findIndex (fun p => String.eqb (Project._id p) projectId)
                 (Profile.projects this) in
  if negb (projectIndex =? -1) then
    match nth_error (Profile.projects this) (Z.to_nat projectIndex) with
    | Some project =>
        let project' := castProject (spread project projectData) in
        let this' :=
          Profile.set_projects this
            (assignAt (Z.to_nat projectIndex) project' (Profile.projects this)) in
        match projectError project' with
        | Some message => Throw (mkError "ValidationError" message None None)
        | None => Ok (this', Mongo.save this' db)
        end
    | None => Throw (mkError "TypeError" "Cannot read properties of undefined" None None)
    end
  else Throw (Error "Project not found").

Definition removeProject (this : Profile.t) (projectId : string) (db : Store)
  : Profile.t * Store :=
  let this' :=
    Profile.set_projects this
      (filter (fun p => negb (String.eqb (Project._id p) projectId))
              (Profile.projects this)) in
  (this', Mongo.save this' db).

End ProfileModel.

(* ================================================================= *)
(** ** Profile routes (/api/profile) *)

Module ProfileRoutes.
Import ErrorHandler ProfileModel.

(** Outcome of [schema.validate(req.body)]: the first violation's message,
    or the validated value. *)
Inductive Validation (A : Type) :=
| Invalid (detail : string)
| Valid (value : A).
Arguments Invalid {A} _.
Arguments Valid {A} _.

(** [Profile.findOne({ userId: req.user._id })]. *)
Definition ownProfile (user_id : ObjectId) (db : Store) : option Profile.t :=
  Mongo.findOne (fun p => String.eqb (Profile.userId p) user_id) db.

(** POST /api/profile/skills, for the authenticated user [user_id]. *)
Definition postSkill (user_id : ObjectId) (validated : Validation string)
           (db : Store) : Result (Envelope (list string)) * Store :=
  match validated with
  | Invalid detail => (Throw (createError.badRequest detail), db)
  | Valid skill =>
      match ownProfile user_id db with
      | None => (Throw (createError.notFound "Profile not found"), db)
      | Some profile =>
          let (profile', db') := addSkill profile skill db in
          (Ok (mkEnvelope true (Some "Skill added successfully"%string)
                          (Profile.skills profile')), db')
      end
  end.

(** DELETE /api/profile/skills/:skill. *)
Definition deleteSkill (user_id : ObjectId) (skill : string) (db : Store)
  : Result (Envelope (list string)) * Store :=
  match ownProfile user_id db with
  | None => (Throw (createError.notFound "Profile not found"), db)
  | Some profile =>
      let (profile', db') := removeSkill profile skill db in
      (Ok (mkEnvelope true (Some "Skill removed successfully"%string)
                      (Profile.skills profile')), db')
  end.

(** PUT /api/profile/projects/:projectId. *)
Definition putProject (user_id : ObjectId) (projectId : string)
           (validated : Validation ProjectData) (db : Store)
  : Result (Envelope (list Project.t)) * Store :=
  match validated with
  | Invalid detail => (Throw (createError.badRequest detail), db)
  | Valid value =>
      match ownProfile user_id db with
      | None => (Throw (createError.notFound "Profile not found"), db)
      | Some profile =>
          match updateProject profile projectId value db with
          | Throw e => (Throw e, db)
          | Ok (profile', db') =>
              (Ok (mkEnvelope true (Some "Project updated successfully"%string)
                              (Profile.projects profile')), db')
          end
      end
  end.

(** DELETE /api/profile/projects/:projectId. *)
Definition deleteProject (user_id : ObjectId) (projectId : string) (db : Store)
  : Result (Envelope (list Project.t)) * Store :=
  match ownProfile user_id db with
  | None => (Throw (createError.notFound "Profile not found"), db)
  | Some profile =>
      let (profile', db') := removeProject profile projectId db in
      (Ok (mkEnvelope true (Some "Project removed successfully"%string)
                      (Profile.projects profile')), db')
  end.

Definition isHexDigit (c : ascii) : bool :=
  let n := N_of_ascii c in
  (((48 <=? n) && (n <=? 57)) || ((97 <=? n) && (n <=? 102)) ||
   ((65 <=? n) && (n <=? 70)))%N.

(** [/^[0-9a-fA-F]{24}$/.test(s)]. *)
Definition isObjectIdString (s : string) : bool :=
  (Nat.eqb (String.length s) 24) && forallb isHexDigit (list_ascii_of_string s).

(** GET /api/profile/:userId. *)
Definition getProfileByUserId (userId : string) (db : Store)
  : Result (Envelope PublicProfile) :=
  if String.eqb userId EmptyString || negb (isObjectIdString userId) then
    Throw (createError.badRequest "Invalid user ID format")
  else
    match Mongo.findOne
            (fun p => String.eqb (Profile.userId p) (Mongo.castObjectId userId)
                      && Profile.isPublic p) db with
    | None => Throw (createError.notFound "Profile not found or not public")
    | Some profile => Ok (mkEnvelope true None (getPublicProfile profile))
    end.

End ProfileRoutes.

(* ================================================================= *)
(** ** Search routes (/api/search) *)

Module SearchRoutes.
Import ErrorHandler.

(** One result section: [{ data, total, totalPages, currentPage,
    hasNextPage, hasPrevPage }]. *)
Record Page (A : Type) := mkPage {
  data : list A;
  total : Z;
  totalPages : Z;
  currentPage : Z;
  hasNextPage : bool;
  hasPrevPage : bool
}.
Arguments mkPage {A} _ _ _ _ _ _.
Arguments data {A} _.
Arguments total {A} _.
Arguments totalPages {A} _.
Arguments currentPage {A} _.
Arguments hasNextPage {A} _.
Arguments hasPrevPage {A} _.

Record ProfileHit := mkProfileHit {
  ph_id : ObjectId;
  ph_userId : ObjectId;
  ph_name : string;
  ph_avatar : option string;
  ph_bio : option string;
  ph_skills : list string;
  ph_education : option string;
  ph_location : option string
}.

Record ProfileRef := mkProfileRef {
  pr_id : ObjectId;
  pr_userId : ObjectId;
  pr_name : string;
  pr_avatar : option string
}.

Record ProjectHit := mkProjectHit {
  id : ObjectId;
  title : string;
  description : string;
  links : list string;
  technologies : list string;
  imageUrl : option string;
  profile : ProfileRef
}.

Record SkillHit := mkSkillHit { name : string; count : Z }.

Record Results := mkResults {
  profiles : option (Page ProfileHit);
  projects : option (Page ProjectHit);
  skills : option (Page SkillHit)
}.

Record SearchData := mkSearchData {
  query : string;
  type : string;
  totalResults : Z;
  results : Results;
  pagination : Z * Z   (* currentPage, limit *)
}.

Record Suggestion := mkSuggestion {
  s_type : string;
  text : string;
  value : string
}.

Record SuggestionsData := mkSuggestionsData {
  sd_query : option string;
  suggestions : list Suggestion
}.

(** [!query || query.trim().length === 0]. *)
Definition noQuery (q : option string) : bool :=
  match q with
  | None => true
  | Some query =>
      String.eqb query EmptyString || Nat.eqb (String.length (JS.trim query)) 0
  end.

Definition default (o : option Z) (d : Z) : Z :=
  match o with
  | Some v => v
  | None => d
  end.

(** The pagination fields every section computes from its [total]. *)
Definition page_of {A : Type} (data : list A) (total pageLimit currentPage : Z)
  : Page A :=
  mkPage data total
         (JS.Math_ceil_div total pageLimit)
         currentPage
         (currentPage <? JS.Math_ceil_div total pageLimit)
         (1 <? currentPage).

Definition section_total {A : Type} (s : option (Page A)) : Z :=
  match s with
  | Some p => total p
  | None => 0
  end.

Section Handlers.
Context {RE : RegexEngine} {LC : LowerCase}.

(** Filter of the profiles branch. *)
Definition profileMatches (searchQuery : string) (p : Profile.t) : bool :=
  Profile.isPublic p &&
  (regex_i searchQuery (Profile.name p) ||
   Mongo.test_opt (regex_i searchQuery) (Profile.bio p) ||
   Mongo.test_opt (regex_i searchQuery) (Profile.education p) ||
   Mongo.test_opt (regex_i searchQuery) (Profile.location p)).

(** Filter of the projects branch: some embedded project matches. *)
Definition hasMatchingProject (searchQuery : string) (p : Profile.t) : bool :=
  Profile.isPublic p &&
  (existsb (fun x => regex_i searchQuery (Project.title x)) (Profile.projects p) ||
   existsb (fun x => regex_i searchQuery (Project.description x)) (Profile.projects p) ||
   existsb (fun x => existsb (regex_i searchQuery) (Project.technologies x))
           (Profile.projects p)).

(** Condition of the in-memory loop over the embedded projects. *)
Definition projectShown (searchQuery : string) (project : Project.t) : bool :=
  Project.isPublic project &&
  (JS.String_includes (toLowerCase (Project.title project))
                      (toLowerCase searchQuery) ||
   JS.String_includes (toLowerCase (Project.description project))
                      (toLowerCase searchQuery) ||
   existsb (fun tech => JS.String_includes (toLowerCase tech)
                                           (toLowerCase searchQuery))
           (Project.technologies project)).

Definition projectHit (profile : Profile.t) (project : Project.t) : ProjectHit :=
  mkProjectHit (Project._id project) (Project.title project)
               (Project.description project) (Project.links project)
               (Project.technologies project) (Project.imageUrl project)
               (mkProfileRef (Profile._id profile) (Profile.userId profile)
                             (Profile.name profile) (Profile.avatar profile)).

(** Second [$match] of the counting pipeline, on an unwound project. *)
Definition unwoundProjectMatches (searchQuery : string)
           (d : Profile.t * Project.t) : bool :=
  Project.isPublic (snd d) &&
  (regex_i searchQuery (Project.title (snd d)) ||
   regex_i searchQuery (Project.description (snd d)) ||
   existsb (regex_i searchQuery) (Project.technologies (snd d))).

Definition searchProfiles (searchQuery : string) (pageLimit currentPage : Z)
           (db : Store) : Page ProfileHit :=
  let profiles :=
    Mongo.limit pageLimit
      (Mongo.skip ((currentPage - 1) * pageLimit)
         (Mongo.sortBy (fun a b => String.leb (Profile.name a) (Profile.name b))
            (filter (profileMatches searchQuery) db))) in
  let totalProfiles :=
    Z.of_nat (length (filter (profileMatches searchQuery) db)) in
  page_of
    (map (fun profile =>
            mkProfileHit (Profile._id profile) (Profile.userId profile)
                         (Profile.name profile) (Profile.avatar profile)
                         (Profile.bio profile) (Profile.skills profile)
                         (Profile.education profile) (Profile.location profile))
         profiles)
    totalProfiles pageLimit currentPage.

Definition searchProjects (searchQuery : string) (pageLimit currentPage : Z)
           (db : Store) : Page ProjectHit :=
  let profilesWithProjects :=
    Mongo.limit pageLimit
      (Mongo.skip ((currentPage - 1) * pageLimit)
         (filter (hasMatchingProject searchQuery) db)) in
  let projects :=
    flat_map (fun profile =>
                map (projectHit profile)
                    (filter (projectShown searchQuery) (Profile.projects profile)))
             profilesWithProjects in
  let totalProjectsCount :=
    Z.of_nat (length (filter (unwoundProjectMatches searchQuery)
                             (Mongo.unwind_projects (filter Profile.isPublic db)))) in
  page_of projects totalProjectsCount pageLimit currentPage.

(** Skill pipeline up to and including [$sort]. *)
Definition matchingSkillGroups (searchQuery : string) (db : Store)
  : list (Mongo.Group (Profile.t * string)) :=
  Mongo.sortBy (Mongo.by_count_desc_then (Mongo.acc_first snd))
    (Mongo.group_by (fun d => JS.toLowerCase (snd d))
       (filter (fun d => regex_i searchQuery (snd d))
          (Mongo.unwind_skills (filter Profile.isPublic db)))).

Definition skillHit (g : Mongo.Group (Profile.t * string)) : SkillHit :=
  mkSkillHit (Mongo.acc_first snd g) (Mongo.acc_count g).

Definition searchSkills (searchQuery : string) (pageLimit currentPage : Z)
           (db : Store) : Page SkillHit :=
  let matchingSkills :=
    Mongo.limit pageLimit
      (Mongo.skip ((currentPage - 1) * pageLimit)
         (matchingSkillGroups searchQuery db)) in
  let totalSkillsCount :=
    Z.of_nat (length
      (Mongo.group_by (fun d => JS.toLowerCase (snd d))
         (filter (fun d => regex_i searchQuery (snd d))
            (Mongo.unwind_skills (filter Profile.isPublic db))))) in
  page_of (map skillHit matchingSkills) totalSkillsCount pageLimit currentPage.

(** GET /api/search?q=&type=&limit=&page= *)
Definition search (q type : option string) (limit page : option Z) (db : Store)
  : Result (Envelope SearchData) :=
  if noQuery q then Throw (createError.badRequest "Search query is required")
  else
    let searchQuery :=
      JS.trim (match q with Some query => query | None => EmptyString end) in
    let searchType := if JS.truthy type
                      then match type with Some t => t | None => EmptyString end
                      else "all"%string in
    let pageLimit := default limit 20 in
    let currentPage := default page 1 in
    let wants (t : string) :=
      String.eqb searchType "all" || String.eqb searchType t in
    let results :=
      mkResults
        (if wants "profiles"%string
         then Some (searchProfiles searchQuery pageLimit currentPage db) else None)
        (if wants "projects"%string
         then Some (searchProjects searchQuery pageLimit currentPage db) else None)
        (if wants "skills"%string
         then Some (searchSkills searchQuery pageLimit currentPage db) else None) in
    let totalResults :=
      section_total (profiles results) + section_total (projects results)
      + section_total (skills results) in
    Ok (mkEnvelope true None
          (mkSearchData searchQuery searchType totalResults results
                        (currentPage, pageLimit))).

(** Removal of duplicates: an element stays when its index is the index
    of the first element with the same [value]. *)
Definition uniqueByValue (suggestions : list Suggestion) : list Suggestion :=
  JS.filter_indexed
    (fun suggestion index self =>
       index =? JS.findIndex (fun s => String.eqb (value s) (value suggestion)) self)
    suggestions.

Definition profileSuggestions (searchQuery : string) (db : Store) : list Profile.t :=
  Mongo.limit 5
    (filter (fun p => regex_i (String "^"%char searchQuery) (Profile.name p)
                      && Profile.isPublic p) db).

Definition skillSuggestions (searchQuery : string) (db : Store)
  : list (Mongo.Group (Profile.t * string)) :=
  Mongo.limit 5
    (Mongo.group_by (fun d => JS.toLowerCase (snd d))
       (filter (fun d => regex_i (String "^"%char searchQuery) (snd d))
          (Mongo.unwind_skills (filter Profile.isPublic db)))).

Definition projectSuggestions (searchQuery : string) (db : Store)
  : list (Mongo.Group (Profile.t * Project.t)) :=
  Mongo.limit 5
    (Mongo.group_by (fun d => Project.title (snd d))
       (filter (fun d => Project.isPublic (snd d) &&
                         regex_i (String "^"%char searchQuery) (Project.title (snd d)))
          (Mongo.unwind_projects (filter Profile.isPublic db)))).

(** GET /api/search/suggestions?q=&limit= *)
Definition getSuggestions (q : option string) (limit : option Z) (db : Store)
  : Result (Envelope SuggestionsData) :=
  if noQuery q then Ok (mkEnvelope true None (mkSuggestionsData None []))
  else
    let searchQuery :=
      JS.trim (match q with Some query => query | None => EmptyString end) in
    let suggestions :=
      map (fun profile =>
             mkSuggestion "profile" (Profile.name profile) (Profile.name profile))
          (profileSuggestions searchQuery db)
      ++ map (fun skill =>
                mkSuggestion "skill" (Mongo.acc_first snd skill)
                             (Mongo.acc_first snd skill))
             (skillSuggestions searchQuery db)
      ++ map (fun project =>
                let title := Mongo.acc_first (fun d => Project.title (snd d)) project in
                mkSuggestion "project" title title)
             (projectSuggestions searchQuery db) in
    let uniqueSuggestions :=
      JS.slice (uniqueByValue suggestions) 0 (default limit 10) in
    Ok (mkEnvelope true None
          (mkSuggestionsData (Some searchQuery) uniqueSuggestions)).

End Handlers.

End SearchRoutes.

(* ================================================================= *)
(** ** The pagination object of the list routes *)

Module Pagination.

(** [{ currentPage, totalPages, total..., hasNextPage, hasPrevPage }]; the
    count is called [totalSkills], [totalProjects] or [totalProfiles] by
    the route that sends it. *)
Record t := mk {
  currentPage : Z;
  totalPages : Z;
  total : Z;
  hasNextPage : bool;
  hasPrevPage : bool
}.

Definition paginate (total limit page : Z) : t :=
  let totalPages := JS.Math_ceil_div total limit in
  mk page totalPages total (page <? totalPages) (1 <? page).

End Pagination.

(* ================================================================= *)
(** ** Skill routes (/api/skills) *)

Module SkillRoutes.
Import ErrorHandler.

Record SkillRow := mkSkillRow {
  name : string;
  count : Z;
  profileCount : Z
}.

Record RankedSkill := mkRankedSkill {
  rank : Z;
  r_name : string;
  r_count : Z;
  r_profileCount : Z
}.

Record SkillsData := mkSkillsData {
  skills : list SkillRow;
  pagination : Pagination.t
}.

Record TopSkillsData := mkTopSkillsData {
  top_skills : list RankedSkill;
  top_total : Z
}.

Record RelatedSkill := mkRelatedSkill { rs_name : string; rs_count : Z }.

Record SkillSummary := mkSkillSummary {
  sk_name : string;
  totalProfiles : Z;
  totalProjects : Z
}.

(** [userId] is not among the selected fields of the query, so the
    response carries none. *)
Record ProfileItem := mkProfileItem {
  pi_id : ObjectId;
  pi_userId : option ObjectId;
  pi_name : string;
  pi_avatar : option string;
  pi_bio : option string;
  pi_skills : list string;
  pi_location : option string
}.

Record ProjectItem := mkProjectItem {
  id : ObjectId;
  title : string;
  description : string;
  links : list string;
  technologies : list string;
  imageUrl : option string;
  owner : ObjectId * string * option string   (* profile: id, name, avatar *)
}.

Record SkillDetail := mkSkillDetail {
  skill : SkillSummary;
  profiles : list ProfileItem;
  projects : list ProjectItem;
  relatedSkills : list RelatedSkill;
  detail_pagination : Pagination.t
}.

(** [arr.map((x, index) => f x index)]. *)
Fixpoint map_from {A B : Type} (f : A -> Z -> B) (index : Z) (arr : list A) : list B :=
  match arr with
  | [] => []
  | x :: r => f x index :: map_from f (index + 1) r
  end.

(** [$match], [$unwind], [$group] shared by the two listings: skills of
    public profiles grouped by their lower-cased text. *)
Definition skillGroups (db : Store) : list (Mongo.Group (Profile.t * string)) :=
  Mongo.group_by (fun d => JS.toLowerCase (snd d))
                 (Mongo.unwind_skills (filter Profile.isPublic db)).

Definition skillRow (g : Mongo.Group (Profile.t * string)) : SkillRow :=
  mkSkillRow (Mongo._id g) (Mongo.acc_count g)
             (Z.of_nat (length (Mongo.acc_addToSet (fun d => Profile.userId (fst d)) g))).

(** GET /api/skills?limit=&page= *)
Definition getSkills (limit page : option Z) (db : Store)
  : Result (Envelope SkillsData) :=
  let limit := SearchRoutes.default limit 50 in
  let page := SearchRoutes.default page 1 in
  let skillsAggregation :=
    Mongo.limit limit
      (Mongo.skip ((page - 1) * limit)
         (Mongo.sortBy (Mongo.by_count_desc_then Mongo._id) (skillGroups db))) in
  let totalCount := Z.of_nat (length (skillGroups db)) in
  Ok (mkEnvelope true None
        (mkSkillsData (map skillRow skillsAggregation)
                      (Pagination.paginate totalCount limit page))).

(** GET /api/skills/top?limit= *)
Definition getTopSkills (limit : option Z) (db : Store)
  : Result (Envelope TopSkillsData) :=
  let limit := SearchRoutes.default limit 10 in
  let topSkills :=
    Mongo.limit limit (Mongo.sortBy Mongo.by_count_desc (skillGroups db)) in
  let skills :=
    map_from (fun skill index =>
                mkRankedSkill (index + 1) (Mongo._id skill) (Mongo.acc_count skill)
                  (Z.of_nat (length (Mongo.acc_addToSet
                                       (fun d => Profile.userId (fst d)) skill))))
             0 topSkills in
  Ok (mkEnvelope true None (mkTopSkillsData skills (Z.of_nat (length skills)))).

(** The related-skills pipeline of GET /api/skills/:skillName: groups by
    the skill text as stored, sorted by count, the first ten. *)
Definition relatedSkillGroups (db : Store) : list (Mongo.Group (Profile.t * string)) :=
  Mongo.limit 10
    (Mongo.sortBy Mongo.by_count_desc
       (Mongo.group_by snd (Mongo.unwind_skills (filter Profile.isPublic db)))).

Section Handlers.
Context {RE : RegexEngine} {LC : LowerCase}.

Definition hasSkill (skillName : string) (p : Profile.t) : bool :=
  existsb (regex_i skillName) (Profile.skills p) && Profile.isPublic p.

Definition usesSkill (skillName : string) (project : Project.t) : bool :=
  Project.isPublic project &&
  existsb (fun tech => JS.String_includes (toLowerCase tech)
                                          (toLowerCase skillName))
          (Project.technologies project).

(** GET /api/skills/:skillName?limit=&page= *)
Definition getSkill (skillName : string) (limit page : option Z) (db : Store)
  : Result (Envelope SkillDetail) :=
  let limit := SearchRoutes.default limit 20 in
  let page := SearchRoutes.default page 1 in
  let profilesWithSkill := filter (hasSkill skillName) db in
  if Nat.eqb (length profilesWithSkill) 0 then
    Throw (createError.notFound "No profiles found with this skill")
  else
    let totalProfiles := Z.of_nat (length (filter (hasSkill skillName) db)) in
    let projectsWithSkill :=
      flat_map (fun profile =>
                  map (fun project =>
                         mkProjectItem (Project._id project) (Project.title project)
                           (Project.description project) (Project.links project)
                           (Project.technologies project) (Project.imageUrl project)
                           (Profile._id profile, Profile.name profile,
                            Profile.avatar profile))
                      (filter (usesSkill skillName) (Profile.projects profile)))
               profilesWithSkill in
    let startIndex := (page - 1) * limit in
    let endIndex := startIndex + limit in
    let paginatedProfiles := JS.slice profilesWithSkill startIndex endIndex in
    let relatedSkills := relatedSkillGroups db in
    Ok (mkEnvelope true None
          (mkSkillDetail
             (mkSkillSummary skillName totalProfiles
                             (Z.of_nat (length projectsWithSkill)))
             (map (fun profile =>
                     mkProfileItem (Profile._id profile) None (Profile.name profile)
                                   (Profile.avatar profile) (Profile.bio profile)
                                   (Profile.skills profile) (Profile.location profile))
                  paginatedProfiles)
             (JS.slice projectsWithSkill 0 10)
             (map (fun skill => mkRelatedSkill (Mongo._id skill) (Mongo.acc_count skill))
                  (JS.slice
                     (filter (fun skill =>
                                negb (String.eqb (toLowerCase (Mongo._id skill))
                                                 (toLowerCase skillName)))
                             relatedSkills)
                     0 5))
             (Pagination.paginate totalProfiles limit page))).

End Handlers.

End SkillRoutes.

(* ================================================================= *)
(** ** Project routes (/api/projects) *)

Module ProjectRoutes.
Import ErrorHandler.

Record OwnerRef := mkOwnerRef {
  o_id : ObjectId;
  o_name : string;
  o_avatar : option string;
  o_skills : list string
}.

Record ProjectItem := mkProjectItem {
  id : ObjectId;
  title : string;
  description : string;
  links : list string;
  technologies : list string;
  imageUrl : option string;
  createdAt : Z;
  updatedAt : Z;
  profile : OwnerRef
}.

Record ProjectsData := mkProjectsData {
  projects : list ProjectItem;
  pagination : Pagination.t
}.

Record ProjectView := mkProjectView {
  v_id : ObjectId;
  v_title : string;
  v_description : string;
  v_links : list string;
  v_technologies : list string;
  v_imageUrl : option string;
  v_createdAt : Z;
  v_updatedAt : Z
}.

Record OwnerView := mkOwnerView {
  ov_id : ObjectId;
  ov_name : string;
  ov_avatar : option string;
  ov_skills : list string;
  ov_bio : option string
}.

Record ProjectDetail := mkProjectDetail {
  project : ProjectView;
  owner : OwnerView
}.

(** Sort key of [{ 'projects.createdAt': -1 }]: the newest embedded
    project; a profile without projects sorts last. *)
Definition newest (p : Profile.t) : option Z :=
  fold_right (fun x acc =>
                match acc with
                | None => Some (Project.createdAt x)
                | Some m => Some (Z.max (Project.createdAt x) m)
                end)
             None (Profile.projects p).

Definition by_projects_createdAt_desc (a b : Profile.t) : bool :=
  match newest a, newest b with
  | _, None => true
  | None, Some _ => false
  | Some x, Some y => y <=? x
  end.

Definition projectItem (profile : Profile.t) (project : Project.t) : ProjectItem :=
  mkProjectItem (Project._id project) (Project.title project)
                (Project.description project) (Project.links project)
                (Project.technologies project) (Project.imageUrl project)
                (Project.createdAt project) (Project.updatedAt project)
                (mkOwnerRef (Profile._id profile) (Profile.name profile)
                            (Profile.avatar profile) (Profile.skills profile)).

(** The filter document of GET /api/projects/:projectId.  Each dotted
    condition on the embedded array is satisfied by the array as a whole:
    some project has the id, and some project is public. *)
Definition projectQuery (projectId : string) (p : Profile.t) : bool :=
  existsb (fun x => String.eqb (Project._id x) projectId) (Profile.projects p) &&
  existsb Project.isPublic (Profile.projects p) &&
  Profile.isPublic p.

(** GET /api/projects/:projectId, for an id the store can cast. *)
Definition getProject (projectId : string) (db : Store)
  : Result (Envelope ProjectDetail) :=
  match Mongo.findOne (projectQuery projectId) db with
  | None => Throw (createError.notFound "Project not found or not public")
  | Some profile =>
      match JS.Array_find (fun p => String.eqb (Project._id p) projectId)
                          (Profile.projects profile) with
      | None => Throw (createError.notFound "Project not found")
      | Some project =>
          Ok (mkEnvelope true None
                (mkProjectDetail
                   (mkProjectView (Project._id project) (Project.title project)
                                  (Project.description project) (Project.links project)
                                  (Project.technologies project)
                                  (Project.imageUrl project)
                                  (Project.createdAt project)
                                  (Project.updatedAt project))
                   (mkOwnerView (Profile._id profile) (Profile.name profile)
                                (Profile.avatar profile) (Profile.skills profile)
                                (Profile.bio profile))))
      end
  end.

Section Handlers.
Context {RE : RegexEngine} {LC : LowerCase}.

(** The filter document of GET /api/projects. *)
Definition listQuery (skill search : option string) (p : Profile.t) : bool :=
  Profile.isPublic p &&
  (if JS.truthy skill
   then match skill with
        | Some s => existsb (regex_i s) (Profile.skills p)
        | None => true
        end
   else true) &&
  (if JS.truthy search
   then match search with
        | Some s =>
            existsb (fun x => regex_i s (Project.title x)) (Profile.projects p) ||
            existsb (fun x => regex_i s (Project.description x)) (Profile.projects p)
        | None => true
        end
   else true).

(** GET /api/projects?skill=&search=&limit=&page= *)
Definition getProjects (skill search : option string) (limit page : option Z)
           (db : Store) : Result (Envelope ProjectsData) :=
  let limit := SearchRoutes.default limit 20 in
  let page := SearchRoutes.default page 1 in
  let profiles :=
    Mongo.limit limit
      (Mongo.skip ((page - 1) * limit)
         (Mongo.sortBy by_projects_createdAt_desc
            (filter (listQuery skill search) db))) in
  let allProjects :=
    flat_map (fun profile =>
                map (projectItem profile)
                    (filter Project.isPublic (Profile.projects profile)))
             profiles in
  let filteredProjects :=
    if JS.truthy skill
    then match skill with
         | Some s =>
             filter (fun project =>
                       existsb (fun tech =>
                                  JS.String_includes (toLowerCase tech)
                                                     (toLowerCase s))
                               (technologies project))
                    allProjects
         | None => allProjects
         end
    else allProjects in
  let totalProjects := Z.of_nat (length filteredProjects) in
  let startIndex := (page - 1) * limit in
  let endIndex := startIndex + limit in
  let paginatedProjects := JS.slice filteredProjects startIndex endIndex in
  Ok (mkEnvelope true None
        (mkProjectsData paginatedProjects
                        (Pagination.paginate totalProjects limit page))).

End Handlers.

End ProjectRoutes.

(* ================================================================= *)
(** ** Further search routes (/api/search/advanced, /trending-skills) *)

Module AdvancedSearch.
Import ErrorHandler.

(** [s.split(',')]. *)
Fixpoint split_comma (s : string) : list string :=
match s with
| EmptyString => [EmptyString]
| String c r =>
    if Ascii.eqb c ","%char then EmptyString :: split_comma r
    else match split_comma r with
         | h :: t => String c h :: t
         | [] => [String c EmptyString]
         end
end.

Record ProfileCard := mkProfileCard {
  id : ObjectId;
  userId : ObjectId;
  name : string;
  avatar : option string;
  bio : option string;
  skills : list string;
  education : option string;
  location : option string;
  projects : list Project.t;
  work : list WorkExperience.t
}.

Record QueryEcho := mkQueryEcho {
  text : string;
  echo_skills : list string;
  echo_location : string;
  echo_education : string;
  projectTech : list string
}.

Record AdvancedData := mkAdvancedData {
  query : QueryEcho;
  profiles : list ProfileCard;
  pagination : Pagination.t
}.

Definition or_empty (o : option string) : string :=
match o with
| Some s => s
| None => EmptyString
end.

(** [x ? x.split(',') : []]. *)
Definition split_or_nil (o : option string) : list string :=
if JS.truthy o then split_comma (or_empty o) else [].

(** [x.split(',').map(e => e.trim())]. *)
Definition patterns (x : string) : list string := map JS.trim (split_comma x).

Section Handlers.
Context {RE : RegexEngine}.

(** The filter document built by the handler: [isPublic: true] and one
    condition per parameter that is given. *)
Definition searchQuery (q skills location education projectTech : option string)
           (p : Profile.t) : bool :=
Profile.isPublic p &&
(if SearchRoutes.noQuery q then true
 else
   let t := JS.trim (or_empty q) in
   regex_i t (Profile.name p) ||
   Mongo.test_opt (regex_i t) (Profile.bio p) ||
   existsb (fun x => regex_i t (Project.title x)) (Profile.projects p) ||
   existsb (fun x => regex_i t (Project.description x)) (Profile.projects p)) &&
(if JS.truthy skills
 then existsb (fun s => existsb (fun pat => regex_i pat s) (patterns (or_empty skills)))
              (Profile.skills p)
 else true) &&
(if JS.truthy location
 then Mongo.test_opt (regex_i (or_empty location)) (Profile.location p)
 else true) &&
(if JS.truthy education
 then Mongo.test_opt (regex_i (or_empty education)) (Profile.education p)
 else true) &&
(if JS.truthy projectTech
 then existsb (fun x =>
                 existsb (fun tech =>
                            existsb (fun pat => regex_i pat tech)
                                    (patterns (or_empty projectTech)))
                         (Project.technologies x))
              (Profile.projects p)
 else true).

Definition profileCard (profile : Profile.t) : ProfileCard :=
mkProfileCard (Profile._id profile) (Profile.userId profile) (Profile.name profile)
              (Profile.avatar profile) (Profile.bio profile) (Profile.skills profile)
              (Profile.education profile) (Profile.location profile)
              (JS.slice (filter Project.isPublic (Profile.projects profile)) 0 3)
              (JS.slice (Profile.work profile) 0 2).

(** GET /api/search/advanced *)
Definition advanced (q skills location education projectTech : option string)
           (limit page : option Z) (db : Store) : Result (Envelope AdvancedData) :=
let limit := SearchRoutes.default limit 20 in
let page := SearchRoutes.default page 1 in
let matches := searchQuery q skills location education projectTech in
let profiles :=
  Mongo.limit limit
    (Mongo.skip ((page - 1) * limit)
       (Mongo.sortBy (fun a b => String.leb (Profile.name a) (Profile.name b))
          (filter matches db))) in
let totalProfiles := Z.of_nat (length (filter matches db)) in
Ok (mkEnvelope true None
      (mkAdvancedData
         (mkQueryEcho (or_empty q) (split_or_nil skills) (or_empty location)
                      (or_empty education) (split_or_nil projectTech))
         (map profileCard profiles)
         (Pagination.paginate totalProfiles limit page))).

End Handlers.

(** GET /api/search/trending-skills?limit= *)
Definition trendingSkills (limit : option Z) (db : Store)
  : Result (Envelope (list SearchRoutes.SkillHit)) :=
let pageLimit := SearchRoutes.default limit 10 in
let trendingSkills :=
  Mongo.limit pageLimit
    (Mongo.sortBy (Mongo.by_count_desc_then (Mongo.acc_first snd))
       (Mongo.group_by (fun d => JS.toLowerCase (snd d))
          (Mongo.unwind_skills (filter Profile.isPublic db)))) in
Ok (mkEnvelope true None (map SearchRoutes.skillHit trendingSkills)).

End AdvancedSearch.

(* ================================================================= *)
(** ** Further skill route (/api/skills/search/:query) *)

Module SkillBrowsing.
Import ErrorHandler.

Record SkillSearchData := mkSkillSearchData {
  query : string;
  skills : list SearchRoutes.SkillHit;
  total : Z
}.

Section Handlers.
Context {RE : RegexEngine}.

(** GET /api/skills/search/:query?limit= *)
Definition searchSkillNames (query : string) (limit : option Z) (db : Store)
  : Result (Envelope SkillSearchData) :=
let limit := SearchRoutes.default limit 20 in
let matchingSkills :=
  Mongo.limit limit
    (Mongo.sortBy (Mongo.by_count_desc_then (Mongo.acc_first snd))
       (Mongo.group_by (fun d => JS.toLowerCase (snd d))
          (filter (fun d => regex_i query (snd d))
             (Mongo.unwind_skills (filter Profile.isPublic db))))) in
let skills := map SearchRoutes.skillHit matchingSkills in
Ok (mkEnvelope true None
      (mkSkillSearchData query skills (Z.of_nat (length skills)))).

End Handlers.

End SkillBrowsing.

(* ================================================================= *)
(** ** Further project routes (/api/projects/skill/:skill, /user/:userId,
       /trending) *)

Module ProjectBrowsing.
Import ErrorHandler.

Record SkillProjectsData := mkSkillProjectsData {
  skill : string;
  projects : list ProjectRoutes.ProjectItem;
  pagination : Pagination.t
}.

Record UserProjectsData := mkUserProjectsData {
  profile : ProjectRoutes.OwnerView;
  user_projects : list Project.t;
  user_pagination : Pagination.t
}.

(** [arr.sort((a, b) => new Date(b.createdAt) - new Date(a.createdAt))]:
    the sort is stable, so it is the insertion sort with "not older". *)
Definition newestFirst (arr : list ProjectRoutes.ProjectItem)
  : list ProjectRoutes.ProjectItem :=
Mongo.sortBy (fun a b => ProjectRoutes.createdAt b <=? ProjectRoutes.createdAt a) arr.

(** GET /api/projects/user/:userId?limit=&page=.  The route does not check
    the id; the query casts it. *)
Definition getUserProjects (userId : string) (limit page : option Z) (db : Store)
  : Result (Envelope UserProjectsData) :=
let limit := SearchRoutes.default limit 20 in
let page := SearchRoutes.default page 1 in
if negb (Mongo.isObjectIdHex userId) then
  Throw (mkError "CastError" "Cast to ObjectId failed" None None)
else
match Mongo.findOne
        (fun p => String.eqb (Profile.userId p) (Mongo.castObjectId userId)
                  && Profile.isPublic p) db with
| None => Throw (createError.notFound "User profile not found or not public")
| Some profile =>
    let publicProjects := filter Project.isPublic (Profile.projects profile) in
    let totalProjects := Z.of_nat (length publicProjects) in
    let startIndex := (page - 1) * limit in
    let endIndex := startIndex + limit in
    let paginatedProjects := JS.slice publicProjects startIndex endIndex in
    Ok (mkEnvelope true None
          (mkUserProjectsData
             (ProjectRoutes.mkOwnerView (Profile._id profile) (Profile.name profile)
                                        (Profile.avatar profile) (Profile.skills profile)
                                        (Profile.bio profile))
             paginatedProjects
             (Pagination.paginate totalProjects limit page)))
end.

(** GET /api/projects/trending/trending?limit= *)
Definition getTrending (limit : option Z) (db : Store)
  : Result (Envelope (list ProjectRoutes.ProjectItem)) :=
let limit := SearchRoutes.default limit 10 in
let profiles :=
  Mongo.limit (limit * 2)
    (Mongo.sortBy ProjectRoutes.by_projects_createdAt_desc
       (filter Profile.isPublic db)) in
let allProjects :=
  flat_map (fun profile =>
              map (ProjectRoutes.projectItem profile)
                  (filter Project.isPublic (Profile.projects profile)))
           profiles in
let trendingProjects := JS.slice (newestFirst allProjects) 0 limit in
Ok (mkEnvelope true None trendingProjects).

Section Handlers.
Context {RE : RegexEngine} {LC : LowerCase}.

(** GET /api/projects/skill/:skill?limit=&page= *)
Definition getProjectsBySkill (skill : string) (limit page : option Z) (db : Store)
  : Result (Envelope SkillProjectsData) :=
let limit := SearchRoutes.default limit 20 in
let page := SearchRoutes.default page 1 in
let profiles := filter (SkillRoutes.hasSkill skill) db in
let projectsWithSkill :=
  flat_map (fun profile =>
              map (ProjectRoutes.projectItem profile)
                  (filter (SkillRoutes.usesSkill skill) (Profile.projects profile)))
           profiles in
let sorted := newestFirst projectsWithSkill in
let totalProjects := Z.of_nat (length sorted) in
let startIndex := (page - 1) * limit in
let endIndex := startIndex + limit in
let paginatedProjects := JS.slice sorted startIndex endIndex in
Ok (mkEnvelope true None
      (mkSkillProjectsData skill paginatedProjects
                           (Pagination.paginate totalProjects limit page))).

End Handlers.

End ProjectBrowsing.

(* ================================================================= *)
(** ** The caller's own profile (GET and PUT /api/profile) *)

Module OwnProfileRoutes.
Import ErrorHandler.

(** A validated update: every field may be absent. *)
Record ProfileUpdate := mkProfileUpdate {
  name : option string;
  email : option string;
  bio : option string;
  education : option string;
  location : option string;
  avatar : option string;
  isPublic : option bool
}.

Definition set_opt (setter : string -> string) (v : option string)
           (old : option string) : option string :=
match v with
| Some x => Some (setter x)
| None => old
end.

(** [Object.assign(profile, value)]: each given field is assigned through
    the setters its schema path declares ([trim], and [lowercase] for the
    email). *)
Definition assign (profile : Profile.t) (value : ProfileUpdate) : Profile.t :=
Profile.mk
  (Profile._id profile)
  (Profile.userId profile)
  (match name value with Some x => JS.trim x | None => Profile.name profile end)
  (match email value with
   | Some x => JS.toLowerCase (JS.trim x)
   | None => Profile.email profile
   end)
  (set_opt JS.trim (education value) (Profile.education profile))
  (set_opt JS.trim (bio value) (Profile.bio profile))
  (Profile.skills profile)
  (Profile.projects profile)
  (Profile.work profile)
  (Profile.links profile)
  (set_opt JS.trim (avatar value) (Profile.avatar profile))
  (set_opt JS.trim (location value) (Profile.location profile))
  (match isPublic value with Some b => b | None => Profile.isPublic profile end)
  (Profile.createdAt profile)
  (Profile.updatedAt profile).

(** GET /api/profile, for the authenticated user [user_id]. *)
Definition getOwnProfile (user_id : ObjectId) (db : Store)
  : Result (Envelope Profile.t) :=
match ProfileRoutes.ownProfile user_id db with
| None => Throw (createError.notFound "Profile not found")
| Some profile => Ok (mkEnvelope true None profile)
end.

Section Handlers.
(** Outcome of the schema validators that [save] runs on the document:
    the message of the validation error, if any. *)
Variable schemaError : Profile.t -> option string.

(** PUT /api/profile.  A document that fails the validators is not
    written and [save] throws the validation error. *)
Definition putProfile (user_id : ObjectId)
           (validated : ProfileRoutes.Validation ProfileUpdate) (db : Store)
  : Result (Envelope Profile.t) * Store :=
match validated with
| ProfileRoutes.Invalid detail => (Throw (createError.badRequest detail), db)
| ProfileRoutes.Valid value =>
    match ProfileRoutes.ownProfile user_id db with
    | None => (Throw (createError.notFound "Profile not found"), db)
    | Some profile =>
        let profile' := assign profile value in
        match schemaError profile' with
        | None =>
            (Ok (mkEnvelope true (Some "Profile updated successfully"%string) profile'),
             Mongo.save profile' db)
        | Some message => (Throw (mkError "ValidationError" message None None), db)
        end
    end
end.

End Handlers.

End OwnProfileRoutes.

(* ================================================================= *)
(** ** Token issuing (routes/auth.js) *)

Module Auth.
Import ErrorHandler.

(** The environment variables the function reads. *)
Record Env := mkEnv {
  JWT_SECRET : option string;
  NODE_ENV : option string;
  JWT_EXPIRES_IN : option string
}.

(** What is handed to [jwt.sign]: payload, secret and expiry. *)
Record SignCall := mkSignCall {
  payload_userId : ObjectId;
  secret : string;
  expiresIn : string
}.

Definition or_default (o : option string) (d : string) : string :=
if JS.truthy o then match o with Some s => s | None => d end else d.

Definition generateToken (env : Env) (userId : ObjectId) : Result SignCall :=
if negb (JS.truthy (JWT_SECRET env)) then
  if match NODE_ENV env with
     | Some e => String.eqb e "development"
     | None => false
     end
  then
    let fallbackSecret := "dev-secret-key-for-development-only"%string in
    Ok (mkSignCall userId fallbackSecret (or_default (JWT_EXPIRES_IN env) "7d"))
  else Throw (Error "JWT_SECRET environment variable is not configured")
else
  Ok (mkSignCall userId
                 (match JWT_SECRET env with Some s => s | None => EmptyString end)
                 (or_default (JWT_EXPIRES_IN env) "7d")).

End Auth.

(* ================================================================= *)
(** ** Vocabulary of the specification *)

Module Spec.

(** A free-text query that is absent, empty, or made of whitespace only. *)
Definition isBlank (q : option string) : bool :=
  match q with
  | None => true
  | Some s => JS.isWhiteSpaceOnly s
  end.

(** [s] starts with [q], letter case ignored. *)
Definition istartsWith (q s : string) : bool :=
  String.prefix (JS.toLowerCase q) (JS.toLowerCase s).

(** Equality of two skill names, letter case ignored. *)
Definition ieq (a b : string) : bool :=
  String.eqb (JS.toLowerCase a) (JS.toLowerCase b).

(** All skill entries of the public profiles, in store order. *)
Definition publicSkills (db : Store) : list string :=
  flat_map Profile.skills (filter Profile.isPublic db).

(** The names of the public profiles, in store order. *)
Definition publicNames (db : Store) : list string :=
map Profile.name (filter Profile.isPublic db).

(** All titles of public projects of public profiles, in store order. *)
Definition publicProjectTitles (db : Store) : list string :=
  flat_map (fun p => map Project.title (filter Project.isPublic (Profile.projects p)))
           (filter Profile.isPublic db).

(** How many entries of [occ] have key [k] under [key], and the first of
    them. *)
Definition occurrences (key : string -> string) (k : string) (occ : list string) : Z :=
  Z.of_nat (length (filter (fun s => String.eqb (key s) k) occ)).

Definition firstSeen (key : string -> string) (k : string) (occ : list string)
  : option string :=
  find (fun s => String.eqb (key s) k) occ.

(** A histogram of [occ] under the grouping [key], as (name, count) rows:
    one row per key that occurs, displayed by [display], with the number
    of occurrences of its key. *)
Definition histogram_of (key : string -> string) (occ : list string)
           (rows : list (string * Z)) : Prop :=
  NoDup (map (fun r => key (fst r)) rows) /\
  (forall s, In s occ -> In (key s) (map (fun r => key (fst r)) rows)) /\
  (forall n c, In (n, c) rows ->
               In (key n) (map key occ) /\ c = occurrences key (key n) occ).

(** Rows shown in the casing of the first occurrence of their key. *)
Definition shows_first_seen (key : string -> string) (occ : list string)
           (rows : list (string * Z)) : Prop :=
  forall n c, In (n, c) rows -> firstSeen key (key n) occ = Some n.

(** Rows shown as their case-folded key. *)
Definition shows_key (key : string -> string) (rows : list (string * Z)) : Prop :=
  forall n c, In (n, c) rows -> n = key n.

(** Row orders: by count descending, and by count descending with
    ascending name among equal counts. *)
Definition count_desc (a b : string * Z) : Prop := snd b <= snd a.

Definition count_desc_name_asc (a b : string * Z) : Prop :=
  snd b < snd a \/ (snd a = snd b /\ String.leb (fst a) (fst b) = true).

(** Removal of later duplicates: the first element with a given [value]
    stays. *)
Fixpoint dedupe_from (seen : list string) (l : list SearchRoutes.Suggestion)
  : list SearchRoutes.Suggestion :=
  match l with
  | [] => []
  | x :: r =>
      if JS.Array_includes seen (SearchRoutes.value x) then dedupe_from seen r
      else x :: dedupe_from (SearchRoutes.value x :: seen) r
  end.

Definition dedupe_first (l : list SearchRoutes.Suggestion) : list SearchRoutes.Suggestion :=
  dedupe_from [] l.

(** The first element of each class of [key], in order of appearance. *)
Fixpoint firsts_from (key : string -> string) (seen : list string) (l : list string)
  : list string :=
  match l with
  | [] => []
  | x :: r =>
      if JS.Array_includes seen (key x) then firsts_from key seen r
      else x :: firsts_from key (key x :: seen) r
  end.

Definition firsts (key : string -> string) (l : list string) : list string :=
  firsts_from key [] l.

(** Description of [$group]: the group of key [k] holds the documents
    of the input with that key; an existing group is extended by them. *)
Definition group_of {D : Type} (key : D -> string) (input : list D) (k : string)
  : Mongo.Group D :=
  Mongo.mkGroup k (filter (fun d => String.eqb (key d) k) input).

Definition extend {D : Type} (key : D -> string) (input : list D)
           (g : Mongo.Group D) : Mongo.Group D :=
  Mongo.mkGroup (Mongo._id g)
    (Mongo.docs g ++ filter (fun d => String.eqb (key d) (Mongo._id g)) input).

Definition bump {D : Type} (k : string) (d : D) (g : Mongo.Group D) : Mongo.Group D :=
  if String.eqb (Mongo._id g) k
  then Mongo.mkGroup (Mongo._id g) (Mongo.docs g ++ [d]) else g.

Definition tag (type : string) (text : string) : SearchRoutes.Suggestion :=
  SearchRoutes.mkSuggestion type text text.

(** Responses as (name, count) rows, and the page a route cuts out. *)
Definition hit_row (h : SearchRoutes.SkillHit) : string * Z :=
(SearchRoutes.name h, SearchRoutes.count h).

Definition skill_row (r : SkillRoutes.SkillRow) : string * Z :=
(SkillRoutes.name r, SkillRoutes.count r).

Definition ranked_row (r : SkillRoutes.RankedSkill) : string * Z :=
(SkillRoutes.r_name r, SkillRoutes.r_count r).

Definition related_row (r : SkillRoutes.RelatedSkill) : string * Z :=
(SkillRoutes.rs_name r, SkillRoutes.rs_count r).

Definition page_rows {A : Type} (limit page : Z) (rows : list A) : list A :=
firstn (Z.to_nat limit) (skipn (Z.to_nat ((page - 1) * limit)) rows).

(** What [find().limit(n)] hands over when the store is free to return the
    matching documents in any order: the first [n] entries of the pool in
    some order. *)
Definition picked (n : nat) (pool picks : list string) : Prop :=
exists order, Permutation order pool /\ picks = firstn n order.

(** What [$group] followed by [$limit: n] hands over when the store is
    free in the order of the groups and of the documents: one entry of the
    pool for every class of [key], the first [n] of them in some order. *)
Definition picked_one_each (n : nat) (key : string -> string)
           (pool picks : list string) : Prop :=
exists reps, NoDup (map key reps) /\
             (forall r, In r reps -> In r pool) /\
             (forall x, In x pool -> In (key x) (map key reps)) /\
             picks = firstn n reps.

(** A suggestion for the prefix [q] drawn from the public data of [db]:
    a name of a public profile, a skill of a public profile, or a title of a
    public project of a public profile, with its source as type. *)
Definition sourced (q : string) (db : Store) (s : SearchRoutes.Suggestion) : Prop :=
SearchRoutes.text s = SearchRoutes.value s /\
istartsWith q (SearchRoutes.text s) = true /\
((SearchRoutes.s_type s = "profile"%string /\ In (SearchRoutes.text s) (publicNames db)) \/
 (SearchRoutes.s_type s = "skill"%string /\ In (SearchRoutes.text s) (publicSkills db)) \/
 (SearchRoutes.s_type s = "project"%string /\
  In (SearchRoutes.text s) (publicProjectTitles db))).

(** The pagination contract for one response: [totalPages] is the least
    number of pages of [limit] entries that hold [total] entries. *)
Definition pagination_ok (total limit currentPage totalPages : Z)
           (hasNextPage hasPrevPage : bool) : Prop :=
  ((totalPages - 1) * limit < total <= totalPages * limit) /\
  (hasNextPage = false <-> currentPage * limit >= total) /\
  (hasPrevPage = true <-> currentPage > 1) /\
  (total = 0 -> totalPages = 0 /\ hasNextPage = false).

(** The skill histogram of the specification: skills of public profiles
    grouped case-folded, shown in first-seen casing, counted, ordered by
    count descending then name ascending; as (name, count) rows. *)
Definition skillHistogram (db : Store) : list (string * Z) :=
  Mongo.sortBy
    (fun a b => (snd b <? snd a) || ((snd a =? snd b) && String.leb (fst a) (fst b)))
    (map (fun n => (n, occurrences JS.toLowerCase (JS.toLowerCase n) (publicSkills db)))
         (firsts JS.toLowerCase (publicSkills db))).

(** Related skills as the specification words them: the top ten of the
    skill histogram, without the target (case ignored), the first five. *)
Definition relatedSkills (skillName : string) (db : Store) : list (string * Z) :=
  firstn 5
    (filter (fun r => negb (ieq (fst r) skillName))
            (firstn 10 (skillHistogram db))).

End Spec.

(* ================================================================= *)
(** ** Vocabulary of the further properties *)

Module Facts.

(** A listed project that is a public project of a public profile of the
    store, as item of a listing and as embedded document. *)
Definition public_item (db : Store) (item : ProjectRoutes.ProjectItem) : Prop :=
exists p x, In p db /\ Profile.isPublic p = true /\
            In x (Profile.projects p) /\ Project.isPublic x = true /\
            item = ProjectRoutes.projectItem p x.

Definition public_project (db : Store) (x : Project.t) : Prop :=
exists p, In p db /\ Profile.isPublic p = true /\
          In x (Profile.projects p) /\ Project.isPublic x = true.


Definition sumZ (l : list Z) : Z := fold_right Z.add 0 l.

(** Page [k] (from 1) of a list cut into pages of [limit] entries, as the
    routes cut it with [slice]. *)
Definition page {A : Type} (limit k : Z) (l : list A) : list A :=
JS.slice l ((k - 1) * limit) ((k - 1) * limit + limit).

(** The pages 1 .. n, one after the other. *)
Definition pages {A : Type} (limit : Z) (n : nat) (l : list A) : list A :=
flat_map (fun k => page limit (Z.of_nat k) l) (seq 1 n).

(** The error names that [errorHandler] answers by name, and the answers
    it gives without looking at the message that was thrown. *)
Definition named_errors : list string :=
["ValidationError"; "CastError"; "MongoError"; "JsonWebTokenError";
 "TokenExpiredError"; "MulterError"]%string.

Definition fixed_answers : list (Z * string) :=
[(400, "Validation failed"); (400, "Invalid ID format");
 (409, "Duplicate field value"); (500, "Database error");
 (401, "Invalid token"); (401, "Token expired"); (400, "File upload error");
 (500, "Internal server error")]%string.

(** The documents of the store are told apart by [_id] and by [userId]
    alike (the schema declares [userId] unique), and every [userId] is an
    ObjectId as the store shows it. *)
Definition one_profile_per_user (db : Store) : Prop :=
(forall x, In x db -> Mongo.castObjectId (Profile.userId x) = Profile.userId x) /\
forall x y, In x db -> In y db ->
            (Profile.userId x = Profile.userId y <-> Profile._id x = Profile._id y).

End Facts.

(* ================================================================= *)
(** ** Sample documents *)

Module Sample.
Local Open Scope string_scope.

Definition project (id title : string) (technologies : list string)
           (isPublic : bool) (createdAt : Z) : Project.t :=
  Project.mk id title "A sample project" [] technologies None isPublic
             createdAt createdAt.

Definition profile (id userId name : string) (skills : list string)
           (projects : list Project.t) (isPublic : bool) : Profile.t :=
  Profile.mk id userId name "user@example.com" None None skills projects []
             (Links.mk None None None None) None None isPublic 0 0.

Definition aliceUser : ObjectId := "64b0000000000000000000a1".
Definition bobUser : ObjectId := "64b0000000000000000000b1".

Definition shop : Project.t :=
  project "64b0000000000000000000c1" "Shop" ["React"%string] true 10.
Definition draft : Project.t :=
  project "64b0000000000000000000c2" "Draft" ["Go"%string] false 20.

(** A public profile with one public and one private project. *)
Definition alice : Profile.t :=
  profile "64b0000000000000000000a0" aliceUser "Alice"
          ["React"%string; "Go"%string] [shop; draft] true.

(** A public profile and a private one. *)
Definition bob : Profile.t :=
  profile "64b0000000000000000000b0" bobUser "Bob" ["react"%string] [] true.

Definition hidden : Profile.t :=
  profile "64b0000000000000000000d0" "64b0000000000000000000d1" "Dora"
          ["Rust"%string] [] false.

(** Skills React, react, Go across two public profiles, and a private
    profile in between. *)
Definition ann : Profile.t :=
profile "64b0000000000000000000e0" "64b0000000000000000000e1" "Ann" ["React"] [] true.

Definition ben : Profile.t :=
profile "64b0000000000000000000f0" "64b0000000000000000000f1" "Ben"
        ["react"; "Go"] [] true.

Definition skillStore : Store := [ann; hidden; ben].

Definition payload : ProfileModel.ProjectData :=
  ProfileModel.mkProjectData "Shop v2" "A sample project" None None None None.

(** A query of white space only: a no-break space (U+00A0), a line
    separator (U+2028) and a tab. *)
Definition blankQuery : string :=
  String (ascii_of_nat 194) (String (ascii_of_nat 160)
    (String (ascii_of_nat 226) (String (ascii_of_nat 128) (String (ascii_of_nat 168)
      (String (ascii_of_nat 9) EmptyString))))).

(** An update that only hides the profile, and validators that accept
    every document. *)
Definition hide : OwnProfileRoutes.ProfileUpdate :=
  OwnProfileRoutes.mkProfileUpdate None None None None None None (Some false).

Definition accepts (doc : Profile.t) : option string := None.

End Sample.

(* ================================================================= *)
(** * Properties *)

(** ** Arithmetic of pages *)

Section PageArithmetic.

Lemma Math_ceil_div_pos (a b : Z) :
  0 < b -> JS.Math_ceil_div a b = - ((- a) / b).
Proof.
  intros Hb. unfold JS.Math_ceil_div, Qceiling, Qfloor.
  destruct b as [|p|p]; try lia.
  unfold Qdiv, Qinv, Qmult, Qopp, inject_Z; simpl.
  rewrite Z.mul_1_r. reflexivity.
Qed.

(** [Math.ceil(a / b)] is the least integer [n] with [a <= n * b]. *)
Lemma Math_ceil_div_spec (a b : Z) :
  0 < b -> (JS.Math_ceil_div a b - 1) * b < a <= JS.Math_ceil_div a b * b.
Proof.
  intros Hb. rewrite (Math_ceil_div_pos a b Hb).
  pose proof (Z.div_mod (- a) b ltac:(lia)).
  pose proof (Z.mod_pos_bound (- a) b Hb). nia.
Qed.

Lemma Math_ceil_div_zero (b : Z) : 0 < b -> JS.Math_ceil_div 0 b = 0.
Proof.
  intros Hb. pose proof (Math_ceil_div_spec 0 b Hb). nia.
Qed.

Lemma pagination_ok_intro (total limit page : Z) :
  0 <= total -> 0 < limit -> 1 <= page ->
  Spec.pagination_ok total limit page
    (JS.Math_ceil_div total limit)
    (page <? JS.Math_ceil_div total limit) (1 <? page).
Proof.
  intros Ht Hl Hp. pose proof (Math_ceil_div_spec total limit Hl) as Hc.
  unfold Spec.pagination_ok.
  split; [lia|]. split; [|split].
  - split.
    + intros Hn. apply Z.ltb_ge in Hn. nia.
    + intros Hge. apply Z.ltb_ge. nia.
  - split.
    + intros Hn. apply Z.ltb_lt in Hn. lia.
    + intros Hgt. apply Z.ltb_lt. lia.
  - intros H0. subst total. split; [nia|]. apply Z.ltb_ge. nia.
Qed.

End PageArithmetic.

(** C2.  For every total >= 0, limit > 0 and page >= 1 the pagination fields
    of a list response satisfy: [totalPages] is the ceiling of total/limit
    (the least number of pages that hold [total] entries), [hasNextPage] is
    false exactly when [currentPage * limit >= total], [hasPrevPage] is true
    exactly when [currentPage > 1], and a total of 0 gives 0 pages and no
    next page.  This holds for the pagination object, for the result
    sections of the unified search, and so for every response of the list
    routes: GET /api/projects, GET /api/projects/skill/:skill,
    GET /api/projects/user/:userId, GET /api/skills,
    GET /api/skills/:skillName, GET /api/search/advanced and
    GET /api/search. *)
Theorem list_routes_pagination_fields :
  forall (limit currentPage : Z),
    0 < limit -> 1 <= currentPage ->
    (forall total, 0 <= total ->
       let p := Pagination.paginate total limit currentPage in
       Pagination.total p = total /\
       Pagination.currentPage p = currentPage /\
       Spec.pagination_ok total limit currentPage (Pagination.totalPages p)
                          (Pagination.hasNextPage p) (Pagination.hasPrevPage p)) /\
    (forall total (A : Type) (data : list A), 0 <= total ->
       let s := SearchRoutes.page_of data total limit currentPage in
       SearchRoutes.total s = total /\
       SearchRoutes.currentPage s = currentPage /\
       Spec.pagination_ok total limit currentPage (SearchRoutes.totalPages s)
                          (SearchRoutes.hasNextPage s) (SearchRoutes.hasPrevPage s)) /\
    (forall (RE : RegexEngine) (LC : LowerCase) (db : Store),
       (forall skill search body,
          ProjectRoutes.getProjects skill search (Some limit) (Some currentPage) db
          = ErrorHandler.Ok body ->
          let p := ProjectRoutes.pagination (ErrorHandler.data body) in
          Pagination.currentPage p = currentPage /\
          Spec.pagination_ok (Pagination.total p) limit currentPage
            (Pagination.totalPages p) (Pagination.hasNextPage p)
            (Pagination.hasPrevPage p)) /\
       (forall skill body,
          ProjectBrowsing.getProjectsBySkill skill (Some limit) (Some currentPage) db
          = ErrorHandler.Ok body ->
          let p := ProjectBrowsing.pagination (ErrorHandler.data body) in
          Pagination.currentPage p = currentPage /\
          Spec.pagination_ok (Pagination.total p) limit currentPage
            (Pagination.totalPages p) (Pagination.hasNextPage p)
            (Pagination.hasPrevPage p)) /\
       (forall userId body,
          ProjectBrowsing.getUserProjects userId (Some limit) (Some currentPage) db
          = ErrorHandler.Ok body ->
          let p := ProjectBrowsing.user_pagination (ErrorHandler.data body) in
          Pagination.currentPage p = currentPage /\
          Spec.pagination_ok (Pagination.total p) limit currentPage
            (Pagination.totalPages p) (Pagination.hasNextPage p)
            (Pagination.hasPrevPage p)) /\
       (forall q skills location education projectTech body,
          AdvancedSearch.advanced q skills location education projectTech
                                  (Some limit) (Some currentPage) db
          = ErrorHandler.Ok body ->
          let p := AdvancedSearch.pagination (ErrorHandler.data body) in
          Pagination.currentPage p = currentPage /\
          Spec.pagination_ok (Pagination.total p) limit currentPage
            (Pagination.totalPages p) (Pagination.hasNextPage p)
            (Pagination.hasPrevPage p)) /\
       (exists body,
          SkillRoutes.getSkills (Some limit) (Some currentPage) db
          = ErrorHandler.Ok body /\
          let p := SkillRoutes.pagination (ErrorHandler.data body) in
          Pagination.currentPage p = currentPage /\
          Spec.pagination_ok (Pagination.total p) limit currentPage
            (Pagination.totalPages p) (Pagination.hasNextPage p)
            (Pagination.hasPrevPage p)) /\
       (forall skillName body,
          SkillRoutes.getSkill skillName (Some limit) (Some currentPage) db
          = ErrorHandler.Ok body ->
          let p := SkillRoutes.detail_pagination (ErrorHandler.data body) in
          Pagination.currentPage p = currentPage /\
          Spec.pagination_ok (Pagination.total p) limit currentPage
            (Pagination.totalPages p) (Pagination.hasNextPage p)
            (Pagination.hasPrevPage p)) /\
       (forall q type body,
          SearchRoutes.search q type (Some limit) (Some currentPage) db
          = ErrorHandler.Ok body ->
          let r := SearchRoutes.results (ErrorHandler.data body) in
          (forall s, SearchRoutes.profiles r = Some s ->
             SearchRoutes.currentPage s = currentPage /\
             Spec.pagination_ok (SearchRoutes.total s) limit currentPage
               (SearchRoutes.totalPages s) (SearchRoutes.hasNextPage s)
               (SearchRoutes.hasPrevPage s)) /\
          (forall s, SearchRoutes.projects r = Some s ->
             SearchRoutes.currentPage s = currentPage /\
             Spec.pagination_ok (SearchRoutes.total s) limit currentPage
               (SearchRoutes.totalPages s) (SearchRoutes.hasNextPage s)
               (SearchRoutes.hasPrevPage s)) /\
          (forall s, SearchRoutes.skills r = Some s ->
             SearchRoutes.currentPage s = currentPage /\
             Spec.pagination_ok (SearchRoutes.total s) limit currentPage
               (SearchRoutes.totalPages s) (SearchRoutes.hasNextPage s)
               (SearchRoutes.hasPrevPage s)))).
Proof.
  intros limit currentPage Hl Hp.
  assert (Hlen : forall (A : Type) (l : list A), 0 <= Z.of_nat (length l))
    by (intros; apply Nat2Z.is_nonneg).
  split; [|split].
  - intros total Ht. split; [reflexivity|]. split; [reflexivity|].
    exact (pagination_ok_intro total limit currentPage Ht Hl Hp).
  - intros total A data Ht. split; [reflexivity|]. split; [reflexivity|].
    exact (pagination_ok_intro total limit currentPage Ht Hl Hp).
  - intros RE LC db. split; [|split; [|split; [|split; [|split; [|split]]]]].
    + intros skill search body H. unfold ProjectRoutes.getProjects in H.
      injection H as <-. split; [reflexivity|].
      exact (pagination_ok_intro _ limit currentPage (Hlen _ _) Hl Hp).
    + intros skill body H. unfold ProjectBrowsing.getProjectsBySkill in H.
      injection H as <-. split; [reflexivity|].
      exact (pagination_ok_intro _ limit currentPage (Hlen _ _) Hl Hp).
    + intros userId body H. unfold ProjectBrowsing.getUserProjects in H.
      destruct (negb _); [discriminate|].
      destruct (Mongo.findOne _ db); [|discriminate].
      injection H as <-. split; [reflexivity|].
      exact (pagination_ok_intro _ limit currentPage (Hlen _ _) Hl Hp).
    + intros q skills location education projectTech body H.
      unfold AdvancedSearch.advanced in H.
      injection H as <-. split; [reflexivity|].
      exact (pagination_ok_intro _ limit currentPage (Hlen _ _) Hl Hp).
    + eexists. split; [reflexivity|]. split; [reflexivity|].
      exact (pagination_ok_intro _ limit currentPage (Hlen _ _) Hl Hp).
    + intros skillName body H. unfold SkillRoutes.getSkill in H.
      destruct (Nat.eqb _ 0); [discriminate|].
      injection H as <-. split; [reflexivity|].
      exact (pagination_ok_intro _ limit currentPage (Hlen _ _) Hl Hp).
    + intros q type body H. unfold SearchRoutes.search in H.
      destruct (SearchRoutes.noQuery q); [discriminate|].
      injection H as <-.
      unfold ErrorHandler.data, SearchRoutes.results, SearchRoutes.profiles,
        SearchRoutes.projects, SearchRoutes.skills.
      split; [|split]; intros s Hs;
        (destruct (_ || _); [injection Hs as <-|discriminate]);
        (split; [reflexivity|]);
        exact (pagination_ok_intro _ limit currentPage (Hlen _ _) Hl Hp).
Qed.

Lemma list_routes_pagination_fields_witness :
  Spec.pagination_ok 45 20 3
    (Pagination.totalPages (Pagination.paginate 45 20 3))
    (Pagination.hasNextPage (Pagination.paginate 45 20 3))
    (Pagination.hasPrevPage (Pagination.paginate 45 20 3)).
Proof.
  apply (proj1 (list_routes_pagination_fields 20 3 ltac:(lia) ltac:(lia)) 45 ltac:(lia)).
Defined.

(** ** Blank queries *)

Section BlankQueries.

Lemma trimStart_skip (s : string) :
  JS.trimStart s = match JS.skipWhiteSpace s with
                   | Some r => JS.trimStart r
                   | None => s
                   end.
Proof.
  destruct s as [|c r]; [reflexivity|]. unfold JS.skipWhiteSpace.
  destruct (JS.isWhiteSpace c) eqn:H1; [cbn [JS.trimStart JS.isWhiteSpaceOnly]; now rewrite H1|].
  destruct r as [|d r]; [cbn; now rewrite H1|].
  destruct (JS.isWhiteSpace2 c d) eqn:H2;
    [cbn [JS.trimStart JS.isWhiteSpaceOnly]; now rewrite H1, H2|].
  destruct r as [|e r]; [cbn [JS.trimStart JS.isWhiteSpaceOnly]; now rewrite H1, H2|].
  cbn [JS.trimStart JS.isWhiteSpaceOnly]. rewrite H1, H2.
  destruct (JS.isWhiteSpace3 c d e); reflexivity.
Qed.

Lemma isWhiteSpaceOnly_skip (s : string) :
  JS.isWhiteSpaceOnly s = match s with
                          | EmptyString => true
                          | _ => match JS.skipWhiteSpace s with
                                 | Some r => JS.isWhiteSpaceOnly r
                                 | None => false
                                 end
                          end.
Proof.
  destruct s as [|c r]; [reflexivity|]. unfold JS.skipWhiteSpace.
  destruct (JS.isWhiteSpace c) eqn:H1; [cbn [JS.trimStart JS.isWhiteSpaceOnly]; now rewrite H1|].
  destruct r as [|d r]; [cbn; now rewrite H1|].
  destruct (JS.isWhiteSpace2 c d) eqn:H2;
    [cbn [JS.trimStart JS.isWhiteSpaceOnly]; now rewrite H1, H2|].
  destruct r as [|e r]; [cbn [JS.trimStart JS.isWhiteSpaceOnly]; now rewrite H1, H2|].
  cbn [JS.trimStart JS.isWhiteSpaceOnly]. rewrite H1, H2.
  destruct (JS.isWhiteSpace3 c d e); reflexivity.
Qed.

Lemma skipWhiteSpace_shorter (s r : string) :
  JS.skipWhiteSpace s = Some r -> (String.length r < String.length s)%nat.
Proof.
  destruct s as [|c [|d [|e u]]]; simpl; try discriminate;
    repeat match goal with |- context [if ?b then _ else _] => destruct b end;
    intros H; try discriminate H; injection H as <-; simpl; lia.
Qed.

Lemma skipWhiteSpace_app (s r t : string) :
  JS.skipWhiteSpace s = Some r ->
  JS.skipWhiteSpace (String.append s t) = Some (String.append r t).
Proof.
  destruct s as [|c [|d [|e u]]]; simpl; try discriminate;
    repeat match goal with |- context [if ?b then _ else _] => destruct b end;
    intros H; try discriminate H; injection H as <-; reflexivity.
Qed.

(** Induction along the white space at the start of a text. *)
Lemma skip_ind (P : string -> Prop) :
  (forall s, JS.skipWhiteSpace s = None -> P s) ->
  (forall s r, JS.skipWhiteSpace s = Some r -> P r -> P s) ->
  forall s, P s.
Proof.
  intros Hnone Hsome s.
  remember (String.length s) as n eqn:Hn.
  revert s Hn. induction n as [n IH] using lt_wf_ind. intros s Hn.
  destruct (JS.skipWhiteSpace s) as [r|] eqn:Hs; [|exact (Hnone s Hs)].
  apply (Hsome s r Hs). apply (IH (String.length r)); [|reflexivity].
  subst n. exact (skipWhiteSpace_shorter s r Hs).
Qed.

Lemma skip_nonempty (s r : string) : JS.skipWhiteSpace s = Some r -> s <> EmptyString.
Proof. destruct s; [discriminate|discriminate]. Qed.

Lemma trimStart_blank (s : string) :
  JS.isWhiteSpaceOnly s = true -> JS.trimStart s = EmptyString.
Proof.
  induction s as [s Hs|s r Hs IH] using skip_ind;
    rewrite isWhiteSpaceOnly_skip, trimStart_skip, Hs.
  - destruct s; [reflexivity|discriminate].
  - destruct s; [discriminate Hs|]. exact IH.
Qed.

Lemma trimStart_blank_inv (s : string) :
  JS.isWhiteSpaceOnly (JS.trimStart s) = true -> JS.isWhiteSpaceOnly s = true.
Proof.
  induction s as [s Hs|s r Hs IH] using skip_ind;
    rewrite trimStart_skip, Hs.
  - tauto.
  - intros H. rewrite isWhiteSpaceOnly_skip, Hs.
    destruct s; [reflexivity|]. exact (IH H).
Qed.

Lemma trimStart_clean (s : string) : JS.skipWhiteSpace (JS.trimStart s) = None.
Proof.
  induction s as [s Hs|s r Hs IH] using skip_ind; rewrite trimStart_skip, Hs; assumption.
Qed.

Lemma trimEnd_empty_blank (s : string) :
  JS.trimEnd s = EmptyString -> JS.isWhiteSpaceOnly s = true.
Proof.
  destruct s as [|c r]; [reflexivity|].
  cbn [JS.trimEnd]. destruct (JS.isWhiteSpaceOnly (String c r)); [reflexivity|discriminate].
Qed.

Lemma trimEnd_blank (s : string) :
  JS.isWhiteSpaceOnly s = true -> JS.trimEnd s = EmptyString.
Proof.
  destruct s as [|c r]; [reflexivity|]. cbn [JS.trimEnd]. now intros ->.
Qed.

Lemma isWhiteSpaceOnly_app (s t : string) :
  JS.isWhiteSpaceOnly s = true ->
  JS.isWhiteSpaceOnly (String.append s t) = JS.isWhiteSpaceOnly t.
Proof.
  induction s as [s Hs|s r Hs IH] using skip_ind;
    rewrite (isWhiteSpaceOnly_skip s), Hs.
  - destruct s; [reflexivity|discriminate].
  - destruct s as [|c u]; [discriminate Hs|]. intros Hr.
    rewrite (isWhiteSpaceOnly_skip (String.append (String c u) t)).
    rewrite (skipWhiteSpace_app _ _ t Hs). exact (IH Hr).
Qed.

(** [trimEnd] cuts a suffix of white space. *)
Lemma trimEnd_split (s : string) :
  exists w, s = String.append (JS.trimEnd s) w /\ JS.isWhiteSpaceOnly w = true.
Proof.
  induction s as [|c r IH]; [exists EmptyString; split; reflexivity|].
  cbn [JS.trimEnd]. destruct (JS.isWhiteSpaceOnly (String c r)) eqn:Hb.
  - exists (String c r). split; [reflexivity|exact Hb].
  - destruct IH as [w [Hr Hw]]. exists w. split; [|exact Hw].
    cbn [append]. now rewrite <- Hr.
Qed.

Lemma trimEnd_idem (s : string) : JS.trimEnd (JS.trimEnd s) = JS.trimEnd s.
Proof.
  induction s as [|c r IH]; [reflexivity|].
  cbn [JS.trimEnd]. destruct (JS.isWhiteSpaceOnly (String c r)) eqn:Hb; [reflexivity|].
  cbn [JS.trimEnd]. rewrite IH.
  destruct (JS.isWhiteSpaceOnly (String c (JS.trimEnd r))) eqn:Hb'; [|reflexivity].
  destruct (trimEnd_split r) as [w [Hr Hw]].
  pose proof (isWhiteSpaceOnly_app (String c (JS.trimEnd r)) w Hb') as Happ.
  cbn [append] in Happ. rewrite <- Hr, Hw, Hb in Happ. discriminate Happ.
Qed.

(** A text without white space at its start keeps its start under
    [trimEnd], unless nothing is left. *)
Lemma trimEnd_clean (s : string) :
  JS.skipWhiteSpace s = None -> JS.skipWhiteSpace (JS.trimEnd s) = None.
Proof.
  intros Hs. destruct (trimEnd_split s) as [w [Hsplit Hw]].
  destruct (JS.skipWhiteSpace (JS.trimEnd s)) as [r|] eqn:Hr; [|reflexivity].
  rewrite Hsplit in Hs. rewrite (skipWhiteSpace_app _ _ w Hr) in Hs. discriminate Hs.
Qed.

Lemma trim_idem (s : string) : JS.trim (JS.trim s) = JS.trim s.
Proof.
  unfold JS.trim.
  rewrite (trimStart_skip (JS.trimEnd (JS.trimStart s))).
  rewrite (trimEnd_clean _ (trimStart_clean s)). apply trimEnd_idem.
Qed.

Lemma length_zero_empty (s : string) : Nat.eqb (String.length s) 0 = true -> s = EmptyString.
Proof. destruct s; simpl; [reflexivity|discriminate]. Qed.

(** The guard of both search handlers fires exactly on blank queries. *)
Lemma noQuery_iff_blank (q : option string) :
  SearchRoutes.noQuery q = Spec.isBlank q.
Proof.
  destruct q as [s|]; [|reflexivity].
  unfold SearchRoutes.noQuery, Spec.isBlank.
  destruct (JS.isWhiteSpaceOnly s) eqn:Hb.
  - unfold JS.trim. rewrite (trimStart_blank s Hb). simpl.
    apply orb_true_r.
  - apply orb_false_iff. split.
    + destruct s; [discriminate Hb|reflexivity].
    + destruct (Nat.eqb (String.length (JS.trim s)) 0) eqn:Hl; [|reflexivity].
      apply length_zero_empty in Hl. unfold JS.trim in Hl.
      apply trimEnd_empty_blank in Hl. apply trimStart_blank_inv in Hl.
      congruence.
Qed.

End BlankQueries.

(** C4.  A request to GET /api/search whose query parameter is absent,
    empty or white space only (any of the characters that [trim] strips) is
    answered with status 400 and the message 'Search query is required';
    the same request to GET /api/search/suggestions is answered with status
    200 and an empty list of suggestions. *)
Theorem blank_query_search_rejects_suggestions_accept :
  forall (RE : RegexEngine) (development : bool) (q type : option string)
         (limit page : option Z) (db : Store),
    Spec.isBlank q = true ->
    ErrorHandler.asyncHandler development (SearchRoutes.search q type limit page db)
    = ErrorHandler.Failed 400
        (ErrorHandler.mkErrorBody false "Search query is required"
           (if development then Some "Search query is required"%string else None))
    /\
    ErrorHandler.asyncHandler development (SearchRoutes.getSuggestions q limit db)
    = ErrorHandler.Json 200
        (ErrorHandler.mkEnvelope true None (SearchRoutes.mkSuggestionsData None [])).
Proof.
  intros RE development q type limit page db Hb.
  unfold SearchRoutes.search, SearchRoutes.getSuggestions.
  rewrite noQuery_iff_blank, Hb. split; reflexivity.
Qed.

Lemma blank_query_search_rejects_suggestions_accept_witness :
  ErrorHandler.asyncHandler false
    (@SearchRoutes.search LiteralRegex AsciiCase (Some Sample.blankQuery) None None None [])
  = ErrorHandler.Failed 400
      (ErrorHandler.mkErrorBody false "Search query is required" None)
  /\
  ErrorHandler.asyncHandler false
    (@SearchRoutes.getSuggestions LiteralRegex (Some Sample.blankQuery) None [])
  = ErrorHandler.Json 200
      (ErrorHandler.mkEnvelope true None (SearchRoutes.mkSuggestionsData None [])).
Proof.
  apply (blank_query_search_rejects_suggestions_accept
           LiteralRegex false (Some Sample.blankQuery) None None None []).
  reflexivity.
Defined.

(** ** Reading back what a method saved *)

Section SavedProfile.

Lemma Array_includes_In (arr : list string) (x : string) :
  JS.Array_includes arr x = true <-> In x arr.
Proof.
  unfold JS.Array_includes. rewrite existsb_exists. split.
  - intros [y [Hy He]]. apply String.eqb_eq in He. now subst.
  - intros H. exists x. split; [assumption|apply String.eqb_refl].
Qed.

(** After [doc'.save()], looking the owner up again yields [doc'],
    provided the mutation kept [_id] and [userId]. *)
Lemma ownProfile_save (user_id : ObjectId) (db : Store) (doc doc' : Profile.t) :
  ProfileRoutes.ownProfile user_id db = Some doc ->
  Profile._id doc' = Profile._id doc ->
  Profile.userId doc' = Profile.userId doc ->
  ProfileRoutes.ownProfile user_id (Mongo.save doc' db) = Some doc'.
Proof.
  unfold ProfileRoutes.ownProfile, Mongo.findOne, Mongo.save.
  intros Hfind Hid Huid.
  assert (Hown : String.eqb (Profile.userId doc') user_id = true).
  { apply find_some in Hfind as [_ H]. now rewrite Huid. }
  induction db as [|x r IH]; simpl in *; [discriminate|].
  destruct (String.eqb (Profile.userId x) user_id) eqn:Hx.
  - injection Hfind as ->. rewrite Hid, String.eqb_refl. now rewrite Hown.
  - destruct (String.eqb (Profile._id x) (Profile._id doc')).
    + now rewrite Hown.
    + rewrite Hx. exact (IH Hfind).
Qed.

Lemma findIndex_bounds {A : Type} (f : A -> bool) (arr : list A) :
  -1 <= JS.findIndex f arr < Z.of_nat (length arr).
Proof.
  induction arr as [|x r IH]; simpl; [lia|].
  destruct (f x); [lia|].
  destruct (JS.findIndex f r <? 0) eqn:Hn; [lia|].
  apply Z.ltb_ge in Hn. lia.
Qed.

Lemma findIndex_none {A : Type} (f : A -> bool) (arr : list A) :
  (forall x, In x arr -> f x = false) -> JS.findIndex f arr = -1.
Proof.
  induction arr as [|x r IH]; simpl; [reflexivity|].
  intros H. rewrite (H x (or_introl eq_refl)).
  rewrite IH by (intros y Hy; apply H; now right). reflexivity.
Qed.

Lemma filter_all {A : Type} (f : A -> bool) (l : list A) :
  (forall x, In x l -> f x = true) -> filter f l = l.
Proof.
  induction l as [|x r IH]; simpl; [reflexivity|].
  intros H. rewrite (H x (or_introl eq_refl)).
  f_equal. apply IH. intros y Hy. apply H. now right.
Qed.

Lemma filter_neq_remove (s : string) (l : list string) :
  filter (fun x => negb (String.eqb x s)) l = remove string_dec s l.
Proof.
  induction l as [|x r IH]; simpl; [reflexivity|].
  destruct (string_dec s x) as [->|Hne].
  - rewrite String.eqb_refl. simpl. exact IH.
  - assert (String.eqb x s = false) as -> by (apply String.eqb_neq; congruence).
    simpl. now rewrite IH.
Qed.

Lemma count_occ_remove_other (s x : string) (l : list string) :
  x <> s ->
  count_occ string_dec (remove string_dec s l) x = count_occ string_dec l x.
Proof.
  intros Hne. induction l as [|y r IH]; simpl; [reflexivity|].
  destruct (string_dec s y) as [->|Hsy].
  - destruct (string_dec y x) as [->|_]; [congruence|exact IH].
  - simpl. destruct (string_dec y x); now rewrite IH.
Qed.

End SavedProfile.

(** C5.  Adding a skill through POST /api/profile/skills is idempotent
    under exact, case-sensitive match: when the skill already occurs in the
    caller's skill list the request succeeds and both the response and the
    stored profile carry the skill list unchanged (a body that fails
    validation is refused and leaves the store as it is); and adding Go
    twice to an empty skill list leaves exactly the list [Go]. *)
Theorem add_skill_idempotent :
  forall (user_id : ObjectId) (db : Store) (profile : Profile.t),
    ProfileRoutes.ownProfile user_id db = Some profile ->
    (forall s : string,
       In s (Profile.skills profile) ->
       let out := ProfileRoutes.postSkill user_id (ProfileRoutes.Valid s) db in
       fst out = ErrorHandler.Ok
                   (ErrorHandler.mkEnvelope true (Some "Skill added successfully"%string)
                                            (Profile.skills profile)) /\
       option_map Profile.skills (ProfileRoutes.ownProfile user_id (snd out))
       = Some (Profile.skills profile)) /\
    (forall detail : string,
       ProfileRoutes.postSkill user_id (ProfileRoutes.Invalid detail) db
       = (ErrorHandler.Throw (ErrorHandler.createError.badRequest detail), db)) /\
    (Profile.skills profile = [] ->
     let once := ProfileRoutes.postSkill user_id (ProfileRoutes.Valid "Go"%string) db in
     let twice := ProfileRoutes.postSkill user_id (ProfileRoutes.Valid "Go"%string)
                                          (snd once) in
     fst twice = ErrorHandler.Ok
                   (ErrorHandler.mkEnvelope true (Some "Skill added successfully"%string)
                                            ["Go"%string]) /\
     option_map Profile.skills (ProfileRoutes.ownProfile user_id (snd twice))
     = Some ["Go"%string]).
Proof.
  intros user_id db profile Hown. split; [|split; [reflexivity|]].
  - intros s Hin. cbv zeta. unfold ProfileRoutes.postSkill. rewrite Hown.
    unfold ProfileModel.addSkill.
    apply Array_includes_In in Hin. rewrite Hin. simpl.
    split; [reflexivity|].
    rewrite (ownProfile_save user_id db profile profile Hown eq_refl eq_refl).
    reflexivity.
  - intros Hempty. cbv zeta.
    set (profile1 := Profile.set_skills profile ["Go"%string]).
    assert (Hown1 : ProfileRoutes.ownProfile user_id (Mongo.save profile1 db)
                    = Some profile1)
      by (apply (ownProfile_save user_id db profile profile1 Hown); reflexivity).
    assert (Hfirst : ProfileRoutes.postSkill user_id (ProfileRoutes.Valid "Go"%string) db
                     = (ErrorHandler.Ok
                          (ErrorHandler.mkEnvelope true
                             (Some "Skill added successfully"%string) ["Go"%string]),
                        Mongo.save profile1 db)).
    { unfold ProfileRoutes.postSkill. rewrite Hown.
      unfold ProfileModel.addSkill. rewrite Hempty. reflexivity. }
    rewrite Hfirst. simpl snd.
    unfold ProfileRoutes.postSkill. rewrite Hown1. simpl.
    split; [reflexivity|].
    rewrite (ownProfile_save user_id _ profile1 profile1 Hown1 eq_refl eq_refl).
    reflexivity.
Qed.

Lemma add_skill_idempotent_witness :
  fst (ProfileRoutes.postSkill Sample.aliceUser (ProfileRoutes.Valid "Go"%string)
                               [Sample.alice; Sample.bob])
  = ErrorHandler.Ok
      (ErrorHandler.mkEnvelope true (Some "Skill added successfully"%string)
                               ["React"%string; "Go"%string]).
Proof.
  exact (proj1 (proj1 (add_skill_idempotent Sample.aliceUser
                         [Sample.alice; Sample.bob] Sample.alice eq_refl)
                      "Go"%string (or_intror (or_introl eq_refl)))).
Defined.

(** C9.  DELETE /api/profile/skills/:skill removes every entry exactly
    equal to the given skill and nothing else, and answers with the message
    'Skill removed successfully'; this is also the answer when the skill
    does not occur, and the skill list is then unchanged. *)
Theorem delete_skill_always_succeeds :
  forall (user_id : ObjectId) (skill : string) (db : Store) (profile : Profile.t),
    ProfileRoutes.ownProfile user_id db = Some profile ->
    let out := ProfileRoutes.deleteSkill user_id skill db in
    let skills' := remove string_dec skill (Profile.skills profile) in
    fst out = ErrorHandler.Ok
                (ErrorHandler.mkEnvelope true (Some "Skill removed successfully"%string)
                                         skills') /\
    option_map Profile.skills (ProfileRoutes.ownProfile user_id (snd out))
    = Some skills' /\
    ~ In skill skills' /\
    (forall s, s <> skill -> count_occ string_dec skills' s
                             = count_occ string_dec (Profile.skills profile) s) /\
    (~ In skill (Profile.skills profile) -> skills' = Profile.skills profile).
Proof.
  intros user_id skill db profile Hown. cbv zeta.
  unfold ProfileRoutes.deleteSkill. rewrite Hown.
  unfold ProfileModel.removeSkill. rewrite filter_neq_remove. simpl.
  split; [reflexivity|]. split; [|split; [|split]].
  - erewrite ownProfile_save; [reflexivity|exact Hown|reflexivity|reflexivity].
  - apply remove_In.
  - intros s Hs. apply count_occ_remove_other. exact Hs.
  - intros Hnot. apply notin_remove. exact Hnot.
Qed.

Lemma delete_skill_always_succeeds_witness :
  fst (ProfileRoutes.deleteSkill Sample.aliceUser "Haskell" [Sample.alice; Sample.bob])
  = ErrorHandler.Ok
      (ErrorHandler.mkEnvelope true (Some "Skill removed successfully"%string)
                               ["React"%string; "Go"%string]).
Proof.
  exact (proj1 (delete_skill_always_succeeds Sample.aliceUser "Haskell"
                  [Sample.alice; Sample.bob] Sample.alice eq_refl)).
Defined.

(** C10.  PUT /api/profile/projects/:projectId with an id that no embedded
    project of the caller has throws a plain error without status code, which
    the responder answers with status 500 (not 404), and the store is left as
    it was; DELETE /api/profile/projects/:projectId with such an id succeeds
    and the project list stays the same. *)
Theorem unknown_project_put_fails_500_delete_succeeds :
  forall (development : bool) (user_id : ObjectId) (projectId : string)
         (value : ProfileModel.ProjectData) (db : Store) (profile : Profile.t),
    ProfileRoutes.ownProfile user_id db = Some profile ->
    (forall x, In x (Profile.projects profile) -> Project._id x <> projectId) ->
    let put := ProfileRoutes.putProject user_id projectId (ProfileRoutes.Valid value) db in
    let del := ProfileRoutes.deleteProject user_id projectId db in
    (put = (ErrorHandler.Throw (ErrorHandler.Error "Project not found"), db) /\
     ErrorHandler.statusCode (ErrorHandler.Error "Project not found") = None /\
     ErrorHandler.asyncHandler development (fst put)
     = ErrorHandler.Failed 500
         (ErrorHandler.mkErrorBody false "Internal server error"
            (if development then Some "Project not found"%string else None))) /\
    (fst del = ErrorHandler.Ok
                 (ErrorHandler.mkEnvelope true
                    (Some "Project removed successfully"%string)
                    (Profile.projects profile)) /\
     option_map Profile.projects (ProfileRoutes.ownProfile user_id (snd del))
     = Some (Profile.projects profile)).
Proof.
  intros development user_id projectId value db profile Hown Hunknown. cbv zeta.
  assert (Hnone : forall x, In x (Profile.projects profile) ->
                            String.eqb (Project._id x) projectId = false)
    by (intros x Hx; apply String.eqb_neq; exact (Hunknown x Hx)).
  split.
  - assert (Hput : ProfileRoutes.putProject user_id projectId
                     (ProfileRoutes.Valid value) db
                   = (ErrorHandler.Throw (ErrorHandler.Error "Project not found"), db)).
    { unfold ProfileRoutes.putProject. rewrite Hown.
      unfold ProfileModel.updateProject.
      rewrite (findIndex_none _ _ Hnone). reflexivity. }
    rewrite Hput. split; [reflexivity|]. split; [reflexivity|].
    destruct development; reflexivity.
  - unfold ProfileRoutes.deleteProject. rewrite Hown.
    unfold ProfileModel.removeProject.
    rewrite (filter_all (fun p => negb (String.eqb (Project._id p) projectId)))
      by (intros x Hx; rewrite (Hnone x Hx); reflexivity).
    simpl. split; [reflexivity|].
    erewrite ownProfile_save; [reflexivity|exact Hown|reflexivity|reflexivity].
Qed.

Lemma unknown_project_put_fails_500_delete_succeeds_witness :
  ErrorHandler.asyncHandler false
    (fst (ProfileRoutes.putProject Sample.aliceUser "64b0000000000000000000ff"
            (ProfileRoutes.Valid Sample.payload) [Sample.alice; Sample.bob]))
  = ErrorHandler.Failed 500
      (ErrorHandler.mkErrorBody false "Internal server error" None).
Proof.
  refine (proj2 (proj2 (proj1
    (unknown_project_put_fails_500_delete_succeeds false Sample.aliceUser
       "64b0000000000000000000ff" Sample.payload [Sample.alice; Sample.bob]
       Sample.alice eq_refl _)))).
  intros x [<-|[<-|[]]]; discriminate.
Defined.

(** C8.  For a well-formed userId (24 hexadecimal digits of either case,
    which the store casts to the ObjectId they spell),
    GET /api/profile/:userId answers with status 404 and the one message
    'Profile not found or not public' whenever no public profile belongs to
    that ObjectId: the same response whether no profile exists for it or the
    profile exists with [isPublic = false].  Profile data is only ever
    returned for a public profile. *)
Theorem private_profile_reported_as_missing :
  forall (development : bool) (userId : string) (db : Store),
    ProfileRoutes.isObjectIdString userId = true ->
    let notFound :=
      ErrorHandler.Failed 404
        (ErrorHandler.mkErrorBody false "Profile not found or not public"
           (if development then Some "Profile not found or not public"%string else None)) in
    ((forall p, In p db -> Profile.userId p <> Mongo.castObjectId userId) ->
     ErrorHandler.asyncHandler development (ProfileRoutes.getProfileByUserId userId db)
     = notFound) /\
    ((forall p, In p db -> Profile.userId p = Mongo.castObjectId userId ->
                Profile.isPublic p = false) ->
     ErrorHandler.asyncHandler development (ProfileRoutes.getProfileByUserId userId db)
     = notFound) /\
    (forall body,
       ProfileRoutes.getProfileByUserId userId db = ErrorHandler.Ok body ->
       exists p, In p db /\ Profile.userId p = Mongo.castObjectId userId /\
                 Profile.isPublic p = true /\
                 ErrorHandler.data body = ProfileModel.getPublicProfile p).
Proof.
  intros development userId db Hwf. cbv zeta.
  assert (Hne : String.eqb userId EmptyString = false)
    by (destruct userId; [discriminate Hwf|reflexivity]).
  assert (Hprivate :
            (forall p, In p db -> Profile.userId p = Mongo.castObjectId userId ->
                       Profile.isPublic p = false) ->
            Mongo.findOne (fun p => String.eqb (Profile.userId p) (Mongo.castObjectId userId)
                                    && Profile.isPublic p) db = None).
  { intros Hall. unfold Mongo.findOne.
    destruct (find _ db) as [p|] eqn:Hf; [|reflexivity].
    apply find_some in Hf as [Hin Hp].
    apply andb_true_iff in Hp as [Hu Hpub]. apply String.eqb_eq in Hu.
    rewrite (Hall p Hin Hu) in Hpub. discriminate. }
  assert (Hresp :
            (forall p, In p db -> Profile.userId p = Mongo.castObjectId userId ->
                       Profile.isPublic p = false) ->
            ErrorHandler.asyncHandler development
              (ProfileRoutes.getProfileByUserId userId db)
            = ErrorHandler.Failed 404
                (ErrorHandler.mkErrorBody false "Profile not found or not public"
                   (if development
                    then Some "Profile not found or not public"%string else None))).
  { intros Hall. unfold ProfileRoutes.getProfileByUserId.
    rewrite Hne, Hwf, (Hprivate Hall). destruct development; reflexivity. }
  split; [|split].
  - intros Hmissing. apply Hresp. intros p Hin Hu. destruct (Hmissing p Hin Hu).
  - exact Hresp.
  - intros body Hok. unfold ProfileRoutes.getProfileByUserId in Hok.
    rewrite Hne, Hwf in Hok. simpl orb in Hok. cbv iota in Hok.
    destruct (Mongo.findOne _ db) as [p|] eqn:Hf; [|discriminate].
    injection Hok as <-. apply find_some in Hf as [Hin Hp].
    apply andb_true_iff in Hp as [Hu Hpub]. apply String.eqb_eq in Hu.
    exists p. repeat split; assumption.
Qed.

Lemma private_profile_reported_as_missing_witness :
  ErrorHandler.asyncHandler false
    (ProfileRoutes.getProfileByUserId "64B0000000000000000000D1"
                                      [Sample.alice; Sample.hidden])
  = ErrorHandler.asyncHandler false
      (ProfileRoutes.getProfileByUserId "64B0000000000000000000D1" [Sample.alice]).
Proof.
  pose proof (private_profile_reported_as_missing false "64B0000000000000000000D1"
                [Sample.alice; Sample.hidden] eq_refl) as [_ [Hprivate _]].
  pose proof (private_profile_reported_as_missing false "64B0000000000000000000D1"
                [Sample.alice] eq_refl) as [Hmissing _].
  rewrite Hprivate, Hmissing.
  - reflexivity.
  - intros p [<-|[]]. discriminate.
  - intros p [<-|[<-|[]]] Hu; [discriminate Hu|reflexivity].
Defined.

(** ** Lists: limits, sorting *)

Section ListFacts.
Context {A : Type}.

Lemma firstn_In (n : nat) (l : list A) (x : A) : In x (firstn n l) -> In x l.
Proof.
  intros H. rewrite <- (firstn_skipn n l). apply in_or_app. now left.
Qed.

Lemma skipn_In (n : nat) (l : list A) (x : A) : In x (skipn n l) -> In x l.
Proof.
  intros H. rewrite <- (firstn_skipn n l). apply in_or_app. now right.
Qed.

Lemma limit_In (n : Z) (l : list A) (x : A) : In x (Mongo.limit n l) -> In x l.
Proof. unfold Mongo.limit. apply firstn_In. Qed.

Lemma skip_In (k : Z) (l : list A) (x : A) : In x (Mongo.skip k l) -> In x l.
Proof. unfold Mongo.skip. apply skipn_In. Qed.

Lemma slice_In (l : list A) (s e : Z) (x : A) : In x (JS.slice l s e) -> In x l.
Proof.
  unfold JS.slice. intros H. apply firstn_In in H. now apply skipn_In in H.
Qed.

(** [arr.slice(0, n)] keeps the first [n] elements. *)
Lemma slice_prefix (l : list A) (n : Z) :
  0 <= n -> JS.slice l 0 n = firstn (Z.to_nat n) l.
Proof.
  intros Hn. unfold JS.slice, JS.relIndex.
  set (len := Z.of_nat (length l)).
  assert (Hlen : 0 <= len) by apply Nat2Z.is_nonneg.
  assert (E1 : (if 0 <? 0 then Z.max (len + 0) 0 else Z.min 0 len) = 0)
    by (simpl; lia).
  assert (E2 : (if n <? 0 then Z.max (len + n) 0 else Z.min n len) = Z.min n len)
    by (destruct (Z.ltb_spec n 0); [lia|reflexivity]).
  rewrite E1, E2. simpl skipn. rewrite Z.sub_0_r.
  destruct (Z.le_ge_cases n len) as [Hle|Hge].
  - now rewrite Z.min_l.
  - rewrite Z.min_r by lia. unfold len. rewrite Nat2Z.id.
    rewrite firstn_all. symmetry. apply firstn_all2. lia.
Qed.

Variable le : A -> A -> bool.

Lemma insert_perm (x : A) (l : list A) : Permutation (Mongo.insert le x l) (x :: l).
Proof.
  induction l as [|y r IH]; simpl; [reflexivity|].
  destruct (le x y); [reflexivity|].
  rewrite IH. apply perm_swap.
Qed.

Lemma sortBy_perm (l : list A) : Permutation (Mongo.sortBy le l) l.
Proof.
  induction l as [|x r IH]; simpl; [reflexivity|].
  rewrite insert_perm. now constructor.
Qed.

Lemma sortBy_In (l : list A) (x : A) : In x (Mongo.sortBy le l) <-> In x l.
Proof.
  split; apply Permutation_in; [|symmetry]; apply sortBy_perm.
Qed.

Hypothesis le_total : forall a b, le a b = false -> le b a = true.
Hypothesis le_trans : forall a b c, le a b = true -> le b c = true -> le a c = true.

Lemma insert_sorted (x : A) (l : list A) :
  StronglySorted (fun a b => le a b = true) l ->
  StronglySorted (fun a b => le a b = true) (Mongo.insert le x l).
Proof.
  induction 1 as [|y r Hs IH Hall]; simpl.
  - repeat constructor.
  - destruct (le x y) eqn:Hxy.
    + constructor; [constructor; assumption|].
      constructor; [assumption|].
      eapply Forall_impl; [|exact Hall].
      intros z Hz. exact (le_trans _ _ _ Hxy Hz).
    + constructor; [assumption|].
      eapply Permutation_Forall; [symmetry; apply insert_perm|].
      constructor; [apply le_total; assumption|assumption].
Qed.

Lemma sortBy_sorted (l : list A) :
  StronglySorted (fun a b => le a b = true) (Mongo.sortBy le l).
Proof.
  induction l as [|x r IH]; simpl; [constructor|].
  apply insert_sorted. exact IH.
Qed.

End ListFacts.

Section SortedFacts.
Context {A B : Type}.

Lemma StronglySorted_map (R : A -> A -> Prop) (R' : B -> B -> Prop) (f : A -> B)
      (l : list A) :
  (forall a b, R a b -> R' (f a) (f b)) ->
  StronglySorted R l -> StronglySorted R' (map f l).
Proof.
  intros Himp. induction 1 as [|x r Hs IH Hall]; simpl; constructor.
  - exact IH.
  - apply Forall_map. eapply Forall_impl; [|exact Hall].
    intros y Hy. exact (Himp _ _ Hy).
Qed.

Lemma StronglySorted_skipn (R : A -> A -> Prop) (n : nat) (l : list A) :
  StronglySorted R l -> StronglySorted R (skipn n l).
Proof.
  revert l. induction n as [|n IH]; intros l Hs; [exact Hs|].
  destruct l as [|x r]; [constructor|].
  simpl. apply IH. now inversion Hs.
Qed.

Lemma StronglySorted_firstn (R : A -> A -> Prop) (n : nat) (l : list A) :
  StronglySorted R l -> StronglySorted R (firstn n l).
Proof.
  revert l. induction n as [|n IH]; intros l Hs; [constructor|].
  destruct l as [|x r]; [constructor|].
  simpl. inversion Hs as [|? ? Hr Hall]; subst. constructor.
  - apply IH. exact Hr.
  - rewrite Forall_forall in *. intros y Hy. apply Hall.
    rewrite <- (firstn_skipn n r). apply in_or_app. now left.
Qed.

End SortedFacts.

(** The order on strings used by [$sort] is a total preorder. *)
Section StringOrder.

Lemma compare_as_OT (a b : string) : String.compare a b = String_as_OT.compare a b.
Proof.
  revert b. induction a as [|c a IH]; destruct b as [|d b]; simpl;
    try rewrite IH; reflexivity.
Qed.

Lemma leb_total' (a b : string) : String.leb a b = false -> String.leb b a = true.
Proof.
  intros H. destruct (String.leb_total a b) as [H1|H1]; congruence.
Qed.

Lemma leb_iff (a b : string) :
  String.leb a b = true <-> (a = b \/ String_as_OT.lt a b).
Proof.
  unfold String.leb. rewrite compare_as_OT.
  destruct (String_as_OT.compare_spec a b) as [He|Hl|Hg].
  - split; auto.
  - split; auto.
  - split; [discriminate|].
    intros [->|Hl].
    + destruct (StrictOrder_Irreflexive _ Hg).
    + destruct (StrictOrder_Irreflexive _ (StrictOrder_Transitive _ _ _ Hl Hg)).
Qed.

Lemma leb_trans (a b c : string) :
  String.leb a b = true -> String.leb b c = true -> String.leb a c = true.
Proof.
  rewrite !leb_iff. intros [->|Hab] [->|Hbc]; auto.
  right. exact (StrictOrder_Transitive _ _ _ Hab Hbc).
Qed.

End StringOrder.

(** ** Visibility of embedded projects *)

Section Visibility.

(** The public view of a profile lists public projects only. *)
Lemma getPublicProfile_projects_public (p : Profile.t) :
  Forall (fun x => Project.isPublic x = true)
         (ProfileModel.projects (ProfileModel.getPublicProfile p)).
Proof.
  simpl. apply Forall_forall. intros x Hx.
  apply filter_In in Hx. tauto.
Qed.

(** Every project in the projects section of the unified search is a
    public project of a public profile. *)
Lemma searchProjects_only_public (RE : RegexEngine) (q : string)
      (pageLimit currentPage : Z) (db : Store) (hit : SearchRoutes.ProjectHit) :
  In hit (SearchRoutes.data (SearchRoutes.searchProjects q pageLimit currentPage db)) ->
  exists p x, In p db /\ Profile.isPublic p = true /\
              In x (Profile.projects p) /\ Project.isPublic x = true /\
              hit = SearchRoutes.projectHit p x.
Proof.
  unfold SearchRoutes.searchProjects, SearchRoutes.page_of. simpl.
  intros H. apply in_flat_map in H as [p [Hp Hhit]].
  apply limit_In, skip_In, filter_In in Hp as [Hdb Hm].
  apply in_map_iff in Hhit as [x [<- Hx]].
  apply filter_In in Hx as [Hx Hshown].
  unfold SearchRoutes.hasMatchingProject in Hm.
  unfold SearchRoutes.projectShown in Hshown.
  apply andb_true_iff in Hm as [Hpub _].
  apply andb_true_iff in Hshown as [Hxpub _].
  exists p, x. repeat split; assumption.
Qed.

(** Every project in the listing of GET /api/projects is a public project
    of a public profile. *)
Lemma getProjects_only_public (RE : RegexEngine) (skill search : option string)
      (limit page : option Z) (db : Store) body (item : ProjectRoutes.ProjectItem) :
  ProjectRoutes.getProjects skill search limit page db = ErrorHandler.Ok body ->
  In item (ProjectRoutes.projects (ErrorHandler.data body)) ->
  exists p x, In p db /\ Profile.isPublic p = true /\
              In x (Profile.projects p) /\ Project.isPublic x = true /\
              item = ProjectRoutes.projectItem p x.
Proof.
  unfold ProjectRoutes.getProjects. intros Hok. injection Hok as <-. simpl.
  intros H. apply slice_In in H.
  assert (Hall : In item
            (flat_map (fun profile =>
                         map (ProjectRoutes.projectItem profile)
                             (filter Project.isPublic (Profile.projects profile)))
               (Mongo.limit (SearchRoutes.default limit 20)
                  (Mongo.skip ((SearchRoutes.default page 1 - 1)
                               * SearchRoutes.default limit 20)
                     (Mongo.sortBy ProjectRoutes.by_projects_createdAt_desc
                        (filter (ProjectRoutes.listQuery skill search) db)))))).
  { destruct (JS.truthy skill); [|exact H].
    destruct skill as [s|]; [|exact H].
    apply filter_In in H. tauto. }
  clear H. apply in_flat_map in Hall as [p [Hp Hitem]].
  apply limit_In, skip_In, sortBy_In, filter_In in Hp as [Hdb Hm].
  apply in_map_iff in Hitem as [x [<- Hx]].
  apply filter_In in Hx as [Hx Hxpub].
  unfold ProjectRoutes.listQuery in Hm.
  apply andb_true_iff in Hm as [Hm _]. apply andb_true_iff in Hm as [Hpub _].
  exists p, x. repeat split; assumption.
Qed.

(** GET /api/projects/:projectId answers with the project that carries
    the id as soon as the owning public profile has any public project:
    the project's own flag is not consulted. *)
Lemma getProject_ignores_own_flag (p : Profile.t) (x y : Project.t) (db : Store) :
  Profile.isPublic p = true ->
  In x (Profile.projects p) ->
  (forall z, In z (Profile.projects p) -> Project._id z = Project._id x -> z = x) ->
  In y (Profile.projects p) -> Project.isPublic y = true ->
  exists body,
    ProjectRoutes.getProject (Project._id x) (p :: db) = ErrorHandler.Ok body /\
    ProjectRoutes.v_id (ProjectRoutes.project (ErrorHandler.data body)) = Project._id x /\
    ProjectRoutes.v_title (ProjectRoutes.project (ErrorHandler.data body))
    = Project.title x /\
    ProjectRoutes.v_description (ProjectRoutes.project (ErrorHandler.data body))
    = Project.description x.
Proof.
  intros Hpub Hx Huniq Hy Hypub.
  unfold ProjectRoutes.getProject, Mongo.findOne. simpl.
  assert (Hq : ProjectRoutes.projectQuery (Project._id x) p = true).
  { unfold ProjectRoutes.projectQuery. rewrite Hpub.
    rewrite !andb_true_r. apply andb_true_iff. split; apply existsb_exists.
    - exists x. split; [assumption|apply String.eqb_refl].
    - exists y. split; assumption. }
  rewrite Hq. unfold JS.Array_find.
  destruct (find _ (Profile.projects p)) as [z|] eqn:Hf.
  - apply find_some in Hf as [Hz He]. apply String.eqb_eq in He.
    rewrite (Huniq z Hz He). eexists. split; [reflexivity|]. simpl. auto.
  - pose proof (find_none _ _ Hf x Hx) as Hn. simpl in Hn.
    rewrite String.eqb_refl in Hn. discriminate.
Qed.

End Visibility.

(** C1, which the code breaks.  The visibility invariant asks that a project
    with [isPublic = false] never appears in a public response.  It holds
    for the public profile view, the projects section of the unified search
    and the project listing (lemmas above), but GET /api/projects/:projectId
    returns a private project whenever a sibling project of the same public
    profile is public: on a store holding Alice's public profile with the
    public project Shop and the private project Draft, the request for
    Draft's id is answered with Draft's data. *)
Theorem get_project_by_id_returns_private_sibling :
  Profile.isPublic Sample.alice = true /\
  In Sample.shop (Profile.projects Sample.alice) /\
  Project.isPublic Sample.shop = true /\
  In Sample.draft (Profile.projects Sample.alice) /\
  Project.isPublic Sample.draft = false /\
  exists body,
    ProjectRoutes.getProject (Project._id Sample.draft) [Sample.alice; Sample.bob]
    = ErrorHandler.Ok body /\
    ErrorHandler.asyncHandler false
      (ProjectRoutes.getProject (Project._id Sample.draft) [Sample.alice; Sample.bob])
    = ErrorHandler.Json 200 body /\
    ProjectRoutes.v_id (ProjectRoutes.project (ErrorHandler.data body))
    = Project._id Sample.draft /\
    ProjectRoutes.v_title (ProjectRoutes.project (ErrorHandler.data body))
    = "Draft"%string.
Proof.
  repeat split; try (simpl; tauto).
  eexists. repeat split.
Qed.

(** ** The [$group] stage *)

Section FirstOccurrences.
Variable key : string -> string.

Lemma firsts_from_ext (seen1 seen2 : list string) (l : list string) :
  (forall k, JS.Array_includes seen1 k = JS.Array_includes seen2 k) ->
  Spec.firsts_from key seen1 l = Spec.firsts_from key seen2 l.
Proof.
  revert seen1 seen2. induction l as [|x r IH]; intros seen1 seen2 Hext; simpl;
    [reflexivity|].
  rewrite (Hext (key x)).
  destruct (JS.Array_includes seen2 (key x)).
  - apply IH. exact Hext.
  - f_equal. apply IH. intros k. simpl. now rewrite Hext.
Qed.

Lemma firsts_from_fresh (seen : list string) (l : list string) (x : string) :
  In x (Spec.firsts_from key seen l) -> ~ In (key x) seen.
Proof.
  revert seen. induction l as [|y r IH]; intros seen; simpl; [tauto|].
  destruct (JS.Array_includes seen (key y)) eqn:Hy.
  - apply IH.
  - intros [<-|Hin].
    + intros Hin. apply Array_includes_In in Hin. congruence.
    + intros Hs. apply (IH _ Hin). now right.
Qed.

Lemma firsts_from_In (seen : list string) (l : list string) (x : string) :
  In x (Spec.firsts_from key seen l) -> In x l.
Proof.
  revert seen. induction l as [|y r IH]; intros seen; simpl; [tauto|].
  destruct (JS.Array_includes seen (key y)).
  - intros H. right. exact (IH _ H).
  - intros [<-|H]; [now left|right; exact (IH _ H)].
Qed.

Lemma firsts_from_NoDup (seen : list string) (l : list string) :
  NoDup (map key (Spec.firsts_from key seen l)).
Proof.
  revert seen. induction l as [|y r IH]; intros seen; simpl; [constructor|].
  destruct (JS.Array_includes seen (key y)); [apply IH|].
  simpl. constructor; [|apply IH].
  intros Hin. apply in_map_iff in Hin as [z [Hz Hin]].
  apply firsts_from_fresh in Hin. apply Hin. rewrite Hz. now left.
Qed.

(** Every key of [l] that is not in [seen] is represented. *)
Lemma firsts_from_complete (seen : list string) (l : list string) (x : string) :
  In x l -> ~ In (key x) seen ->
  In (key x) (map key (Spec.firsts_from key seen l)).
Proof.
  revert seen. induction l as [|y r IH]; intros seen; simpl; [tauto|].
  intros Hin Hfresh.
  destruct (JS.Array_includes seen (key y)) eqn:Hy.
  - destruct Hin as [->|Hin].
    + apply Array_includes_In in Hy. contradiction.
    + exact (IH _ Hin Hfresh).
  - simpl. destruct (string_dec (key y) (key x)) as [He|Hne]; [now left|right].
    destruct Hin as [->|Hin]; [congruence|].
    apply IH; [assumption|]. intros [H|H]; [congruence|contradiction].
Qed.

(** The representative of a key is the first entry of [l] with that key. *)
Lemma firsts_from_first (seen : list string) (l : list string) (x : string) :
  In x (Spec.firsts_from key seen l) ->
  Spec.firstSeen key (key x) l = Some x.
Proof.
  unfold Spec.firstSeen.
  revert seen. induction l as [|y r IH]; intros seen; simpl; [tauto|].
  destruct (JS.Array_includes seen (key y)) eqn:Hy.
  - intros Hin. pose proof (firsts_from_fresh _ _ _ Hin) as Hfresh.
    destruct (String.eqb (key y) (key x)) eqn:He.
    + apply String.eqb_eq in He. apply Array_includes_In in Hy.
      rewrite He in Hy. contradiction.
    + exact (IH _ Hin).
  - intros [<-|Hin].
    + now rewrite String.eqb_refl.
    + pose proof (firsts_from_fresh _ _ _ Hin) as Hfresh.
      destruct (String.eqb (key y) (key x)) eqn:He.
      * apply String.eqb_eq in He. exfalso. apply Hfresh. left. exact He.
      * exact (IH _ Hin).
Qed.

End FirstOccurrences.

Section Grouping.
Context {D : Type}.
Variable key : D -> string.

Local Abbreviation bump := Spec.bump.
Local Abbreviation extend := (Spec.extend key).
Local Abbreviation fresh := (Spec.group_of key).
Local Abbreviation step := (fun gs d => Mongo.group_add (key d) d gs).

Lemma bump_id (k : string) (d : D) (g : Mongo.Group D) :
  Mongo._id (bump k d g) = Mongo._id g.
Proof. unfold Spec.bump. destruct (String.eqb (Mongo._id g) k); reflexivity. Qed.

Lemma group_add_spec (k : string) (d : D) (gs : list (Mongo.Group D)) :
  NoDup (map Mongo._id gs) ->
  Mongo.group_add k d gs =
  if JS.Array_includes (map Mongo._id gs) k
  then map (bump k d) gs
  else gs ++ [Mongo.mkGroup k [d]].
Proof.
  induction gs as [|g rest IH]; simpl; [reflexivity|].
  intros Hnd. inversion Hnd as [|? ? Hnotin Hnd']; subst.
  rewrite (String.eqb_sym k (Mongo._id g)).
  unfold Spec.bump at 1.
  destruct (String.eqb (Mongo._id g) k) eqn:He; simpl.
  - f_equal. symmetry. rewrite <- (map_id rest) at 2.
    apply map_ext_in. intros h Hh. unfold Spec.bump.
    destruct (String.eqb (Mongo._id h) k) eqn:Hhk; [|reflexivity].
    apply String.eqb_eq in He, Hhk. exfalso. apply Hnotin.
    rewrite He, <- Hhk. apply in_map. exact Hh.
  - rewrite (IH Hnd').
    destruct (JS.Array_includes (map Mongo._id rest) k); reflexivity.
Qed.

Lemma group_add_ids (k : string) (d : D) (gs : list (Mongo.Group D)) :
  NoDup (map Mongo._id gs) ->
  map Mongo._id (Mongo.group_add k d gs) =
  if JS.Array_includes (map Mongo._id gs) k
  then map Mongo._id gs else map Mongo._id gs ++ [k].
Proof.
  intros Hnd. rewrite (group_add_spec k d gs Hnd).
  destruct (JS.Array_includes (map Mongo._id gs) k).
  - rewrite map_map. apply map_ext. intros g. apply bump_id.
  - rewrite map_app. reflexivity.
Qed.

Lemma group_add_NoDup (k : string) (d : D) (gs : list (Mongo.Group D)) :
  NoDup (map Mongo._id gs) -> NoDup (map Mongo._id (Mongo.group_add k d gs)).
Proof.
  intros Hnd. rewrite (group_add_ids k d gs Hnd).
  destruct (JS.Array_includes (map Mongo._id gs) k) eqn:Hk; [exact Hnd|].
  apply NoDup_app; [exact Hnd|repeat constructor; simpl; tauto|].
  intros x Hx [<-|[]]. apply Array_includes_In in Hx. congruence.
Qed.

Lemma filter_cons_other (k : string) (d : D) (r : list D) :
  String.eqb (key d) k = false ->
  filter (fun d' => String.eqb (key d') k) (d :: r)
  = filter (fun d' => String.eqb (key d') k) r.
Proof. intros H. simpl. now rewrite H. Qed.

(** The groups after folding [input] into [gs]: the old groups extended,
    then one group per new key in order of first occurrence. *)
Lemma fold_group_add (input : list D) (gs : list (Mongo.Group D)) :
  NoDup (map Mongo._id gs) ->
  fold_left step input gs =
  map (extend input) gs ++
  map (fresh input)
      (Spec.firsts_from (fun k => k) (map Mongo._id gs) (map key input)).
Proof.
  revert gs. induction input as [|d r IH]; intros gs Hnd.
  - simpl. rewrite app_nil_r. rewrite <- (map_id gs) at 1.
    apply map_ext. intros [k ds]. unfold Spec.extend. simpl. now rewrite app_nil_r.
  - simpl fold_left.
    rewrite (IH _ (group_add_NoDup (key d) d gs Hnd)).
    rewrite (group_add_ids (key d) d gs Hnd).
    rewrite (group_add_spec (key d) d gs Hnd).
    simpl map. simpl Spec.firsts_from.
    destruct (JS.Array_includes (map Mongo._id gs) (key d)) eqn:Hin.
    + f_equal.
      * rewrite map_map. apply map_ext. intros g. unfold Spec.extend, Spec.bump.
        destruct (String.eqb (Mongo._id g) (key d)) eqn:He; simpl;
          rewrite (String.eqb_sym (key d) (Mongo._id g)), He; [|reflexivity].
        now rewrite <- app_assoc.
      * apply map_ext_in. intros k Hk. unfold Spec.group_of.
        apply firsts_from_fresh in Hk.
        rewrite filter_cons_other; [reflexivity|].
        apply String.eqb_neq. intros He. apply Hk. rewrite <- He.
        now apply Array_includes_In.
    + rewrite map_app, <- app_assoc. f_equal.
      * apply map_ext_in. intros g Hg. unfold Spec.extend.
        rewrite filter_cons_other; [reflexivity|].
        apply String.eqb_neq. intros He.
        assert (Hc : In (key d) (map Mongo._id gs))
          by (rewrite He; apply in_map; exact Hg).
        apply Array_includes_In in Hc. congruence.
      * simpl. f_equal.
        -- unfold Spec.extend, Spec.group_of. simpl. now rewrite String.eqb_refl.
        -- rewrite (firsts_from_ext (fun k => k)
                      (map Mongo._id gs ++ [key d]) (key d :: map Mongo._id gs)).
           ++ apply map_ext_in. intros k Hk. unfold Spec.group_of.
              apply firsts_from_fresh in Hk.
              rewrite filter_cons_other; [reflexivity|].
              apply String.eqb_neq. intros He. apply Hk. now left.
           ++ intros k. unfold JS.Array_includes. rewrite existsb_app. simpl.
              rewrite orb_false_r. apply orb_comm.
Qed.

(** [$group] by [key]: one group per key in order of first occurrence,
    holding the documents with that key in input order. *)
Lemma group_by_spec (input : list D) :
  Mongo.group_by key input =
  map (fresh input) (Spec.firsts (fun k => k) (map key input)).
Proof.
  unfold Mongo.group_by.
  rewrite (fold_group_add input [] (NoDup_nil _)). reflexivity.
Qed.

End Grouping.

(** ** From groups to histogram rows *)

Section Rows.
Context {D : Type}.
Variable proj : D -> string.
Variable fold : string -> string.

Lemma firsts_from_map (seen l : list string) :
  Spec.firsts_from (fun k => k) seen (map fold l)
  = map fold (Spec.firsts_from fold seen l).
Proof.
  revert seen. induction l as [|x r IH]; intros seen; simpl; [reflexivity|].
  destruct (JS.Array_includes seen (fold x)); simpl; now rewrite IH.
Qed.

Lemma filter_length_map {A B : Type} (f : A -> B) (p : B -> bool) (l : list A) :
  length (filter (fun x => p (f x)) l) = length (filter p (map f l)).
Proof.
  induction l as [|x r IH]; simpl; [reflexivity|].
  destruct (p (f x)); simpl; now rewrite IH.
Qed.

Lemma find_map_head {A B : Type} (f : A -> B) (p : B -> bool) (l : list A) :
  find p (map f l) =
  match filter (fun x => p (f x)) l with
  | d :: _ => Some (f d)
  | [] => None
  end.
Proof.
  induction l as [|x r IH]; simpl; [reflexivity|].
  destruct (p (f x)); [reflexivity|exact IH].
Qed.

(** Count and first document of the group of key [fold n], for a name [n]
    that represents its key. *)
Lemma group_of_count (docs : list D) (k : string) :
  Mongo.acc_count (Spec.group_of (fun d => fold (proj d)) docs k)
  = Spec.occurrences fold k (map proj docs).
Proof.
  unfold Mongo.acc_count, Spec.group_of, Spec.occurrences. simpl.
  now rewrite (filter_length_map proj (fun s => String.eqb (fold s) k)).
Qed.

Lemma group_of_first (docs : list D) (n : string) :
  Spec.firstSeen fold (fold n) (map proj docs) = Some n ->
  Mongo.acc_first proj (Spec.group_of (fun d => fold (proj d)) docs (fold n)) = n.
Proof.
  unfold Spec.firstSeen, Mongo.acc_first, Spec.group_of. simpl.
  rewrite (find_map_head proj (fun s => String.eqb (fold s) (fold n))).
  destruct (filter _ docs); [discriminate|]. now intros [= ->].
Qed.

Lemma group_by_as_firsts (docs : list D) :
  Mongo.group_by (fun d => fold (proj d)) docs
  = map (fun n => Spec.group_of (fun d => fold (proj d)) docs (fold n))
        (Spec.firsts fold (map proj docs)).
Proof.
  rewrite group_by_spec. unfold Spec.firsts.
  rewrite <- (map_map proj fold docs), firsts_from_map, map_map. reflexivity.
Qed.

(** Rows of the groups, shown by first document and shown by key. *)
Lemma group_rows_first_seen (docs : list D) :
  map (fun g => (Mongo.acc_first proj g, Mongo.acc_count g))
      (Mongo.group_by (fun d => fold (proj d)) docs)
  = map (fun n => (n, Spec.occurrences fold (fold n) (map proj docs)))
        (Spec.firsts fold (map proj docs)).
Proof.
  rewrite group_by_as_firsts, map_map. apply map_ext_in. intros n Hn.
  rewrite group_of_count. f_equal. apply group_of_first.
  exact (firsts_from_first fold [] _ _ Hn).
Qed.

Lemma group_rows_keys (docs : list D) :
  map (fun g => (Mongo._id g, Mongo.acc_count g))
      (Mongo.group_by (fun d => fold (proj d)) docs)
  = map (fun n => (fold n, Spec.occurrences fold (fold n) (map proj docs)))
        (Spec.firsts fold (map proj docs)).
Proof.
  rewrite group_by_as_firsts, map_map. apply map_ext. intros n.
  now rewrite group_of_count.
Qed.

Hypothesis fold_idem : forall s, fold (fold s) = fold s.

(** Both row lists are histograms of the occurrences. *)
Lemma firsts_rows_histogram (occ : list string) :
  Spec.histogram_of fold occ
    (map (fun n => (n, Spec.occurrences fold (fold n) occ)) (Spec.firsts fold occ)) /\
  Spec.shows_first_seen fold occ
    (map (fun n => (n, Spec.occurrences fold (fold n) occ)) (Spec.firsts fold occ)).
Proof.
  split; [split; [|split]|].
  - rewrite map_map. simpl. apply firsts_from_NoDup.
  - intros s Hs. rewrite map_map. simpl.
    apply firsts_from_complete; [exact Hs|simpl; tauto].
  - intros n c Hin. apply in_map_iff in Hin as [m [[= <- <-] Hm]].
    split; [|reflexivity]. apply in_map. exact (firsts_from_In fold [] _ _ Hm).
  - intros n c Hin. apply in_map_iff in Hin as [m [[= <- <-] Hm]].
    exact (firsts_from_first fold [] _ _ Hm).
Qed.

Lemma firsts_keys_histogram (occ : list string) :
  Spec.histogram_of fold occ
    (map (fun n => (fold n, Spec.occurrences fold (fold n) occ)) (Spec.firsts fold occ)) /\
  Spec.shows_key fold
    (map (fun n => (fold n, Spec.occurrences fold (fold n) occ)) (Spec.firsts fold occ)).
Proof.
  split; [split; [|split]|].
  - rewrite map_map. simpl.
    rewrite (map_ext (fun n => fold (fold n)) fold fold_idem).
    apply firsts_from_NoDup.
  - intros s Hs. rewrite map_map. simpl.
    rewrite (map_ext (fun n => fold (fold n)) fold fold_idem).
    apply firsts_from_complete; [exact Hs|simpl; tauto].
  - intros n c Hin. apply in_map_iff in Hin as [m [[= <- <-] Hm]].
    rewrite fold_idem. split; [|reflexivity].
    apply in_map. exact (firsts_from_In fold [] _ _ Hm).
  - intros n c Hin. apply in_map_iff in Hin as [m [[= <- <-] Hm]].
    symmetry. apply fold_idem.
Qed.

(** Being a histogram, and how rows are shown, does not depend on the
    order of the rows. *)
Lemma histogram_of_perm (occ : list string) (rows rows' : list (string * Z)) :
  Permutation rows rows' ->
  Spec.histogram_of fold occ rows -> Spec.histogram_of fold occ rows'.
Proof.
  intros Hp [Hnd [Hall Hrows]]. split; [|split].
  - eapply Permutation_NoDup; [|exact Hnd]. apply Permutation_map. exact Hp.
  - intros s Hs. eapply Permutation_in; [|exact (Hall s Hs)].
    apply Permutation_map. exact Hp.
  - intros n c Hin. apply Hrows. eapply Permutation_in; [|exact Hin].
    symmetry. exact Hp.
Qed.

Lemma shows_first_seen_perm (occ : list string) (rows rows' : list (string * Z)) :
  Permutation rows rows' ->
  Spec.shows_first_seen fold occ rows -> Spec.shows_first_seen fold occ rows'.
Proof.
  intros Hp H n c Hin. apply (H n c). eapply Permutation_in; [|exact Hin].
  symmetry. exact Hp.
Qed.

Lemma shows_key_perm (rows rows' : list (string * Z)) :
  Permutation rows rows' ->
  Spec.shows_key fold rows -> Spec.shows_key fold rows'.
Proof.
  intros Hp H n c Hin. apply (H n c). eapply Permutation_in; [|exact Hin].
  symmetry. exact Hp.
Qed.

End Rows.

Section LowerCase.

Lemma lowerChar_idem (c : ascii) : JS.lowerChar (JS.lowerChar c) = JS.lowerChar c.
Proof.
  destruct c as [[] [] [] [] [] [] [] []]; reflexivity.
Qed.

Lemma toLowerCase_idem (s : string) :
  JS.toLowerCase (JS.toLowerCase s) = JS.toLowerCase s.
Proof.
  induction s as [|c r IH]; simpl; [reflexivity|].
  now rewrite lowerChar_idem, IH.
Qed.

End LowerCase.

(** The two sort keys are total preorders on groups. *)
Section SortKeys.
Context {D : Type}.
Variable name : Mongo.Group D -> string.

Lemma by_count_desc_total (a b : Mongo.Group D) :
  Mongo.by_count_desc a b = false -> Mongo.by_count_desc b a = true.
Proof.
  unfold Mongo.by_count_desc. intros H. apply Z.leb_gt in H. apply Z.leb_le. lia.
Qed.

Lemma by_count_desc_trans (a b c : Mongo.Group D) :
  Mongo.by_count_desc a b = true -> Mongo.by_count_desc b c = true ->
  Mongo.by_count_desc a c = true.
Proof.
  unfold Mongo.by_count_desc. rewrite !Z.leb_le. lia.
Qed.

Lemma by_count_desc_then_iff (a b : Mongo.Group D) :
  Mongo.by_count_desc_then name a b = true <->
  (Mongo.acc_count b < Mongo.acc_count a \/
   (Mongo.acc_count a = Mongo.acc_count b /\ String.leb (name a) (name b) = true)).
Proof.
  unfold Mongo.by_count_desc_then.
  rewrite orb_true_iff, andb_true_iff, Z.ltb_lt, Z.eqb_eq. tauto.
Qed.

Lemma by_count_desc_then_total (a b : Mongo.Group D) :
  Mongo.by_count_desc_then name a b = false ->
  Mongo.by_count_desc_then name b a = true.
Proof.
  intros H. apply by_count_desc_then_iff.
  destruct (Z.lt_trichotomy (Mongo.acc_count a) (Mongo.acc_count b)) as [Hlt|[He|Hgt]].
  - now left.
  - right. split; [now symmetry|].
    apply leb_total'. destruct (String.leb (name a) (name b)) eqn:Hl; [|reflexivity].
    assert (Mongo.by_count_desc_then name a b = true)
      by (apply by_count_desc_then_iff; right; now split).
    congruence.
  - assert (Mongo.by_count_desc_then name a b = true)
      by (apply by_count_desc_then_iff; left; lia).
    congruence.
Qed.

Lemma by_count_desc_then_trans (a b c : Mongo.Group D) :
  Mongo.by_count_desc_then name a b = true ->
  Mongo.by_count_desc_then name b c = true ->
  Mongo.by_count_desc_then name a c = true.
Proof.
  rewrite !by_count_desc_then_iff.
  intros [H1|[H1 L1]] [H2|[H2 L2]]; try (left; lia).
  right. split; [lia|]. exact (leb_trans _ _ _ L1 L2).
Qed.

End SortKeys.

(** ** The skill pipelines *)

Section SkillPipelines.

Lemma unwind_skills_snd (ps : list Profile.t) :
  map snd (Mongo.unwind_skills ps) = flat_map Profile.skills ps.
Proof.
  unfold Mongo.unwind_skills. induction ps as [|p r IH]; simpl; [reflexivity|].
  rewrite map_app, IH, map_map. simpl. now rewrite map_id.
Qed.

Lemma filter_snd {A : Type} (f : string -> bool) (l : list (A * string)) :
  map snd (filter (fun d => f (snd d)) l) = filter f (map snd l).
Proof.
  induction l as [|x r IH]; simpl; [reflexivity|].
  destruct (f (snd x)); simpl; now rewrite IH.
Qed.

Lemma page_rows_map {A B : Type} (f : A -> B) (limit page : Z) (l : list A) :
  map f (Mongo.limit limit (Mongo.skip ((page - 1) * limit) l))
  = Spec.page_rows limit page (map f l).
Proof.
  unfold Mongo.limit, Mongo.skip, Spec.page_rows.
  now rewrite skipn_map, firstn_map.
Qed.

Variable P : Type.
Variable docs : list (P * string).

(** Groups by lower-cased skill, sorted by count then first-seen name, shown
    by first-seen name. *)
Lemma sorted_rows_first_seen :
  let rows :=
    map (fun g => (Mongo.acc_first snd g, Mongo.acc_count g))
        (Mongo.sortBy (Mongo.by_count_desc_then (Mongo.acc_first snd))
           (Mongo.group_by (fun d => JS.toLowerCase (snd d)) docs)) in
  length rows = length (Mongo.group_by (fun d => JS.toLowerCase (snd d)) docs) /\
  Spec.histogram_of JS.toLowerCase (map snd docs) rows /\
  Spec.shows_first_seen JS.toLowerCase (map snd docs) rows /\
  StronglySorted Spec.count_desc_name_asc rows.
Proof.
  cbv zeta.
  set (cmp := Mongo.by_count_desc_then (Mongo.acc_first (D := P * string) snd)).
  set (groups := Mongo.group_by (fun d => JS.toLowerCase (snd d)) docs).
  assert (Hperm :
            Permutation
              (map (fun g => (Mongo.acc_first snd g, Mongo.acc_count g))
                   (Mongo.sortBy cmp groups))
              (map (fun n => (n, Spec.occurrences JS.toLowerCase (JS.toLowerCase n)
                                                  (map snd docs)))
                   (Spec.firsts JS.toLowerCase (map snd docs)))).
  { rewrite <- group_rows_first_seen. apply Permutation_map, sortBy_perm. }
  destruct (firsts_rows_histogram JS.toLowerCase (map snd docs)) as [Hh Hs].
  split; [|split; [|split]].
  - rewrite length_map. apply Permutation_length, sortBy_perm.
  - eapply histogram_of_perm; [symmetry; exact Hperm|exact Hh].
  - eapply shows_first_seen_perm; [symmetry; exact Hperm|exact Hs].
  - eapply StronglySorted_map;
      [|apply (sortBy_sorted cmp (by_count_desc_then_total _)
                             (by_count_desc_then_trans _))].
    intros a b Hab. apply by_count_desc_then_iff in Hab. exact Hab.
Qed.

(** The same groups sorted by count then key, shown by key. *)
Lemma sorted_rows_keys :
  let rows :=
    map (fun g => (Mongo._id g, Mongo.acc_count g))
        (Mongo.sortBy (Mongo.by_count_desc_then Mongo._id)
           (Mongo.group_by (fun d => JS.toLowerCase (snd d)) docs)) in
  length rows = length (Mongo.group_by (fun d => JS.toLowerCase (snd d)) docs) /\
  Spec.histogram_of JS.toLowerCase (map snd docs) rows /\
  Spec.shows_key JS.toLowerCase rows /\
  StronglySorted Spec.count_desc_name_asc rows.
Proof.
  cbv zeta.
  set (cmp := Mongo.by_count_desc_then (Mongo._id (D := P * string))).
  set (groups := Mongo.group_by (fun d => JS.toLowerCase (snd d)) docs).
  assert (Hperm :
            Permutation
              (map (fun g => (Mongo._id g, Mongo.acc_count g))
                   (Mongo.sortBy cmp groups))
              (map (fun n => (JS.toLowerCase n,
                              Spec.occurrences JS.toLowerCase (JS.toLowerCase n)
                                               (map snd docs)))
                   (Spec.firsts JS.toLowerCase (map snd docs)))).
  { rewrite <- group_rows_keys. apply Permutation_map, sortBy_perm. }
  destruct (firsts_keys_histogram JS.toLowerCase toLowerCase_idem (map snd docs))
    as [Hh Hs].
  split; [|split; [|split]].
  - rewrite length_map. apply Permutation_length, sortBy_perm.
  - eapply histogram_of_perm; [symmetry; exact Hperm|exact Hh].
  - eapply shows_key_perm; [symmetry; exact Hperm|exact Hs].
  - eapply StronglySorted_map;
      [|apply (sortBy_sorted cmp (by_count_desc_then_total _)
                             (by_count_desc_then_trans _))].
    intros a b Hab. apply by_count_desc_then_iff in Hab. exact Hab.
Qed.

(** The same groups sorted by count alone, shown by key. *)
Lemma top_rows_keys :
  let rows :=
    map (fun g => (Mongo._id g, Mongo.acc_count g))
        (Mongo.sortBy Mongo.by_count_desc
           (Mongo.group_by (fun d => JS.toLowerCase (snd d)) docs)) in
  Spec.histogram_of JS.toLowerCase (map snd docs) rows /\
  Spec.shows_key JS.toLowerCase rows /\
  StronglySorted Spec.count_desc rows.
Proof.
  cbv zeta.
  set (groups := Mongo.group_by (fun d => JS.toLowerCase (snd d)) docs).
  assert (Hperm :
            Permutation
              (map (fun g => (Mongo._id g, Mongo.acc_count g))
                   (Mongo.sortBy Mongo.by_count_desc groups))
              (map (fun n => (JS.toLowerCase n,
                              Spec.occurrences JS.toLowerCase (JS.toLowerCase n)
                                               (map snd docs)))
                   (Spec.firsts JS.toLowerCase (map snd docs)))).
  { rewrite <- group_rows_keys. apply Permutation_map, sortBy_perm. }
  destruct (firsts_keys_histogram JS.toLowerCase toLowerCase_idem (map snd docs))
    as [Hh Hs].
  split; [|split].
  - eapply histogram_of_perm; [symmetry; exact Hperm|exact Hh].
  - eapply shows_key_perm; [symmetry; exact Hperm|exact Hs].
  - eapply StronglySorted_map;
      [|apply (sortBy_sorted Mongo.by_count_desc by_count_desc_total
                             by_count_desc_trans)].
    intros a b Hab. unfold Mongo.by_count_desc in Hab. apply Z.leb_le in Hab.
    exact Hab.
Qed.

(** Groups by the skill text as stored, sorted by count alone. *)
Lemma exact_rows :
  let rows :=
    map (fun g => (Mongo._id g, Mongo.acc_count g))
        (Mongo.sortBy Mongo.by_count_desc (Mongo.group_by snd docs)) in
  Spec.histogram_of (fun s => s) (map snd docs) rows /\
  StronglySorted Spec.count_desc rows.
Proof.
  cbv zeta.
  change (Mongo.group_by snd docs)
    with (Mongo.group_by (fun d => (fun s : string => s) (snd d)) docs).
  assert (Hperm :
            Permutation
              (map (fun g => (Mongo._id g, Mongo.acc_count g))
                   (Mongo.sortBy Mongo.by_count_desc
                      (Mongo.group_by (fun d => (fun s : string => s) (snd d)) docs)))
              (map (fun n => (n, Spec.occurrences (fun s => s) n (map snd docs)))
                   (Spec.firsts (fun s => s) (map snd docs)))).
  { rewrite <- (group_rows_keys snd (fun s => s)). apply Permutation_map, sortBy_perm. }
  destruct (firsts_rows_histogram (fun s => s) (map snd docs)) as [Hh _].
  split.
  - eapply histogram_of_perm; [symmetry; exact Hperm|exact Hh].
  - eapply StronglySorted_map;
      [|apply (sortBy_sorted Mongo.by_count_desc by_count_desc_total
                             by_count_desc_trans)].
    intros a b Hab. unfold Mongo.by_count_desc in Hab. apply Z.leb_le in Hab.
    exact Hab.
Qed.

End SkillPipelines.

Section Ranks.

Lemma map_from_rows {A B C : Type} (f : A -> Z -> B) (g : B -> C) (h : A -> C)
      (index : Z) (l : list A) :
  (forall x i, g (f x i) = h x) ->
  map g (SkillRoutes.map_from f index l) = map h l.
Proof.
  intros H. revert index. induction l as [|x r IH]; intros index; simpl;
    [reflexivity|].
  now rewrite H, IH.
Qed.

Lemma map_from_ranks {A B : Type} (f : A -> Z -> B) (g : B -> Z) (index : nat)
      (l : list A) :
  (forall x i, g (f x i) = i + 1) ->
  map g (SkillRoutes.map_from f (Z.of_nat index) l)
  = map (fun i => Z.of_nat i + 1) (seq index (length l)).
Proof.
  intros H. revert index. induction l as [|x r IH]; intros index; simpl;
    [reflexivity|].
  rewrite H. f_equal. rewrite <- IH. f_equal. f_equal. lia.
Qed.

Lemma map_from_length {A B : Type} (f : A -> Z -> B) (index : Z) (l : list A) :
  length (SkillRoutes.map_from f index l) = length l.
Proof.
  revert index. induction l as [|x r IH]; intros index; simpl; [reflexivity|].
  now rewrite IH.
Qed.

End Ranks.

Lemma search_skills_only (RE : RegexEngine) {LC : LowerCase} (query : string)
      (limit page : option Z) (db : Store) :
  Spec.isBlank (Some query) = false ->
  let section :=
    SearchRoutes.searchSkills (JS.trim query) (SearchRoutes.default limit 20)
                              (SearchRoutes.default page 1) db in
  SearchRoutes.search (Some query) (Some "skills"%string) limit page db
  = ErrorHandler.Ok
      (ErrorHandler.mkEnvelope true None
         (SearchRoutes.mkSearchData (JS.trim query) "skills"
            (0 + 0 + SearchRoutes.total section)
            (SearchRoutes.mkResults None None (Some section))
            (SearchRoutes.default page 1, SearchRoutes.default limit 20))).
Proof.
  intros Hb. unfold SearchRoutes.search.
  rewrite noQuery_iff_blank, Hb. reflexivity.
Qed.

(** C3, as the code has it.  The three skill histograms group the skills of
    public profiles by their lower-cased text and count the occurrences of
    each group.  GET /api/search with type=skills, in every answer it
    gives (the query is sent to the store as a pattern; a text that is no
    pattern makes the request fail), shows each group of the skills that
    match the query in the casing of its first occurrence and orders by
    count descending, then shown name ascending.
    GET /api/skills shows each group by its lower-cased name, in the same
    order.  GET /api/skills/top shows each group by its lower-cased name,
    ordered by count descending, with ranks 1, 2, ...  For the skills React,
    react, Go across two public profiles, the search shows React with count
    2 above Go with count 1, the two listings show react with count 2 above
    go with count 1.  (Pages are cut for a limit of at least 1 and a page of
    at least 1.) *)
Theorem skill_histograms_of_the_routes :
  forall (RE : RegexEngine) (LC : LowerCase) (db : Store) (query : string)
         (limit page : Z),
    Spec.isBlank (Some query) = false ->
    0 < limit -> 1 <= page ->
    (forall body,
        SearchRoutes.search (Some query) (Some "skills"%string) (Some limit) (Some page) db
        = ErrorHandler.Ok body ->
        exists section rows,
        SearchRoutes.skills (SearchRoutes.results (ErrorHandler.data body)) = Some section /\
        map Spec.hit_row (SearchRoutes.data section) = Spec.page_rows limit page rows /\
        SearchRoutes.total section = Z.of_nat (length rows) /\
        Spec.histogram_of JS.toLowerCase
          (filter (regex_i (JS.trim query)) (Spec.publicSkills db)) rows /\
        Spec.shows_first_seen JS.toLowerCase
          (filter (regex_i (JS.trim query)) (Spec.publicSkills db)) rows /\
        StronglySorted Spec.count_desc_name_asc rows) /\
    (exists body rows,
        SkillRoutes.getSkills (Some limit) (Some page) db = ErrorHandler.Ok body /\
        map Spec.skill_row (SkillRoutes.skills (ErrorHandler.data body))
        = Spec.page_rows limit page rows /\
        Pagination.total (SkillRoutes.pagination (ErrorHandler.data body))
        = Z.of_nat (length rows) /\
        Spec.histogram_of JS.toLowerCase (Spec.publicSkills db) rows /\
        Spec.shows_key JS.toLowerCase rows /\
        StronglySorted Spec.count_desc_name_asc rows) /\
    (exists body rows,
        SkillRoutes.getTopSkills (Some limit) db = ErrorHandler.Ok body /\
        map Spec.ranked_row (SkillRoutes.top_skills (ErrorHandler.data body))
        = firstn (Z.to_nat limit) rows /\
        map SkillRoutes.rank (SkillRoutes.top_skills (ErrorHandler.data body))
        = map (fun i => Z.of_nat i + 1)
              (seq 0 (length (SkillRoutes.top_skills (ErrorHandler.data body)))) /\
        Spec.histogram_of JS.toLowerCase (Spec.publicSkills db) rows /\
        Spec.shows_key JS.toLowerCase rows /\
        StronglySorted Spec.count_desc rows) /\
    (Spec.publicSkills Sample.skillStore = ["React"; "react"; "Go"]%string /\
     (exists body,
         @SearchRoutes.search WildcardRegex AsciiCase (Some "."%string) (Some "skills"%string)
                              None None Sample.skillStore = ErrorHandler.Ok body /\
         option_map (fun s => map Spec.hit_row (SearchRoutes.data s))
                    (SearchRoutes.skills (SearchRoutes.results (ErrorHandler.data body)))
         = Some [("React"%string, 2); ("Go"%string, 1)]) /\
     (exists body,
         SkillRoutes.getSkills None None Sample.skillStore = ErrorHandler.Ok body /\
         map Spec.skill_row (SkillRoutes.skills (ErrorHandler.data body))
         = [("react"%string, 2); ("go"%string, 1)]) /\
     (exists body,
         SkillRoutes.getTopSkills None Sample.skillStore = ErrorHandler.Ok body /\
         map Spec.ranked_row (SkillRoutes.top_skills (ErrorHandler.data body))
         = [("react"%string, 2); ("go"%string, 1)])).
Proof.
  intros RE LC db query limit page Hb _ _.
  split; [|split; [|split]].
  - pose proof (search_skills_only RE query (Some limit) (Some page) db Hb) as Hs.
    cbv zeta in Hs. simpl SearchRoutes.default in Hs.
    intros body Hbody. rewrite Hs in Hbody. injection Hbody as <-.
    eexists. eexists.
    split; [reflexivity|].
    unfold SearchRoutes.searchSkills, SearchRoutes.page_of,
      SearchRoutes.matchingSkillGroups.
    cbn [SearchRoutes.data SearchRoutes.total].
    set (docs := filter (fun d => regex_i (JS.trim query) (snd d))
                        (Mongo.unwind_skills (filter Profile.isPublic db))).
    assert (Hocc : map snd docs
                   = filter (regex_i (JS.trim query)) (Spec.publicSkills db))
      by (unfold docs, Spec.publicSkills; now rewrite filter_snd, unwind_skills_snd).
    destruct (sorted_rows_first_seen Profile.t docs) as [Hlen [Hh [Hf Hsort]]].
    rewrite Hocc in Hh, Hf.
    split; [|split; [|split; [exact Hh|split; [exact Hf|exact Hsort]]]].
    + rewrite map_map.
      rewrite (map_ext (fun g => Spec.hit_row (SearchRoutes.skillHit g))
                       (fun g => (Mongo.acc_first snd g, Mongo.acc_count g)))
        by reflexivity.
      apply page_rows_map.
    + f_equal. symmetry. exact Hlen.
  - unfold SkillRoutes.getSkills. simpl SearchRoutes.default.
    eexists. eexists. split; [reflexivity|].
    cbn [ErrorHandler.data SkillRoutes.skills SkillRoutes.pagination].
    unfold Pagination.paginate. cbn [Pagination.total].
    unfold SkillRoutes.skillGroups.
    set (docs := Mongo.unwind_skills (filter Profile.isPublic db)).
    assert (Hocc : map snd docs = Spec.publicSkills db)
      by (unfold docs, Spec.publicSkills; apply unwind_skills_snd).
    destruct (sorted_rows_keys Profile.t docs) as [Hlen [Hh [Hk Hsort]]].
    rewrite Hocc in Hh.
    split; [|split; [|split; [exact Hh|split; [exact Hk|exact Hsort]]]].
    + rewrite map_map.
      rewrite (map_ext (fun g => Spec.skill_row (SkillRoutes.skillRow g))
                       (fun g => (Mongo._id g, Mongo.acc_count g)))
        by reflexivity.
      apply page_rows_map.
    + f_equal. symmetry. exact Hlen.
  - unfold SkillRoutes.getTopSkills. simpl SearchRoutes.default.
    eexists. eexists. split; [reflexivity|].
    cbn [ErrorHandler.data SkillRoutes.top_skills].
    unfold SkillRoutes.skillGroups.
    set (docs := Mongo.unwind_skills (filter Profile.isPublic db)).
    assert (Hocc : map snd docs = Spec.publicSkills db)
      by (unfold docs, Spec.publicSkills; apply unwind_skills_snd).
    destruct (top_rows_keys Profile.t docs) as [Hh [Hk Hsort]].
    rewrite Hocc in Hh.
    split; [|split; [|split; [exact Hh|split; [exact Hk|exact Hsort]]]].
    + rewrite (map_from_rows _ Spec.ranked_row
                 (fun g => (Mongo._id g, Mongo.acc_count g))) by reflexivity.
      unfold Mongo.limit. now rewrite firstn_map.
    + rewrite map_from_length.
      apply (map_from_ranks _ SkillRoutes.rank 0). reflexivity.
  - split; [reflexivity|]. split; [|split]; eexists; split; reflexivity.
Qed.

Lemma skill_histograms_of_the_routes_witness :
  exists body rows,
    SkillRoutes.getSkills (Some 50) (Some 1) Sample.skillStore = ErrorHandler.Ok body /\
    map Spec.skill_row (SkillRoutes.skills (ErrorHandler.data body))
    = Spec.page_rows 50 1 rows /\
    Pagination.total (SkillRoutes.pagination (ErrorHandler.data body))
    = Z.of_nat (length rows) /\
    Spec.histogram_of JS.toLowerCase (Spec.publicSkills Sample.skillStore) rows /\
    Spec.shows_key JS.toLowerCase rows /\
    StronglySorted Spec.count_desc_name_asc rows.
Proof.
  exact (proj1 (proj2 (skill_histograms_of_the_routes
                         LiteralRegex AsciiCase Sample.skillStore "re" 50 1 eq_refl
                         ltac:(lia) ltac:(lia)))).
Defined.

(** Counterexample to C3 as the specification words it: GET /api/skills and
    GET /api/skills/top do not show a group in the casing of its first
    occurrence.  For the skills React, react, Go of two public profiles they
    show the group of React under the name react. *)
Lemma skills_listing_shows_folded_name :
  exists body top,
    SkillRoutes.getSkills None None Sample.skillStore = ErrorHandler.Ok body /\
    SkillRoutes.getTopSkills None Sample.skillStore = ErrorHandler.Ok top /\
    map Spec.skill_row (SkillRoutes.skills (ErrorHandler.data body))
    = [("react"%string, 2); ("go"%string, 1)] /\
    map Spec.ranked_row (SkillRoutes.top_skills (ErrorHandler.data top))
    = [("react"%string, 2); ("go"%string, 1)] /\
    Spec.firstSeen JS.toLowerCase "react" (Spec.publicSkills Sample.skillStore)
    = Some "React"%string /\
    ~ Spec.shows_first_seen JS.toLowerCase (Spec.publicSkills Sample.skillStore)
        (map Spec.skill_row (SkillRoutes.skills (ErrorHandler.data body))) /\
    ~ Spec.shows_first_seen JS.toLowerCase (Spec.publicSkills Sample.skillStore)
        (map Spec.ranked_row (SkillRoutes.top_skills (ErrorHandler.data top))).
Proof.
  eexists. eexists. split; [reflexivity|]. split; [reflexivity|].
  split; [reflexivity|]. split; [reflexivity|]. split; [reflexivity|].
  split; intros H; specialize (H "react"%string 2 (or_introl eq_refl));
    discriminate H.
Qed.

(** ** Related skills *)

Section RelatedSkills.

Lemma filter_map_comm {A B : Type} (f : A -> B) (p : B -> bool) (l : list A) :
  filter p (map f l) = map f (filter (fun x => p (f x)) l).
Proof.
  induction l as [|x r IH]; simpl; [reflexivity|].
  destruct (p (f x)); simpl; now rewrite IH.
Qed.

(** The [relatedSkills] field computed from the store alone. *)
Lemma related_rows (LC : LowerCase) (db : Store) (skillName : string) :
  exists rows,
    map Spec.related_row
        (map (fun skill => SkillRoutes.mkRelatedSkill (Mongo._id skill)
                                                      (Mongo.acc_count skill))
             (JS.slice
                (filter (fun skill =>
                           negb (String.eqb (toLowerCase (Mongo._id skill))
                                            (toLowerCase skillName)))
                        (SkillRoutes.relatedSkillGroups db))
                0 5))
    = firstn 5 (filter (fun r => negb (String.eqb (toLowerCase (fst r))
                                                  (toLowerCase skillName)))
                       (firstn 10 rows)) /\
    Spec.histogram_of (fun s => s) (Spec.publicSkills db) rows /\
    StronglySorted Spec.count_desc rows.
Proof.
  set (docs := Mongo.unwind_skills (filter Profile.isPublic db)).
  destruct (exact_rows Profile.t docs) as [Hh Hs].
  assert (Hocc : map snd docs = Spec.publicSkills db)
    by (unfold docs, Spec.publicSkills; apply unwind_skills_snd).
  rewrite Hocc in Hh.
  eexists. split; [|split; [exact Hh|exact Hs]].
  rewrite slice_prefix by lia. rewrite map_map.
  unfold SkillRoutes.relatedSkillGroups, Mongo.limit. fold docs.
  change (Z.to_nat 5) with 5%nat. change (Z.to_nat 10) with 10%nat.
  rewrite (map_ext (fun skill => Spec.related_row
                                   (SkillRoutes.mkRelatedSkill (Mongo._id skill)
                                                               (Mongo.acc_count skill)))
                   (fun g => (Mongo._id g, Mongo.acc_count g))) by reflexivity.
  rewrite firstn_map, filter_map_comm, firstn_map. reflexivity.
Qed.

End RelatedSkills.

(** C7, as the code has it.  The [relatedSkills] of every answer of
    GET /api/skills/:skillName are the first five, after removal of every
    entry equal to the target up to letter case (both put in lower case by
    [toLowerCase]), of the first ten rows of a histogram that groups the
    skills of public profiles by their text exactly as stored (no case
    folding) and is ordered by count descending. *)
Theorem related_skills_of_exact_histogram :
  forall (RE : RegexEngine) (LC : LowerCase) (db : Store) (skillName : string)
         (limit page : option Z) (body : ErrorHandler.Envelope SkillRoutes.SkillDetail),
    SkillRoutes.getSkill skillName limit page db = ErrorHandler.Ok body ->
    exists rows,
      map Spec.related_row (SkillRoutes.relatedSkills (ErrorHandler.data body))
      = firstn 5 (filter (fun r => negb (String.eqb (toLowerCase (fst r))
                                                    (toLowerCase skillName)))
                         (firstn 10 rows)) /\
      Spec.histogram_of (fun s => s) (Spec.publicSkills db) rows /\
      StronglySorted Spec.count_desc rows.
Proof.
  intros RE LC db skillName limit page body Hok.
  destruct (related_rows LC db skillName) as [rows [Hrows [Hh Hs]]].
  unfold SkillRoutes.getSkill in Hok.
  destruct (Nat.eqb (length (filter (SkillRoutes.hasSkill skillName) db)) 0);
    [discriminate|].
  injection Hok as <-. exists rows.
  split; [exact Hrows|split; [exact Hh|exact Hs]].
Qed.

Lemma related_skills_of_exact_histogram_witness :
  exists body rows,
    @SkillRoutes.getSkill LiteralRegex AsciiCase "Go" None None Sample.skillStore
    = ErrorHandler.Ok body /\
    map Spec.related_row (SkillRoutes.relatedSkills (ErrorHandler.data body))
    = firstn 5 (filter (fun r => negb (Spec.ieq (fst r) "Go")) (firstn 10 rows)) /\
    Spec.histogram_of (fun s => s) (Spec.publicSkills Sample.skillStore) rows /\
    StronglySorted Spec.count_desc rows.
Proof.
  eexists.
  destruct (related_skills_of_exact_histogram LiteralRegex AsciiCase Sample.skillStore
              "Go" None None _ eq_refl) as [rows Hrows].
  exists rows. split; [reflexivity|exact Hrows].
Defined.

(** Counterexample to C7 as the specification words it: the related skills
    are not cut from the skill
    histogram of the specification, which folds case.  With the skills
    React, react, Go of two public profiles and the target Go, the response
    lists React and react apart with count 1 each, where the case-folded
    histogram has one row React with count 2. *)
Lemma related_skills_keep_case_apart :
  exists body,
    @SkillRoutes.getSkill LiteralRegex AsciiCase "Go" None None Sample.skillStore
    = ErrorHandler.Ok body /\
    map Spec.related_row (SkillRoutes.relatedSkills (ErrorHandler.data body))
    = [("React"%string, 1); ("react"%string, 1)] /\
    Spec.relatedSkills "Go" Sample.skillStore = [("React"%string, 2)] /\
    map Spec.related_row (SkillRoutes.relatedSkills (ErrorHandler.data body))
    <> Spec.relatedSkills "Go" Sample.skillStore.
Proof.
  eexists. split; [reflexivity|]. split; [reflexivity|]. split; [reflexivity|].
  discriminate.
Qed.

(** ** Suggestions *)

Section Dedupe.

Lemma dedupe_from_ext (seen1 seen2 : list string) (l : list SearchRoutes.Suggestion) :
  (forall v, JS.Array_includes seen1 v = JS.Array_includes seen2 v) ->
  Spec.dedupe_from seen1 l = Spec.dedupe_from seen2 l.
Proof.
  revert seen1 seen2. induction l as [|x r IH]; intros seen1 seen2 Hext; simpl;
    [reflexivity|].
  rewrite (Hext (SearchRoutes.value x)).
  destruct (JS.Array_includes seen2 (SearchRoutes.value x)).
  - apply IH. exact Hext.
  - f_equal. apply IH. intros v. simpl. now rewrite Hext.
Qed.

Lemma dedupe_from_In (seen : list string) (l : list SearchRoutes.Suggestion) x :
  In x (Spec.dedupe_from seen l) -> In x l /\ ~ In (SearchRoutes.value x) seen.
Proof.
  revert seen. induction l as [|y r IH]; intros seen; simpl; [tauto|].
  destruct (JS.Array_includes seen (SearchRoutes.value y)) eqn:Hy.
  - intros H. destruct (IH _ H). tauto.
  - intros [<-|H].
    + split; [now left|]. intros Hin. apply Array_includes_In in Hin. congruence.
    + destruct (IH _ H) as [Hr Hs]. split; [now right|].
      intros Hin. apply Hs. now right.
Qed.

Lemma dedupe_from_NoDup (seen : list string) (l : list SearchRoutes.Suggestion) :
  NoDup (map SearchRoutes.value (Spec.dedupe_from seen l)).
Proof.
  revert seen. induction l as [|y r IH]; intros seen; simpl; [constructor|].
  destruct (JS.Array_includes seen (SearchRoutes.value y)); [apply IH|].
  simpl. constructor; [|apply IH].
  intros Hin. apply in_map_iff in Hin as [z [Hz Hin]].
  apply dedupe_from_In in Hin as [_ Hfresh]. apply Hfresh. rewrite Hz. now left.
Qed.

Lemma findIndex_found {A : Type} (f : A -> bool) (l : list A) :
  existsb f l = true -> 0 <= JS.findIndex f l < Z.of_nat (length l).
Proof.
  induction l as [|x r IH]; simpl; [discriminate|].
  destruct (f x); simpl; [lia|].
  intros H. specialize (IH H).
  destruct (JS.findIndex f r <? 0) eqn:Hn; [apply Z.ltb_lt in Hn; lia|lia].
Qed.

Lemma findIndex_app_found {A : Type} (f : A -> bool) (l1 l2 : list A) :
  existsb f l1 = true -> JS.findIndex f (l1 ++ l2) = JS.findIndex f l1.
Proof.
  induction l1 as [|x r IH]; simpl; [discriminate|].
  destruct (f x); simpl; [reflexivity|].
  intros H. now rewrite (IH H).
Qed.

Lemma findIndex_app_here {A : Type} (f : A -> bool) (l1 : list A) (x : A) (l2 : list A) :
  existsb f l1 = false -> f x = true ->
  JS.findIndex f (l1 ++ x :: l2) = Z.of_nat (length l1).
Proof.
  intros Hnone Hx. induction l1 as [|y r IH]; simpl in *.
  - now rewrite Hx.
  - apply orb_false_iff in Hnone as [Hy Hr]. rewrite Hy, (IH Hr).
    destruct (Z.of_nat (length r) <? 0) eqn:Hn; [apply Z.ltb_lt in Hn; lia|lia].
Qed.

(** The index test of the handler keeps exactly the first element of each
    value. *)
Lemma filter_from_dedupe (pre arr : list SearchRoutes.Suggestion) :
  JS.filter_from
    (fun suggestion index self =>
       index =? JS.findIndex
                  (fun s => String.eqb (SearchRoutes.value s)
                                       (SearchRoutes.value suggestion)) self)
    (pre ++ arr) (Z.of_nat (length pre)) arr
  = Spec.dedupe_from (map SearchRoutes.value pre) arr.
Proof.
  revert pre. induction arr as [|x r IH]; intros pre; [reflexivity|].
  simpl JS.filter_from. simpl Spec.dedupe_from.
  assert (Hsame : JS.Array_includes (map SearchRoutes.value pre) (SearchRoutes.value x)
                  = existsb (fun s => String.eqb (SearchRoutes.value s)
                                                 (SearchRoutes.value x)) pre).
  { unfold JS.Array_includes. induction pre as [|y t IHt]; simpl; [reflexivity|].
    now rewrite IHt, String.eqb_sym. }
  assert (Hnext : JS.filter_from
                    (fun suggestion index self =>
                       index =? JS.findIndex
                                  (fun s => String.eqb (SearchRoutes.value s)
                                                       (SearchRoutes.value suggestion))
                                  self)
                    (pre ++ x :: r) (Z.of_nat (length pre) + 1) r
                  = Spec.dedupe_from (map SearchRoutes.value pre ++ [SearchRoutes.value x]) r).
  { specialize (IH (pre ++ [x])).
    rewrite <- app_assoc, length_app, map_app in IH. simpl in IH.
    rewrite <- IH. f_equal. lia. }
  rewrite Hnext, Hsame.
  destruct (existsb _ pre) eqn:Hex.
  - rewrite (findIndex_app_found _ pre (x :: r) Hex).
    pose proof (findIndex_found _ pre Hex) as Hb.
    assert ((Z.of_nat (length pre) =? JS.findIndex
               (fun s => String.eqb (SearchRoutes.value s) (SearchRoutes.value x)) pre)
            = false) as -> by (apply Z.eqb_neq; lia).
    apply dedupe_from_ext. intros v. unfold JS.Array_includes.
    rewrite existsb_app. simpl. rewrite orb_false_r.
    destruct (String.eqb v (SearchRoutes.value x)) eqn:Hv;
      [|now rewrite orb_false_r].
    apply String.eqb_eq in Hv. subst v. rewrite orb_true_r.
    symmetry. fold (JS.Array_includes (map SearchRoutes.value pre) (SearchRoutes.value x)).
    now rewrite Hsame.
  - rewrite (findIndex_app_here _ pre x r Hex (String.eqb_refl _)).
    rewrite Z.eqb_refl. f_equal.
    apply dedupe_from_ext. intros v. unfold JS.Array_includes.
    rewrite existsb_app. simpl. rewrite orb_false_r. apply orb_comm.
Qed.

Lemma uniqueByValue_dedupe (l : list SearchRoutes.Suggestion) :
  SearchRoutes.uniqueByValue l = Spec.dedupe_first l.
Proof.
  unfold SearchRoutes.uniqueByValue, JS.filter_indexed, Spec.dedupe_first.
  exact (filter_from_dedupe [] l).
Qed.

End Dedupe.

Section SuggestionSources.
Context {RE : RegexEngine}.
Variable q : string.
Hypothesis anchored_is_prefix :
  forall s, regex_i (String "^"%char q) s = Spec.istartsWith q s.

Lemma names_filter (f : string -> bool) (db : Store) :
  map Profile.name (filter (fun p => f (Profile.name p) && Profile.isPublic p) db)
  = filter f (Spec.publicNames db).
Proof.
  unfold Spec.publicNames. induction db as [|p r IH]; simpl; [reflexivity|].
  destruct (Profile.isPublic p); simpl.
  - rewrite andb_true_r. destruct (f (Profile.name p)); simpl; now rewrite IH.
  - rewrite andb_false_r. exact IH.
Qed.

Lemma profile_suggestion_names (db : Store) :
  map Profile.name (SearchRoutes.profileSuggestions q db)
  = firstn 5 (filter (Spec.istartsWith q) (Spec.publicNames db)).
Proof.
  unfold SearchRoutes.profileSuggestions, Mongo.limit.
  change (Z.to_nat 5) with 5%nat.
  rewrite <- firstn_map. f_equal.
  rewrite (filter_ext _ (fun p => Spec.istartsWith q (Profile.name p)
                                  && Profile.isPublic p))
    by (intros p; now rewrite anchored_is_prefix).
  apply names_filter.
Qed.

Lemma skill_suggestion_names (db : Store) :
  map (Mongo.acc_first snd) (SearchRoutes.skillSuggestions q db)
  = firstn 5 (Spec.firsts JS.toLowerCase
                          (filter (Spec.istartsWith q) (Spec.publicSkills db))).
Proof.
  unfold SearchRoutes.skillSuggestions, Mongo.limit.
  change (Z.to_nat 5) with 5%nat.
  rewrite <- firstn_map. f_equal.
  set (docs := filter (fun d => regex_i (String "^"%char q) (snd d))
                      (Mongo.unwind_skills (filter Profile.isPublic db))).
  assert (Hocc : map snd docs = filter (Spec.istartsWith q) (Spec.publicSkills db)).
  { unfold docs, Spec.publicSkills. rewrite filter_snd, unwind_skills_snd.
    apply filter_ext. exact anchored_is_prefix. }
  pose proof (group_rows_first_seen snd JS.toLowerCase docs) as Hrows.
  apply (f_equal (map fst)) in Hrows. rewrite !map_map in Hrows. simpl in Hrows.
  rewrite map_id in Hrows. rewrite Hocc in Hrows. exact Hrows.
Qed.

Lemma unwound_titles (f : string -> bool) (ps : list Profile.t) :
  map (fun d => Project.title (snd d))
      (filter (fun d => Project.isPublic (snd d) && f (Project.title (snd d)))
              (Mongo.unwind_projects ps))
  = filter f (flat_map (fun p => map Project.title
                                     (filter Project.isPublic (Profile.projects p))) ps).
Proof.
  unfold Mongo.unwind_projects. induction ps as [|p r IH]; simpl; [reflexivity|].
  rewrite !filter_app, map_app, IH. f_equal.
  induction (Profile.projects p) as [|x xs IHx]; simpl; [reflexivity|].
  destruct (Project.isPublic x); simpl; [|exact IHx].
  destruct (f (Project.title x)); simpl; now rewrite IHx.
Qed.

Lemma project_suggestion_titles (db : Store) :
  map (Mongo.acc_first (fun d => Project.title (snd d)))
      (SearchRoutes.projectSuggestions q db)
  = firstn 5 (Spec.firsts (fun t => t)
                          (filter (Spec.istartsWith q) (Spec.publicProjectTitles db))).
Proof.
  unfold SearchRoutes.projectSuggestions, Mongo.limit.
  change (Z.to_nat 5) with 5%nat.
  rewrite <- firstn_map. f_equal.
  set (docs := filter (fun d => Project.isPublic (snd d) &&
                                regex_i (String "^"%char q) (Project.title (snd d)))
                      (Mongo.unwind_projects (filter Profile.isPublic db))).
  assert (Hocc : map (fun d => Project.title (snd d)) docs
                 = filter (Spec.istartsWith q) (Spec.publicProjectTitles db)).
  { unfold docs, Spec.publicProjectTitles. rewrite unwound_titles.
    apply filter_ext. exact anchored_is_prefix. }
  pose proof (group_rows_first_seen (fun d : Profile.t * Project.t => Project.title (snd d))
                                    (fun t => t) docs) as Hrows.
  apply (f_equal (map fst)) in Hrows. rewrite !map_map in Hrows. simpl in Hrows.
  rewrite map_id in Hrows. rewrite Hocc in Hrows. exact Hrows.
Qed.

End SuggestionSources.

Section SuggestionFacts.

Lemma NoDup_firstn {A : Type} (n : nat) (l : list A) : NoDup l -> NoDup (firstn n l).
Proof.
  intros H. rewrite <- (firstn_skipn n l) in H. exact (NoDup_app_remove_r _ _ H).
Qed.

Lemma firsts_subset (key : string -> string) (l : list string) (x : string) :
  In x (Spec.firsts key l) -> In x l.
Proof. apply firsts_from_In. Qed.

Lemma tagged_sourced (q : string) (db : Store) (type : string) (pool : list string)
      (texts : list string) :
  (forall t, In t texts -> In t (filter (Spec.istartsWith q) pool)) ->
  (type = "profile"%string /\ pool = Spec.publicNames db) \/
  (type = "skill"%string /\ pool = Spec.publicSkills db) \/
  (type = "project"%string /\ pool = Spec.publicProjectTitles db) ->
  Forall (Spec.sourced q db) (map (Spec.tag type) texts).
Proof.
  intros Hsub Hpool. apply Forall_forall. intros s Hs.
  apply in_map_iff in Hs as [t [<- Ht]].
  apply Hsub, filter_In in Ht as [Hin Hq].
  unfold Spec.sourced, Spec.tag. simpl.
  split; [reflexivity|]. split; [exact Hq|].
  destruct Hpool as [[-> ->]|[[-> ->]|[-> ->]]]; auto.
Qed.

End SuggestionFacts.

(** The suggestions in the embedding, where the store returns documents and
    groups in store order. *)
Lemma suggestions_in_store_order :
  forall (RE : RegexEngine) (db : Store) (query : string) (limit : option Z),
    let q := JS.trim query in
    let names := firstn 5 (filter (Spec.istartsWith q) (Spec.publicNames db)) in
    let skills :=
      firstn 5 (Spec.firsts JS.toLowerCase
                            (filter (Spec.istartsWith q) (Spec.publicSkills db))) in
    let titles :=
      firstn 5 (Spec.firsts (fun t => t)
                            (filter (Spec.istartsWith q) (Spec.publicProjectTitles db))) in
    Spec.isBlank (Some query) = false ->
    0 <= SearchRoutes.default limit 10 ->
    (forall s, regex_i (String "^"%char q) s = Spec.istartsWith q s) ->
    exists body,
      SearchRoutes.getSuggestions (Some query) limit db = ErrorHandler.Ok body /\
      SearchRoutes.sd_query (ErrorHandler.data body) = Some q /\
      SearchRoutes.suggestions (ErrorHandler.data body)
      = firstn (Z.to_nat (SearchRoutes.default limit 10))
               (Spec.dedupe_first
                  (map (Spec.tag "profile") names ++
                   map (Spec.tag "skill") skills ++
                   map (Spec.tag "project") titles)) /\
      Forall (Spec.sourced q db) (SearchRoutes.suggestions (ErrorHandler.data body)) /\
      NoDup (map SearchRoutes.value (SearchRoutes.suggestions (ErrorHandler.data body))) /\
      Z.of_nat (length (SearchRoutes.suggestions (ErrorHandler.data body)))
      <= SearchRoutes.default limit 10.
Proof.
  intros RE db query limit q names skills titles Hb Hlimit Hprefix.
  assert (Heq :
    JS.slice
      (SearchRoutes.uniqueByValue
         (map (fun profile =>
                 SearchRoutes.mkSuggestion "profile" (Profile.name profile)
                                           (Profile.name profile))
              (SearchRoutes.profileSuggestions q db)
          ++ map (fun skill =>
                    SearchRoutes.mkSuggestion "skill" (Mongo.acc_first snd skill)
                                              (Mongo.acc_first snd skill))
                 (SearchRoutes.skillSuggestions q db)
          ++ map (fun project =>
                    let title := Mongo.acc_first (fun d => Project.title (snd d)) project in
                    SearchRoutes.mkSuggestion "project" title title)
                 (SearchRoutes.projectSuggestions q db)))
      0 (SearchRoutes.default limit 10)
    = firstn (Z.to_nat (SearchRoutes.default limit 10))
             (Spec.dedupe_first
                (map (Spec.tag "profile") names ++
                 map (Spec.tag "skill") skills ++
                 map (Spec.tag "project") titles))).
  { rewrite slice_prefix by exact Hlimit. rewrite uniqueByValue_dedupe.
    unfold names, skills, titles.
    rewrite <- (profile_suggestion_names q Hprefix db).
    rewrite <- (skill_suggestion_names q Hprefix db).
    rewrite <- (project_suggestion_titles q Hprefix db).
    rewrite !map_map. reflexivity. }
  exists (ErrorHandler.mkEnvelope true None
            (SearchRoutes.mkSuggestionsData (Some q)
               (firstn (Z.to_nat (SearchRoutes.default limit 10))
                       (Spec.dedupe_first
                          (map (Spec.tag "profile") names ++
                           map (Spec.tag "skill") skills ++
                           map (Spec.tag "project") titles))))).
  split.
  { unfold SearchRoutes.getSuggestions.
    rewrite noQuery_iff_blank, Hb. fold q.
    f_equal. f_equal. f_equal. exact Heq. }
  cbn [ErrorHandler.data SearchRoutes.sd_query SearchRoutes.suggestions].
  split; [reflexivity|]. split; [reflexivity|].
  split; [|split].
  - apply Forall_forall. intros s Hs.
    apply firstn_In in Hs. apply dedupe_from_In in Hs as [Hs _].
    revert s Hs. apply Forall_forall.
    apply Forall_app. split; [|apply Forall_app; split].
    + apply (tagged_sourced q db _ (Spec.publicNames db)); [|auto].
      intros t Ht. exact (firstn_In _ _ _ Ht).
    + apply (tagged_sourced q db _ (Spec.publicSkills db)); [|auto].
      intros t Ht. apply firstn_In in Ht. exact (firsts_subset _ _ _ Ht).
    + apply (tagged_sourced q db _ (Spec.publicProjectTitles db)); [|auto].
      intros t Ht. apply firstn_In in Ht. exact (firsts_subset _ _ _ Ht).
  - rewrite <- firstn_map. apply NoDup_firstn. apply dedupe_from_NoDup.
  - pose proof (firstn_le_length (Z.to_nat (SearchRoutes.default limit 10))
                  (Spec.dedupe_first
                     (map (Spec.tag "profile") names ++
                      map (Spec.tag "skill") skills ++
                      map (Spec.tag "project") titles))) as Hle.
    lia.
Qed.


Lemma firsts_picked_one_each (n : nat) (key : string -> string) (pool : list string) :
  Spec.picked_one_each n key pool (firstn n (Spec.firsts key pool)).
Proof.
  exists (Spec.firsts key pool). split; [|split; [|split]].
  - apply firsts_from_NoDup.
  - intros r Hr. exact (firsts_subset key pool r Hr).
  - intros x Hx. apply firsts_from_complete; [exact Hx|]. intros [].
  - reflexivity.
Qed.

(** C6, as the code has it.  Let q be the query with surrounding white
    space trimmed, non-empty, and let the store's anchored pattern for q act
    as the case-insensitive prefix test (q holds no pattern metacharacter).
    Every answer of GET /api/search/suggestions then names q and is built
    from at most 5 names of public profiles that start with q (the first 5
    the store returns, all of them when there are no more than 5), at most
    5 skills of public profiles that start with q (one per lower-cased text)
    and at most 5 titles of public projects of public profiles that start
    with q (one per title): they are tagged profile, skill and project,
    concatenated in that order, the first suggestion of each value is kept
    and the list is cut to the requested limit (10 when none is given), for
    a limit that is not negative. *)
Theorem suggestions_for_trimmed_prefix :
  forall (RE : RegexEngine) (db : Store) (query : string) (limit : option Z)
         (body : ErrorHandler.Envelope SearchRoutes.SuggestionsData),
    let q := JS.trim query in
    Spec.isBlank (Some query) = false ->
    0 <= SearchRoutes.default limit 10 ->
    (forall s, regex_i (String "^"%char q) s = Spec.istartsWith q s) ->
    SearchRoutes.getSuggestions (Some query) limit db = ErrorHandler.Ok body ->
    SearchRoutes.sd_query (ErrorHandler.data body) = Some q /\
    (exists names skills titles,
        Spec.picked 5 (filter (Spec.istartsWith q) (Spec.publicNames db)) names /\
        Spec.picked_one_each 5 JS.toLowerCase
          (filter (Spec.istartsWith q) (Spec.publicSkills db)) skills /\
        Spec.picked_one_each 5 (fun t => t)
          (filter (Spec.istartsWith q) (Spec.publicProjectTitles db)) titles /\
        SearchRoutes.suggestions (ErrorHandler.data body)
        = firstn (Z.to_nat (SearchRoutes.default limit 10))
                 (Spec.dedupe_first
                    (map (Spec.tag "profile") names ++
                     map (Spec.tag "skill") skills ++
                     map (Spec.tag "project") titles))) /\
    Forall (Spec.sourced q db) (SearchRoutes.suggestions (ErrorHandler.data body)) /\
    NoDup (map SearchRoutes.value (SearchRoutes.suggestions (ErrorHandler.data body))) /\
    Z.of_nat (length (SearchRoutes.suggestions (ErrorHandler.data body)))
    <= SearchRoutes.default limit 10.
Proof.
  intros RE db query limit body q Hb Hlimit Hprefix Hok.
  destruct (suggestions_in_store_order RE db query limit Hb Hlimit Hprefix)
    as [body' [Hok' [Hq [Hlist [Hsrc [Hnd Hlen]]]]]].
  rewrite Hok in Hok'. injection Hok' as <-.
  split; [exact Hq|]. split; [|split; [exact Hsrc|split; [exact Hnd|exact Hlen]]].
  exists (firstn 5 (filter (Spec.istartsWith q) (Spec.publicNames db))),
         (firstn 5 (Spec.firsts JS.toLowerCase
                       (filter (Spec.istartsWith q) (Spec.publicSkills db)))),
         (firstn 5 (Spec.firsts (fun t => t)
                       (filter (Spec.istartsWith q) (Spec.publicProjectTitles db)))).
  split; [|split; [|split; [|exact Hlist]]].
  - exists (filter (Spec.istartsWith q) (Spec.publicNames db)).
    split; [apply Permutation_refl|reflexivity].
  - apply firsts_picked_one_each.
  - apply firsts_picked_one_each.
Qed.

Lemma suggestions_for_trimmed_prefix_witness :
  exists body,
    @SearchRoutes.getSuggestions LiteralRegex (Some "r"%string) (Some 2)
       [Sample.alice; Sample.bob; Sample.ann; Sample.ben]
    = ErrorHandler.Ok body /\
    Z.of_nat (length (SearchRoutes.suggestions (ErrorHandler.data body))) <= 2.
Proof.
  eexists. split; [reflexivity|].
  exact (proj2 (proj2 (proj2 (proj2
           (suggestions_for_trimmed_prefix LiteralRegex
              [Sample.alice; Sample.bob; Sample.ann; Sample.ben] "r" (Some 2) _
              eq_refl ltac:(simpl; lia) ltac:(intros s; reflexivity) eq_refl))))).
Defined.

(** Counterexample to C6 as the specification words it: the prefix that is
    matched is the trimmed query, not
    the query.  For the query " Al" (leading space) the response suggests the
    profile name Alice, which does not start with " Al". *)
Lemma suggestions_match_the_trimmed_query :
  exists body,
    @SearchRoutes.getSuggestions LiteralRegex (Some " Al"%string) None
       [Sample.alice; Sample.bob]
    = ErrorHandler.Ok body /\
    SearchRoutes.suggestions (ErrorHandler.data body)
    = [SearchRoutes.mkSuggestion "profile" "Alice" "Alice"] /\
    Spec.istartsWith " Al" "Alice" = false /\
    ~ Forall (fun s => Spec.istartsWith " Al" (SearchRoutes.text s) = true)
             (SearchRoutes.suggestions (ErrorHandler.data body)).
Proof.
  eexists. split; [reflexivity|]. split; [reflexivity|]. split; [reflexivity|].
  intros H. inversion H as [|? ? Hhead _]. discriminate Hhead.
Qed.

(** The query is handed to the store as pattern text: with the wildcard
    query "." every non-empty public name, skill and title is suggested,
    none of which starts with a dot. *)
Remark suggestions_query_is_a_pattern :
  exists body,
    @SearchRoutes.getSuggestions WildcardRegex (Some "."%string) None
       [Sample.alice; Sample.bob]
    = ErrorHandler.Ok body /\
    map SearchRoutes.text (SearchRoutes.suggestions (ErrorHandler.data body))
    = ["Alice"; "Bob"; "React"; "Go"; "Shop"]%string /\
    Forall (fun s => Spec.istartsWith "." (SearchRoutes.text s) = false)
           (SearchRoutes.suggestions (ErrorHandler.data body)).
Proof.
  eexists. split; [reflexivity|]. split; [reflexivity|].
  repeat constructor.
Qed.

(* ================================================================= *)
(** * Further properties of the routes *)

(** ** Private profiles and the public routes *)

Section PublicOnly.

Lemma filter_public_absorb (f : Profile.t -> bool) (db : Store) :
  (forall p, f p = true -> Profile.isPublic p = true) ->
  filter f (filter Profile.isPublic db) = filter f db.
Proof.
  intros Himp. induction db as [|p r IH]; simpl; [reflexivity|].
  destruct (Profile.isPublic p) eqn:Hp; simpl.
  - now rewrite IH.
  - destruct (f p) eqn:Hf; [|exact IH].
    rewrite (Himp p Hf) in Hp. discriminate.
Qed.

Lemma filter_public_idem (db : Store) :
  filter Profile.isPublic (filter Profile.isPublic db) = filter Profile.isPublic db.
Proof. apply filter_public_absorb. auto. Qed.

Lemma find_public_absorb (f : Profile.t -> bool) (db : Store) :
  (forall p, f p = true -> Profile.isPublic p = true) ->
  find f (filter Profile.isPublic db) = find f db.
Proof.
  intros Himp. induction db as [|p r IH]; simpl; [reflexivity|].
  destruct (Profile.isPublic p) eqn:Hp; simpl.
  - now rewrite IH.
  - destruct (f p) eqn:Hf; [|exact IH].
    rewrite (Himp p Hf) in Hp. discriminate.
Qed.

End PublicOnly.

Ltac public_only :=
  let p := fresh "p" in
  let H := fresh "H" in
  let E := fresh "E" in
  intros p H;
  destruct (Profile.isPublic p) eqn:E; [reflexivity|];
  cbv beta delta [SearchRoutes.profileMatches SearchRoutes.hasMatchingProject
                  AdvancedSearch.searchQuery SkillRoutes.hasSkill
                  ProjectRoutes.listQuery ProjectRoutes.projectQuery] in H;
  try rewrite E in H; rewrite ?andb_false_r in H; simpl in H; discriminate H.

(** X1.  The search routes compute their responses from the public profiles
    alone: the unified search, the suggestions, the advanced search and the
    trending skills answer the same on a store and on that store without
    its private profiles. *)
Theorem search_routes_ignore_private_profiles :
  forall (RE : RegexEngine) (db : Store),
    (forall q type limit page,
        SearchRoutes.search q type limit page (filter Profile.isPublic db)
        = SearchRoutes.search q type limit page db) /\
    (forall q limit,
        SearchRoutes.getSuggestions q limit (filter Profile.isPublic db)
        = SearchRoutes.getSuggestions q limit db) /\
    (forall q skills location education projectTech limit page,
        AdvancedSearch.advanced q skills location education projectTech limit page
                                (filter Profile.isPublic db)
        = AdvancedSearch.advanced q skills location education projectTech limit page db) /\
    (forall limit,
        AdvancedSearch.trendingSkills limit (filter Profile.isPublic db)
        = AdvancedSearch.trendingSkills limit db).
Proof.
  intros RE db. split; [|split; [|split]].
  - intros q type limit page.
    unfold SearchRoutes.search, SearchRoutes.searchProfiles,
      SearchRoutes.searchProjects, SearchRoutes.searchSkills,
      SearchRoutes.matchingSkillGroups.
    rewrite filter_public_idem.
    rewrite !(filter_public_absorb (SearchRoutes.profileMatches _)) by public_only.
    rewrite !(filter_public_absorb (SearchRoutes.hasMatchingProject _)) by public_only.
    reflexivity.
  - intros q limit.
    unfold SearchRoutes.getSuggestions, SearchRoutes.profileSuggestions,
      SearchRoutes.skillSuggestions, SearchRoutes.projectSuggestions.
    rewrite filter_public_idem.
    rewrite !(filter_public_absorb
                (fun p => regex_i _ (Profile.name p) && Profile.isPublic p))
      by public_only.
    reflexivity.
  - intros q skills location education projectTech limit page.
    unfold AdvancedSearch.advanced.
    rewrite !(filter_public_absorb (AdvancedSearch.searchQuery _ _ _ _ _))
      by public_only.
    reflexivity.
  - intros limit. unfold AdvancedSearch.trendingSkills.
    now rewrite filter_public_idem.
Qed.

(** X2.  The skill routes compute their responses from the public profiles
    alone: the skill listing, the top skills, the skill detail and the skill
    name search answer the same on a store and on that store without its
    private profiles. *)
Theorem skill_routes_ignore_private_profiles :
  forall (RE : RegexEngine) (db : Store),
    (forall limit page,
        SkillRoutes.getSkills limit page (filter Profile.isPublic db)
        = SkillRoutes.getSkills limit page db) /\
    (forall limit,
        SkillRoutes.getTopSkills limit (filter Profile.isPublic db)
        = SkillRoutes.getTopSkills limit db) /\
    (forall skillName limit page,
        SkillRoutes.getSkill skillName limit page (filter Profile.isPublic db)
        = SkillRoutes.getSkill skillName limit page db) /\
    (forall query limit,
        SkillBrowsing.searchSkillNames query limit (filter Profile.isPublic db)
        = SkillBrowsing.searchSkillNames query limit db).
Proof.
  intros RE db. split; [|split; [|split]].
  - intros limit page. unfold SkillRoutes.getSkills, SkillRoutes.skillGroups.
    now rewrite filter_public_idem.
  - intros limit. unfold SkillRoutes.getTopSkills, SkillRoutes.skillGroups.
    now rewrite filter_public_idem.
  - intros skillName limit page.
    unfold SkillRoutes.getSkill, SkillRoutes.relatedSkillGroups.
    rewrite filter_public_idem.
    rewrite !(filter_public_absorb (SkillRoutes.hasSkill skillName)) by public_only.
    reflexivity.
  - intros query limit. unfold SkillBrowsing.searchSkillNames.
    now rewrite filter_public_idem.
Qed.

(** X3.  The project routes compute their responses from the public
    profiles alone: the project listing, the project by id, the projects by
    skill, the projects of a user and the trending projects answer the same
    on a store and on that store without its private profiles. *)
Theorem project_routes_ignore_private_profiles :
  forall (RE : RegexEngine) (db : Store),
    (forall skill search limit page,
        ProjectRoutes.getProjects skill search limit page (filter Profile.isPublic db)
        = ProjectRoutes.getProjects skill search limit page db) /\
    (forall projectId,
        ProjectRoutes.getProject projectId (filter Profile.isPublic db)
        = ProjectRoutes.getProject projectId db) /\
    (forall skill limit page,
        ProjectBrowsing.getProjectsBySkill skill limit page (filter Profile.isPublic db)
        = ProjectBrowsing.getProjectsBySkill skill limit page db) /\
    (forall userId limit page,
        ProjectBrowsing.getUserProjects userId limit page (filter Profile.isPublic db)
        = ProjectBrowsing.getUserProjects userId limit page db) /\
    (forall limit,
        ProjectBrowsing.getTrending limit (filter Profile.isPublic db)
        = ProjectBrowsing.getTrending limit db).
Proof.
  intros RE db. split; [|split; [|split; [|split]]].
  - intros skill search limit page. unfold ProjectRoutes.getProjects.
    rewrite !(filter_public_absorb (ProjectRoutes.listQuery skill search))
      by public_only.
    reflexivity.
  - intros projectId. unfold ProjectRoutes.getProject, Mongo.findOne.
    rewrite (find_public_absorb (ProjectRoutes.projectQuery projectId))
      by public_only.
    reflexivity.
  - intros skill limit page. unfold ProjectBrowsing.getProjectsBySkill.
    rewrite !(filter_public_absorb (SkillRoutes.hasSkill skill)) by public_only.
    reflexivity.
  - intros userId limit page. unfold ProjectBrowsing.getUserProjects, Mongo.findOne.
    rewrite (find_public_absorb
               (fun p => String.eqb (Profile.userId p) (Mongo.castObjectId userId)
                         && Profile.isPublic p))
      by public_only.
    reflexivity.
  - intros limit. unfold ProjectBrowsing.getTrending.
    now rewrite filter_public_idem.
Qed.

(** ** Listings of projects *)

Section ProjectListings.

Lemma flat_map_public_items (db : Store) (profiles : list Profile.t)
      (keep : Project.t -> bool) :
  (forall p, In p profiles -> In p db /\ Profile.isPublic p = true) ->
  (forall x, keep x = true -> Project.isPublic x = true) ->
  Forall (Facts.public_item db)
         (flat_map (fun profile =>
                      map (ProjectRoutes.projectItem profile)
                          (filter keep (Profile.projects profile)))
                   profiles).
Proof.
  intros Hp Hk. apply Forall_forall. intros item Hin.
  apply in_flat_map in Hin as [p [Hpin Hitem]].
  apply in_map_iff in Hitem as [x [<- Hx]].
  apply filter_In in Hx as [Hx Hkeep].
  destruct (Hp p Hpin) as [Hdb Hpub].
  exists p, x. repeat split; auto.
Qed.

Lemma Forall_slice {A : Type} (P : A -> Prop) (l : list A) (s e : Z) :
  Forall P l -> Forall P (JS.slice l s e).
Proof.
  rewrite !Forall_forall. intros H x Hx. apply H. exact (slice_In l s e x Hx).
Qed.

Lemma Forall_perm_sort {A : Type} (P : A -> Prop) (le : A -> A -> bool) (l : list A) :
  Forall P l -> Forall P (Mongo.sortBy le l).
Proof.
  rewrite !Forall_forall. intros H x Hx. apply H. now apply sortBy_In in Hx.
Qed.

Lemma usesSkill_public {LC : LowerCase} (skill : string) (x : Project.t) :
  SkillRoutes.usesSkill skill x = true -> Project.isPublic x = true.
Proof.
  unfold SkillRoutes.usesSkill. intros H. apply andb_true_iff in H. tauto.
Qed.

Lemma hasSkill_public (RE : RegexEngine) (skill : string) (db : Store) (p : Profile.t) :
  In p (filter (SkillRoutes.hasSkill skill) db) ->
  In p db /\ Profile.isPublic p = true.
Proof.
  intros H. apply filter_In in H as [Hin Hs]. split; [exact Hin|].
  unfold SkillRoutes.hasSkill in Hs. apply andb_true_iff in Hs. tauto.
Qed.

End ProjectListings.

(** X4.  The project listings show public projects of public profiles only:
    every item that GET /api/projects, GET /api/projects/skill/:skill and
    GET /api/projects/trending/trending answer is built from a project whose own
    flag is public inside a profile whose flag is public, and
    GET /api/projects/user/:userId, for a well-formed id (24 hexadecimal
    digits of either case), either fails with 404 or lists public projects
    of a public profile whose userId is the ObjectId the digits spell. *)
Theorem project_listings_show_public_projects_only :
  forall (RE : RegexEngine) (LC : LowerCase) (db : Store),
    (forall skill search limit page body,
        ProjectRoutes.getProjects skill search limit page db = ErrorHandler.Ok body ->
        Forall (Facts.public_item db)
               (ProjectRoutes.projects (ErrorHandler.data body))) /\
    (forall skill limit page body,
        ProjectBrowsing.getProjectsBySkill skill limit page db = ErrorHandler.Ok body ->
        Forall (Facts.public_item db)
               (ProjectBrowsing.projects (ErrorHandler.data body))) /\
    (forall limit,
        exists body,
          ProjectBrowsing.getTrending limit db = ErrorHandler.Ok body /\
          Forall (Facts.public_item db) (ErrorHandler.data body)) /\
    (forall userId limit page,
        ProfileRoutes.isObjectIdString userId = true ->
        match ProjectBrowsing.getUserProjects userId limit page db with
        | ErrorHandler.Ok body =>
            exists p, In p db /\ Profile.isPublic p = true /\
                      Profile.userId p = Mongo.castObjectId userId /\
                      Forall (fun x => In x (Profile.projects p) /\
                                       Project.isPublic x = true)
                             (ProjectBrowsing.user_projects (ErrorHandler.data body))
        | ErrorHandler.Throw e =>
            e = ErrorHandler.createError.notFound "User profile not found or not public"
        end).
Proof.
  intros RE LC db. split; [|split; [|split]].
  - intros skill search limit page body Hbody.
    unfold ProjectRoutes.getProjects in Hbody. injection Hbody as <-.
    cbn [ErrorHandler.data ProjectRoutes.projects].
    apply Forall_slice.
    assert (Hall : Forall (Facts.public_item db)
              (flat_map (fun profile =>
                           map (ProjectRoutes.projectItem profile)
                               (filter Project.isPublic (Profile.projects profile)))
                 (Mongo.limit (SearchRoutes.default limit 20)
                    (Mongo.skip ((SearchRoutes.default page 1 - 1)
                                 * SearchRoutes.default limit 20)
                       (Mongo.sortBy ProjectRoutes.by_projects_createdAt_desc
                          (filter (ProjectRoutes.listQuery skill search) db)))))).
    { apply flat_map_public_items; [|auto].
      intros p Hp. apply limit_In, skip_In, sortBy_In, filter_In in Hp as [Hdb Hm].
      split; [exact Hdb|]. unfold ProjectRoutes.listQuery in Hm.
      apply andb_true_iff in Hm as [Hm _]. apply andb_true_iff in Hm. tauto. }
    destruct (JS.truthy skill); [|exact Hall].
    destruct skill as [s|]; [|exact Hall].
    rewrite Forall_forall in *. intros item Hitem. apply Hall.
    apply filter_In in Hitem. tauto.
  - intros skill limit page body Hbody.
    unfold ProjectBrowsing.getProjectsBySkill in Hbody. injection Hbody as <-.
    cbn [ErrorHandler.data ProjectBrowsing.projects].
    apply Forall_slice. unfold ProjectBrowsing.newestFirst. apply Forall_perm_sort.
    apply flat_map_public_items.
    + intros p Hp. exact (hasSkill_public RE skill db p Hp).
    + apply usesSkill_public.
  - intros limit. eexists. split; [reflexivity|].
    cbn [ErrorHandler.data].
    apply Forall_slice. unfold ProjectBrowsing.newestFirst. apply Forall_perm_sort.
    apply flat_map_public_items; [|auto].
    intros p Hp. apply limit_In, sortBy_In, filter_In in Hp. exact Hp.
  - intros userId limit page Hid. unfold ProjectBrowsing.getUserProjects.
    change (Mongo.isObjectIdHex userId) with (ProfileRoutes.isObjectIdString userId).
    rewrite Hid. cbn [negb].
    destruct (Mongo.findOne _ db) as [p|] eqn:Hf; [|reflexivity].
    apply find_some in Hf as [Hin Hp]. apply andb_true_iff in Hp as [Hu Hpub].
    apply String.eqb_eq in Hu.
    exists p. repeat split; try assumption.
    cbn [ErrorHandler.data ProjectBrowsing.user_projects].
    apply Forall_slice. apply Forall_forall. intros x Hx.
    apply filter_In in Hx. exact Hx.
Qed.

Lemma project_listings_show_public_projects_only_witness :
  exists body,
    @ProjectRoutes.getProjects LiteralRegex AsciiCase (Some "react"%string) None None None
                               [Sample.alice; Sample.hidden]
    = ErrorHandler.Ok body /\
    Forall (Facts.public_item [Sample.alice; Sample.hidden])
           (ProjectRoutes.projects (ErrorHandler.data body)).
Proof.
  eexists. split; [reflexivity|].
  apply (proj1 (project_listings_show_public_projects_only
                  LiteralRegex AsciiCase [Sample.alice; Sample.hidden])
               (Some "react"%string) None None None).
  reflexivity.
Defined.

(** ** Slices and pages *)

Section Slices.
Context {A : Type}.

(** For an offset and a size that are not negative, [slice] is "skip the
    offset, take the size". *)
Lemma slice_chunk (l : list A) (s n : Z) :
  0 <= s -> 0 <= n ->
  JS.slice l s (s + n) = firstn (Z.to_nat n) (skipn (Z.to_nat s) l).
Proof.
  intros Hs Hn. unfold JS.slice, JS.relIndex.
  set (len := Z.of_nat (length l)).
  assert (Hlen : 0 <= len) by apply Nat2Z.is_nonneg.
  assert (E1 : (if s <? 0 then Z.max (len + s) 0 else Z.min s len) = Z.min s len)
    by (destruct (Z.ltb_spec s 0); [lia|reflexivity]).
  assert (E2 : (if s + n <? 0 then Z.max (len + (s + n)) 0 else Z.min (s + n) len)
               = Z.min (s + n) len)
    by (destruct (Z.ltb_spec (s + n) 0); [lia|reflexivity]).
  rewrite E1, E2.
  destruct (Z.le_gt_cases len s) as [Hge|Hlt].
  - rewrite !Z.min_r by lia. rewrite Z.sub_diag. simpl firstn.
    rewrite (skipn_all2 (n := Z.to_nat s)) by (unfold len in Hge; lia).
    now rewrite firstn_nil.
  - rewrite (Z.min_l s len) by lia.
    destruct (Z.le_gt_cases (s + n) len) as [Hin|Hout].
    + rewrite Z.min_l by lia. f_equal. lia.
    + rewrite Z.min_r by lia.
      assert (Hk : length (skipn (Z.to_nat s) l) = Z.to_nat (len - s))
        by (rewrite length_skipn; unfold len; lia).
      rewrite <- Hk, firstn_all. symmetry. apply firstn_all2. lia.
Qed.

Lemma slice_length_le (l : list A) (s n : Z) :
  0 <= s -> 0 <= n -> Z.of_nat (length (JS.slice l s (s + n))) <= n.
Proof.
  intros Hs Hn. rewrite slice_chunk by assumption.
  pose proof (firstn_le_length (Z.to_nat n) (skipn (Z.to_nat s) l)). lia.
Qed.


Lemma firstn_plus (a b : nat) (l : list A) :
  firstn (a + b) l = firstn a l ++ firstn b (skipn a l).
Proof.
  revert l. induction a as [|a IH]; intros l; [reflexivity|].
  destruct l as [|x r]; simpl; [now rewrite firstn_nil|].
  now rewrite IH.
Qed.

(** The first [n] pages of [limit] entries are the first [n * limit]
    entries. *)
Lemma pages_firstn (limit : Z) (n : nat) (l : list A) :
  0 <= limit ->
  Facts.pages limit n l = firstn (n * Z.to_nat limit) l.
Proof.
  intros Hl. unfold Facts.pages. induction n as [|n IH]; [reflexivity|].
  rewrite seq_S, flat_map_app, IH. cbn [flat_map]. rewrite app_nil_r.
  unfold Facts.page. rewrite slice_chunk by lia.
  assert (E : Z.to_nat ((Z.of_nat (1 + n) - 1) * limit) = (n * Z.to_nat limit)%nat)
    by nia.
  rewrite E, <- firstn_plus. f_equal. lia.
Qed.

(** Pages up to the page count of the routes hold every entry once. *)
Lemma pages_cover (limit : Z) (l : list A) :
  0 < limit ->
  Facts.pages limit (Z.to_nat (JS.Math_ceil_div (Z.of_nat (length l)) limit)) l = l.
Proof.
  intros Hl. rewrite pages_firstn by lia. apply firstn_all2.
  pose proof (Math_ceil_div_spec (Z.of_nat (length l)) limit Hl) as Hc.
  nia.
Qed.

End Slices.

Section NewestFirst.



End NewestFirst.



(** X6.  Paging through GET /api/projects/user/:userId loses and repeats
    nothing: for a public profile, found by the ObjectId that the digits of
    the request spell, and a limit of at least 1, every page reports the
    number of public projects of the profile as total, and the pages 1 up to
    the reported page count, one after the other, are exactly the public
    projects of the profile in stored order. *)
Theorem user_project_pages_cover_public_projects :
  forall (db : Store) (userId : string) (p : Profile.t) (limit : Z),
    0 < limit ->
    ProfileRoutes.isObjectIdString userId = true ->
    Mongo.findOne (fun x => String.eqb (Profile.userId x) (Mongo.castObjectId userId)
                            && Profile.isPublic x) db
    = Some p ->
    let all := filter Project.isPublic (Profile.projects p) in
    let totalPages := JS.Math_ceil_div (Z.of_nat (length all)) limit in
    (forall k, 1 <= k ->
       exists body,
         ProjectBrowsing.getUserProjects userId (Some limit) (Some k) db
         = ErrorHandler.Ok body /\
         Pagination.total (ProjectBrowsing.user_pagination (ErrorHandler.data body))
         = Z.of_nat (length all) /\
         Pagination.totalPages (ProjectBrowsing.user_pagination (ErrorHandler.data body))
         = totalPages) /\
    flat_map (fun k =>
                match ProjectBrowsing.getUserProjects userId (Some limit)
                                                      (Some (Z.of_nat k)) db with
                | ErrorHandler.Ok body =>
                    ProjectBrowsing.user_projects (ErrorHandler.data body)
                | ErrorHandler.Throw _ => []
                end)
             (seq 1 (Z.to_nat totalPages))
    = all.
Proof.
  intros db userId p limit Hl Hid Hfind all totalPages.
  change (ProfileRoutes.isObjectIdString userId) with (Mongo.isObjectIdHex userId) in Hid.
  split.
  - intros k Hk. unfold ProjectBrowsing.getUserProjects. rewrite Hid, Hfind.
    eexists. split; [reflexivity|]. split; reflexivity.
  - transitivity (Facts.pages limit (Z.to_nat totalPages) all);
      [|exact (pages_cover limit all Hl)].
    unfold Facts.pages. apply flat_map_ext. intros k.
    unfold ProjectBrowsing.getUserProjects. rewrite Hid, Hfind. reflexivity.
Qed.

Lemma user_project_pages_cover_public_projects_witness :
  flat_map (fun k =>
              match ProjectBrowsing.getUserProjects Sample.aliceUser (Some 1)
                                                    (Some (Z.of_nat k))
                                                    [Sample.alice; Sample.bob] with
              | ErrorHandler.Ok body =>
                  ProjectBrowsing.user_projects (ErrorHandler.data body)
              | ErrorHandler.Throw _ => []
              end)
           (seq 1 (Z.to_nat (JS.Math_ceil_div 1 1)))
  = [Sample.shop].
Proof.
  exact (proj2 (user_project_pages_cover_public_projects
                  [Sample.alice; Sample.bob] Sample.aliceUser Sample.alice 1
                  ltac:(lia) eq_refl eq_refl)).
Defined.

Section DoublePaging.

Lemma flat_map_length_le {A B : Type} (f : A -> list B) (m : nat) (l : list A) :
  (forall x, In x l -> (length (f x) <= m)%nat) ->
  (length (flat_map f l) <= length l * m)%nat.
Proof.
  induction l as [|x r IH]; simpl; intros H; [lia|].
  rewrite length_app.
  pose proof (H x (or_introl eq_refl)).
  assert ((length (flat_map f r) <= length r * m)%nat)
    by (apply IH; intros y Hy; apply H; now right).
  lia.
Qed.

Lemma filter_length_le {A : Type} (f : A -> bool) (l : list A) :
  (length (filter f l) <= length l)%nat.
Proof.
  induction l as [|x r IH]; simpl; [lia|]. destruct (f x); simpl; lia.
Qed.

End DoublePaging.

(** X7.  GET /api/projects pages twice: the store query skips
    (page - 1) * limit profiles and the projects of the profiles it fetched
    are then sliced from index (page - 1) * limit again.  So when no profile
    has more than page - 1 public projects, every page from the second on is
    empty, whatever else the store holds. *)
Theorem project_listing_pages_twice :
  forall (RE : RegexEngine) (db : Store) (skill search : option string)
         (limit page : Z),
    0 < limit -> 2 <= page ->
    (forall p, In p db ->
       Z.of_nat (length (filter Project.isPublic (Profile.projects p))) <= page - 1) ->
    forall body,
      ProjectRoutes.getProjects skill search (Some limit) (Some page) db
      = ErrorHandler.Ok body ->
      ProjectRoutes.projects (ErrorHandler.data body) = [].
Proof.
  intros RE db skill search limit page Hl Hp Hfew body Hbody.
  unfold ProjectRoutes.getProjects in Hbody. injection Hbody as <-.
  cbn [ErrorHandler.data ProjectRoutes.projects SearchRoutes.default].
  set (profiles := Mongo.limit limit
                     (Mongo.skip ((page - 1) * limit)
                        (Mongo.sortBy ProjectRoutes.by_projects_createdAt_desc
                           (filter (ProjectRoutes.listQuery skill search) db)))).
  set (allProjects := flat_map (fun profile =>
                                  map (ProjectRoutes.projectItem profile)
                                      (filter Project.isPublic
                                              (Profile.projects profile)))
                               profiles).
  assert (Hall : (length allProjects <= length profiles * Z.to_nat (page - 1))%nat).
  { apply flat_map_length_le. intros x Hx. rewrite length_map.
    apply limit_In, skip_In, sortBy_In, filter_In in Hx as [Hx _].
    specialize (Hfew x Hx). lia. }
  assert (Hprof : (length profiles <= Z.to_nat limit)%nat)
    by apply firstn_le_length.
  set (filteredProjects :=
         if JS.truthy skill
         then match skill with
              | Some s =>
                  filter (fun project =>
                            existsb (fun tech =>
                                       JS.String_includes (JS.toLowerCase tech)
                                                          (JS.toLowerCase s))
                                    (ProjectRoutes.technologies project))
                         allProjects
              | None => allProjects
              end
         else allProjects).
  assert (Hfil : (length filteredProjects <= length allProjects)%nat).
  { unfold filteredProjects. destruct (JS.truthy skill); [|lia].
    destruct skill; [apply filter_length_le|lia]. }
  rewrite slice_chunk by nia.
  rewrite skipn_all2; [now rewrite firstn_nil|].
  nia.
Qed.

Lemma project_listing_pages_twice_witness :
  exists body,
    @ProjectRoutes.getProjects LiteralRegex AsciiCase None None (Some 1) (Some 2)
                               [Sample.alice; Sample.bob]
    = ErrorHandler.Ok body /\
    ProjectRoutes.projects (ErrorHandler.data body) = [].
Proof.
  eexists. split; [reflexivity|].
  apply (project_listing_pages_twice LiteralRegex [Sample.alice; Sample.bob]
           None None 1 2); [lia|lia| |reflexivity].
  intros p [<-|[<-|[]]]; simpl; lia.
Defined.

(** ** Skill histograms of the further routes *)

Section SortMap.
Context {A B : Type}.
Variable f : A -> B.
Variable le : A -> A -> bool.
Variable le' : B -> B -> bool.
Hypothesis le_f : forall a b, le' (f a) (f b) = le a b.

Lemma insert_map (x : A) (l : list A) :
  map f (Mongo.insert le x l) = Mongo.insert le' (f x) (map f l).
Proof.
  induction l as [|y r IH]; simpl; [reflexivity|].
  rewrite le_f. destruct (le x y); simpl; [reflexivity|now rewrite IH].
Qed.

Lemma sortBy_map (l : list A) :
  map f (Mongo.sortBy le l) = Mongo.sortBy le' (map f l).
Proof.
  induction l as [|x r IH]; simpl; [reflexivity|].
  now rewrite insert_map, IH.
Qed.

End SortMap.

(** X8.  GET /api/search/trending-skills returns the case-folded skill
    histogram cut to the limit: the skills of public profiles grouped by
    lower-cased text, each shown in the casing of its first occurrence with
    its number of occurrences, ordered by count descending and then shown
    name ascending, the first [limit] rows (10 when no limit is given), for
    a limit of at least 1. *)
Theorem trending_skills_are_the_skill_histogram :
  forall (db : Store) (limit : option Z),
    0 < SearchRoutes.default limit 10 ->
    exists body,
      AdvancedSearch.trendingSkills limit db = ErrorHandler.Ok body /\
      map Spec.hit_row (ErrorHandler.data body)
      = firstn (Z.to_nat (SearchRoutes.default limit 10)) (Spec.skillHistogram db).
Proof.
  intros db limit _. eexists. split; [reflexivity|].
  cbn [ErrorHandler.data]. unfold Mongo.limit.
  rewrite map_map.
  rewrite (map_ext (fun g => Spec.hit_row (SearchRoutes.skillHit g))
                   (fun g => (Mongo.acc_first snd g, Mongo.acc_count g)))
    by reflexivity.
  rewrite <- firstn_map. f_equal.
  unfold Spec.skillHistogram, Spec.publicSkills.
  rewrite <- unwind_skills_snd, <- group_rows_first_seen.
  apply sortBy_map. reflexivity.
Qed.

Lemma trending_skills_are_the_skill_histogram_witness :
  exists body,
    AdvancedSearch.trendingSkills (Some 1) Sample.skillStore = ErrorHandler.Ok body /\
    map Spec.hit_row (ErrorHandler.data body)
    = firstn 1 (Spec.skillHistogram Sample.skillStore).
Proof.
  exact (trending_skills_are_the_skill_histogram Sample.skillStore (Some 1)
           ltac:(simpl; lia)).
Defined.

(** X9.  GET /api/skills/search/:query and the skills section of
    GET /api/search agree: for a query that is not blank and a limit of at
    least 1, the skill search for the trimmed query lists exactly the rows of
    page 1 of the skills section, and the total it reports is the number of
    rows it lists, which never exceeds the limit. *)
Theorem skill_search_is_first_page_of_unified_search :
  forall (RE : RegexEngine) (db : Store) (query : string) (limit : Z),
    Spec.isBlank (Some query) = false ->
    0 < limit ->
    forall found page,
      SkillBrowsing.searchSkillNames (JS.trim query) (Some limit) db
      = ErrorHandler.Ok found ->
      SearchRoutes.search (Some query) (Some "skills"%string) (Some limit) (Some 1) db
      = ErrorHandler.Ok page ->
      exists section,
        SearchRoutes.skills (SearchRoutes.results (ErrorHandler.data page)) = Some section /\
        SkillBrowsing.skills (ErrorHandler.data found) = SearchRoutes.data section /\
        SkillBrowsing.total (ErrorHandler.data found)
        = Z.of_nat (length (SkillBrowsing.skills (ErrorHandler.data found))) /\
        SkillBrowsing.total (ErrorHandler.data found) <= limit.
Proof.
  intros RE db query limit Hb Hl found page Hfound Hpage.
  pose proof (search_skills_only RE query (Some limit) (Some 1) db Hb) as Hs.
  cbv zeta in Hs. rewrite Hs in Hpage. injection Hpage as <-.
  unfold SkillBrowsing.searchSkillNames in Hfound. injection Hfound as <-.
  eexists. split; [reflexivity|].
  cbn [ErrorHandler.data SkillBrowsing.skills SkillBrowsing.total SearchRoutes.default].
  split; [reflexivity|]. split; [reflexivity|].
  rewrite length_map. unfold Mongo.limit.
  pose proof (firstn_le_length (Z.to_nat limit)
    (Mongo.sortBy (Mongo.by_count_desc_then (Mongo.acc_first snd))
       (Mongo.group_by (fun d => JS.toLowerCase (snd d))
          (filter (fun d => regex_i (JS.trim query) (snd d))
             (Mongo.unwind_skills (filter Profile.isPublic db)))))) as Hle.
  lia.
Qed.

Lemma skill_search_is_first_page_of_unified_search_witness :
  exists found,
    @SkillBrowsing.searchSkillNames LiteralRegex "re" (Some 5) Sample.skillStore
    = ErrorHandler.Ok found /\
    SkillBrowsing.total (ErrorHandler.data found) <= 5.
Proof.
  eexists. split; [reflexivity|].
  destruct (skill_search_is_first_page_of_unified_search
              LiteralRegex Sample.skillStore " re " 5 eq_refl ltac:(lia)
              _ _ eq_refl eq_refl)
    as [section [_ [_ [_ Hle]]]].
  exact Hle.
Defined.

Section GroupTotals.
Context {D : Type}.

Lemma sumZ_perm (l l' : list Z) : Permutation l l' -> Facts.sumZ l = Facts.sumZ l'.
Proof.
  induction 1; simpl; try lia.
Qed.

Lemma sumZ_app (l l' : list Z) : Facts.sumZ (l ++ l') = Facts.sumZ l + Facts.sumZ l'.
Proof.
  induction l as [|x r IH]; simpl; lia.
Qed.

Lemma group_add_total (k : string) (d : D) (gs : list (Mongo.Group D)) :
  Facts.sumZ (map Mongo.acc_count (Mongo.group_add k d gs))
  = Facts.sumZ (map Mongo.acc_count gs) + 1.
Proof.
  induction gs as [|g rest IH]; simpl; [reflexivity|].
  destruct (String.eqb (Mongo._id g) k); simpl.
  - unfold Mongo.acc_count. simpl. rewrite length_app. simpl. lia.
  - rewrite IH. lia.
Qed.

Lemma fold_group_total (key : D -> string) (input : list D) (gs : list (Mongo.Group D)) :
  Facts.sumZ (map Mongo.acc_count
                  (fold_left (fun gs d => Mongo.group_add (key d) d gs) input gs))
  = Facts.sumZ (map Mongo.acc_count gs) + Z.of_nat (length input).
Proof.
  revert gs. induction input as [|d r IH]; intros gs; simpl fold_left.
  - simpl. lia.
  - rewrite IH, group_add_total. simpl length. lia.
Qed.

(** [$group] loses no document: the counts of the groups add up to the
    number of documents. *)
Lemma group_by_total (key : D -> string) (input : list D) :
  Facts.sumZ (map Mongo.acc_count (Mongo.group_by key input))
  = Z.of_nat (length input).
Proof.
  unfold Mongo.group_by. rewrite fold_group_total. reflexivity.
Qed.

Lemma group_by_nonempty (key : D -> string) (input : list D) (g : Mongo.Group D) :
  In g (Mongo.group_by key input) -> Mongo.docs g <> [].
Proof.
  rewrite group_by_spec. intros Hin.
  apply in_map_iff in Hin as [k [<- Hk]].
  apply (firsts_from_In (fun k => k)) in Hk.
  apply in_map_iff in Hk as [d [Hd Hin]].
  unfold Spec.group_of. simpl. intros Hnil.
  assert (Hf : In d (filter (fun d' => String.eqb (key d') k) input))
    by (apply filter_In; split; [exact Hin|now apply String.eqb_eq]).
  rewrite Hnil in Hf. destruct Hf.
Qed.

Lemma addToSet_bounds (f : D -> string) (ds : list D) (acc : list string) :
  (length acc <= length (fold_left (fun s d => Mongo.set_add (f d) s) ds acc)
   <= length acc + length ds)%nat.
Proof.
  revert acc. induction ds as [|d r IH]; intros acc; simpl; [lia|].
  specialize (IH (Mongo.set_add (f d) acc)).
  unfold Mongo.set_add in *.
  destruct (JS.Array_includes acc (f d)); [lia|].
  rewrite length_app in IH. simpl in IH. lia.
Qed.

Lemma addToSet_positive (f : D -> string) (g : Mongo.Group D) :
  Mongo.docs g <> [] ->
  (1 <= length (Mongo.acc_addToSet f g) <= length (Mongo.docs g))%nat.
Proof.
  unfold Mongo.acc_addToSet. intros Hne.
  destruct (Mongo.docs g) as [|d r]; [congruence|]. simpl.
  pose proof (addToSet_bounds f r (Mongo.set_add (f d) [])) as Hb.
  unfold Mongo.set_add in *. simpl in *. lia.
Qed.

End GroupTotals.

(** X10.  GET /api/skills loses no skill entry: when the reported total of
    distinct skills fits on the first page (limit at least 1), the counts of
    the listed rows add up to the number of skill entries of all public
    profiles. *)
Theorem skill_listing_counts_add_up :
  forall (db : Store) (limit : Z) body,
    0 < limit ->
    SkillRoutes.getSkills (Some limit) (Some 1) db = ErrorHandler.Ok body ->
    Pagination.total (SkillRoutes.pagination (ErrorHandler.data body)) <= limit ->
    Facts.sumZ (map SkillRoutes.count (SkillRoutes.skills (ErrorHandler.data body)))
    = Z.of_nat (length (Spec.publicSkills db)).
Proof.
  intros db limit body _ Hok Hfit. unfold SkillRoutes.getSkills in Hok.
  injection Hok as <-.
  cbn [ErrorHandler.data SkillRoutes.skills SkillRoutes.pagination
       SearchRoutes.default] in *.
  unfold Pagination.paginate in Hfit. cbn [Pagination.total] in Hfit.
  unfold Mongo.limit, Mongo.skip.
  change (Z.to_nat ((1 - 1) * limit)) with 0%nat. simpl skipn.
  rewrite firstn_all2
    by (rewrite (Permutation_length (sortBy_perm _ _)); lia).
  rewrite map_map.
  rewrite (map_ext (fun g => SkillRoutes.count (SkillRoutes.skillRow g)) Mongo.acc_count)
    by reflexivity.
  rewrite (sumZ_perm _ _ (Permutation_map _ (sortBy_perm _ _))).
  unfold SkillRoutes.skillGroups. rewrite group_by_total.
  unfold Spec.publicSkills. now rewrite <- unwind_skills_snd, length_map.
Qed.

Lemma skill_listing_counts_add_up_witness :
  exists body,
    SkillRoutes.getSkills (Some 50) (Some 1) Sample.skillStore = ErrorHandler.Ok body /\
    Facts.sumZ (map SkillRoutes.count (SkillRoutes.skills (ErrorHandler.data body))) = 3.
Proof.
  eexists. split; [reflexivity|].
  apply (skill_listing_counts_add_up Sample.skillStore 50 _ ltac:(lia) eq_refl).
  simpl. lia.
Defined.

(** X11.  In every row of GET /api/skills and of GET /api/skills/top the
    number of profiles is at least 1 and at most the number of occurrences
    of the skill. *)
Theorem skill_rows_profile_count_bounds :
  forall (db : Store) (limit page : option Z),
    (forall body,
        SkillRoutes.getSkills limit page db = ErrorHandler.Ok body ->
        Forall (fun r => 1 <= SkillRoutes.profileCount r <= SkillRoutes.count r)
               (SkillRoutes.skills (ErrorHandler.data body))) /\
    (forall body,
        SkillRoutes.getTopSkills limit db = ErrorHandler.Ok body ->
        Forall (fun r => 1 <= SkillRoutes.r_profileCount r <= SkillRoutes.r_count r)
               (SkillRoutes.top_skills (ErrorHandler.data body))).
Proof.
  intros db limit page.
  assert (Hrow : forall g, In g (SkillRoutes.skillGroups db) ->
                 1 <= Z.of_nat (length (Mongo.acc_addToSet
                                          (fun d => Profile.userId (fst d)) g))
                 <= Mongo.acc_count g).
  { intros g Hg. apply group_by_nonempty in Hg.
    pose proof (addToSet_positive (fun d => Profile.userId (fst d)) g Hg).
    unfold Mongo.acc_count. lia. }
  split.
  - intros body Hbody. unfold SkillRoutes.getSkills in Hbody. injection Hbody as <-.
    cbn [ErrorHandler.data SkillRoutes.skills].
    apply Forall_forall. intros r Hr.
    apply in_map_iff in Hr as [g [<- Hg]].
    apply limit_In, skip_In, sortBy_In in Hg. exact (Hrow g Hg).
  - intros body Hbody. unfold SkillRoutes.getTopSkills in Hbody. injection Hbody as <-.
    cbn [ErrorHandler.data SkillRoutes.top_skills].
    set (groups := Mongo.limit (SearchRoutes.default limit 10)
                     (Mongo.sortBy Mongo.by_count_desc (SkillRoutes.skillGroups db))).
    assert (Hall : Forall (fun g => In g (SkillRoutes.skillGroups db)) groups).
    { apply Forall_forall. intros g Hg. now apply limit_In, sortBy_In in Hg. }
    clearbody groups. generalize 0 at 1. induction groups as [|g r IH]; intros i.
    + constructor.
    + simpl. inversion Hall as [|? ? Hg Hr]; subst. constructor.
      * exact (Hrow g Hg).
      * apply IH. exact Hr.
Qed.

Lemma skill_rows_profile_count_bounds_witness :
  exists body,
    SkillRoutes.getSkills None None Sample.skillStore = ErrorHandler.Ok body /\
    Forall (fun r => 1 <= SkillRoutes.profileCount r <= SkillRoutes.count r)
           (SkillRoutes.skills (ErrorHandler.data body)).
Proof.
  eexists. split; [reflexivity|].
  apply (proj1 (skill_rows_profile_count_bounds Sample.skillStore None None)).
  reflexivity.
Defined.

(** ** Removal of duplicate suggestions *)

Section DedupeFacts.

Lemma dedupe_from_values (seen : list string) (l : list SearchRoutes.Suggestion)
      (v : string) :
  In v (map SearchRoutes.value (Spec.dedupe_from seen l)) <->
  In v (map SearchRoutes.value l) /\ ~ In v seen.
Proof.
  revert seen. induction l as [|y r IH]; intros seen; simpl; [tauto|].
  destruct (JS.Array_includes seen (SearchRoutes.value y)) eqn:Hy.
  - rewrite IH. apply Array_includes_In in Hy.
    split; [tauto|]. intros [[<-|H] Hs]; [contradiction|tauto].
  - simpl. rewrite IH. simpl.
    assert (Hny : ~ In (SearchRoutes.value y) seen)
      by (intros H; apply Array_includes_In in H; congruence).
    split.
    + intros [<-|[H Hs]]; [tauto|]. split; [tauto|]. tauto.
    + intros [[<-|H] Hs]; [tauto|].
      destruct (string_dec (SearchRoutes.value y) v) as [->|Hne]; [tauto|].
      right. split; [exact H|]. intros [He|Hin]; [congruence|tauto].
Qed.

Lemma dedupe_from_first (seen : list string) (l : list SearchRoutes.Suggestion) s :
  In s (Spec.dedupe_from seen l) ->
  find (fun x => String.eqb (SearchRoutes.value x) (SearchRoutes.value s)) l = Some s.
Proof.
  revert seen. induction l as [|y r IH]; intros seen; simpl; [tauto|].
  destruct (JS.Array_includes seen (SearchRoutes.value y)) eqn:Hy.
  - intros Hin. destruct (dedupe_from_In _ _ _ Hin) as [_ Hfresh].
    apply Array_includes_In in Hy.
    destruct (String.eqb (SearchRoutes.value y) (SearchRoutes.value s)) eqn:He.
    + apply String.eqb_eq in He. rewrite He in Hy. contradiction.
    + exact (IH _ Hin).
  - intros [<-|Hin]; [now rewrite String.eqb_refl|].
    destruct (dedupe_from_In _ _ _ Hin) as [_ Hfresh].
    destruct (String.eqb (SearchRoutes.value y) (SearchRoutes.value s)) eqn:He.
    + apply String.eqb_eq in He. exfalso. apply Hfresh. now left.
    + exact (IH _ Hin).
Qed.

Lemma dedupe_from_idem (seen : list string) (l : list SearchRoutes.Suggestion) :
  Spec.dedupe_from seen (Spec.dedupe_from seen l) = Spec.dedupe_from seen l.
Proof.
  revert seen. induction l as [|y r IH]; intros seen; simpl; [reflexivity|].
  destruct (JS.Array_includes seen (SearchRoutes.value y)) eqn:Hy; [apply IH|].
  simpl. rewrite Hy. f_equal. apply IH.
Qed.

End DedupeFacts.

(** X12.  The duplicate removal of the suggestions route (keep an element
    when its index is the index of the first element with its value) keeps
    exactly the first suggestion of every value: the result has no two equal
    values, has the same values as the input, each kept suggestion is the
    first of its value in the input, and removing duplicates a second time
    changes nothing. *)
Theorem duplicate_removal_keeps_first_of_each_value :
  forall (l : list SearchRoutes.Suggestion),
    NoDup (map SearchRoutes.value (SearchRoutes.uniqueByValue l)) /\
    (forall v, In v (map SearchRoutes.value (SearchRoutes.uniqueByValue l)) <->
               In v (map SearchRoutes.value l)) /\
    Forall (fun s =>
              find (fun x => String.eqb (SearchRoutes.value x) (SearchRoutes.value s)) l
              = Some s)
           (SearchRoutes.uniqueByValue l) /\
    SearchRoutes.uniqueByValue (SearchRoutes.uniqueByValue l)
    = SearchRoutes.uniqueByValue l.
Proof.
  intros l. rewrite !uniqueByValue_dedupe. unfold Spec.dedupe_first.
  split; [apply dedupe_from_NoDup|]. split; [|split].
  - intros v. rewrite dedupe_from_values. simpl. tauto.
  - apply Forall_forall. intros s Hs. exact (dedupe_from_first [] l s Hs).
  - apply dedupe_from_idem.
Qed.

(** ** Embedded projects and skills of the caller *)

Section OwnLists.



Lemma filter_app_last (s : string) (l : list string) :
  ~ In s l ->
  filter (fun x => negb (String.eqb x s)) (l ++ [s]) = l.
Proof.
  intros Hn. rewrite filter_app. simpl. rewrite String.eqb_refl. simpl.
  rewrite app_nil_r. apply filter_all. intros x Hx.
  apply negb_true_iff, String.eqb_neq. intros ->. contradiction.
Qed.

End OwnLists.



(** X14.  DELETE /api/profile/projects/:projectId removes every embedded
    project with the id and no other, keeps the order of the rest, and is
    idempotent: a second delete of the same id returns and stores the same
    list. *)
Theorem delete_project_removes_by_id :
  forall (user_id : ObjectId) (projectId : string) (db : Store) (profile : Profile.t),
    ProfileRoutes.ownProfile user_id db = Some profile ->
    let kept := filter (fun p => negb (String.eqb (Project._id p) projectId))
                       (Profile.projects profile) in
    let once := ProfileRoutes.deleteProject user_id projectId db in
    let twice := ProfileRoutes.deleteProject user_id projectId (snd once) in
    fst once = ErrorHandler.Ok
                 (ErrorHandler.mkEnvelope true
                    (Some "Project removed successfully"%string) kept) /\
    option_map Profile.projects (ProfileRoutes.ownProfile user_id (snd once)) = Some kept /\
    (forall x, In x kept <-> In x (Profile.projects profile) /\ Project._id x <> projectId) /\
    fst twice = fst once /\
    option_map Profile.projects (ProfileRoutes.ownProfile user_id (snd twice)) = Some kept.
Proof.
  intros user_id projectId db profile Hown. cbv zeta.
  set (kept := filter (fun p => negb (String.eqb (Project._id p) projectId))
                      (Profile.projects profile)).
  set (profile1 := Profile.set_projects profile kept).
  assert (Hown1 : ProfileRoutes.ownProfile user_id (Mongo.save profile1 db) = Some profile1)
    by (apply (ownProfile_save user_id db profile profile1 Hown); reflexivity).
  assert (Honce : ProfileRoutes.deleteProject user_id projectId db
                  = (ErrorHandler.Ok
                       (ErrorHandler.mkEnvelope true
                          (Some "Project removed successfully"%string) kept),
                     Mongo.save profile1 db)).
  { unfold ProfileRoutes.deleteProject. rewrite Hown. reflexivity. }
  assert (Hidem : filter (fun p => negb (String.eqb (Project._id p) projectId)) kept = kept).
  { apply filter_all. intros x Hx. apply filter_In in Hx. tauto. }
  assert (Htwice : ProfileRoutes.deleteProject user_id projectId (Mongo.save profile1 db)
                   = (ErrorHandler.Ok
                        (ErrorHandler.mkEnvelope true
                           (Some "Project removed successfully"%string) kept),
                      Mongo.save (Profile.set_projects profile1 kept)
                                 (Mongo.save profile1 db))).
  { unfold ProfileRoutes.deleteProject. rewrite Hown1.
    unfold ProfileModel.removeProject. simpl Profile.projects. rewrite Hidem.
    reflexivity. }
  rewrite Honce. simpl fst. simpl snd. rewrite Htwice. simpl fst. simpl snd.
  rewrite Hown1.
  split; [reflexivity|]. split; [reflexivity|]. split; [|split; [reflexivity|]].
  - intros x. unfold kept. rewrite filter_In, negb_true_iff, String.eqb_neq. tauto.
  - erewrite ownProfile_save; [reflexivity|exact Hown1|reflexivity|reflexivity].
Qed.

Lemma delete_project_removes_by_id_witness :
  fst (ProfileRoutes.deleteProject Sample.aliceUser (Project._id Sample.draft)
                                   [Sample.alice; Sample.bob])
  = ErrorHandler.Ok
      (ErrorHandler.mkEnvelope true (Some "Project removed successfully"%string)
                               [Sample.shop]).
Proof.
  exact (proj1 (delete_project_removes_by_id Sample.aliceUser (Project._id Sample.draft)
                  [Sample.alice; Sample.bob] Sample.alice eq_refl)).
Defined.

(** X15.  Adding a skill that the caller does not have and reading the
    profile back, for a skill without surrounding white space (the form in
    which the schema stores a skill): POST /api/profile/skills returns the
    list with the skill appended at the end, GET /api/profile then shows that
    list, and DELETE /api/profile/skills/:skill of the same skill restores
    the list the caller started with. *)
Theorem add_then_read_then_remove_skill :
  forall (user_id : ObjectId) (s : string) (db : Store) (profile : Profile.t),
    ProfileRoutes.ownProfile user_id db = Some profile ->
    JS.trim s = s ->
    ~ In s (Profile.skills profile) ->
    let added := ProfileRoutes.postSkill user_id (ProfileRoutes.Valid s) db in
    let removed := ProfileRoutes.deleteSkill user_id s (snd added) in
    fst added = ErrorHandler.Ok
                  (ErrorHandler.mkEnvelope true (Some "Skill added successfully"%string)
                                           (Profile.skills profile ++ [s])) /\
    (exists body,
        OwnProfileRoutes.getOwnProfile user_id (snd added) = ErrorHandler.Ok body /\
        Profile.skills (ErrorHandler.data body) = Profile.skills profile ++ [s] /\
        Profile.projects (ErrorHandler.data body) = Profile.projects profile) /\
    fst removed = ErrorHandler.Ok
                    (ErrorHandler.mkEnvelope true
                       (Some "Skill removed successfully"%string)
                       (Profile.skills profile)) /\
    option_map Profile.skills (ProfileRoutes.ownProfile user_id (snd removed))
    = Some (Profile.skills profile).
Proof.
  intros user_id s db profile Hown Htrim Hnew. cbv zeta.
  set (profile1 := Profile.set_skills profile (Profile.skills profile ++ [s])).
  assert (Hown1 : ProfileRoutes.ownProfile user_id (Mongo.save profile1 db) = Some profile1)
    by (apply (ownProfile_save user_id db profile profile1 Hown); reflexivity).
  assert (Hadd : ProfileRoutes.postSkill user_id (ProfileRoutes.Valid s) db
                 = (ErrorHandler.Ok
                      (ErrorHandler.mkEnvelope true
                         (Some "Skill added successfully"%string)
                         (Profile.skills profile ++ [s])),
                    Mongo.save profile1 db)).
  { unfold ProfileRoutes.postSkill. rewrite Hown. unfold ProfileModel.addSkill.
    assert (JS.Array_includes (Profile.skills profile) s = false) as ->.
    { destruct (JS.Array_includes (Profile.skills profile) s) eqn:Hi; [|reflexivity].
      apply Array_includes_In in Hi. contradiction. }
    cbn [negb]. rewrite Htrim. reflexivity. }
  rewrite Hadd. simpl fst. simpl snd.
  split; [reflexivity|]. split.
  - unfold OwnProfileRoutes.getOwnProfile. rewrite Hown1.
    eexists. split; [reflexivity|]. split; reflexivity.
  - unfold ProfileRoutes.deleteSkill. rewrite Hown1.
    unfold ProfileModel.removeSkill. simpl Profile.skills.
    rewrite (filter_app_last s _ Hnew). simpl fst. simpl snd.
    split; [reflexivity|].
    erewrite ownProfile_save; [reflexivity|exact Hown1|reflexivity|reflexivity].
Qed.

Lemma add_then_read_then_remove_skill_witness :
  fst (ProfileRoutes.postSkill Sample.bobUser (ProfileRoutes.Valid "Rust"%string)
                               [Sample.alice; Sample.bob])
  = ErrorHandler.Ok
      (ErrorHandler.mkEnvelope true (Some "Skill added successfully"%string)
                               ["react"%string; "Rust"%string]).
Proof.
  refine (proj1 (add_then_read_then_remove_skill Sample.bobUser "Rust"
                   [Sample.alice; Sample.bob] Sample.bob eq_refl eq_refl _)).
  intros [H|[]]. discriminate H.
Defined.

(** ** A public profile by user id *)

(** X16.  GET /api/profile/:userId checks the id before it asks the store:
    an id that is not 24 hexadecimal digits gets 400 'Invalid user ID format'
    whatever the store holds; a well-formed id, of either case, gets 404
    exactly when no public profile has the ObjectId that the digits spell as
    userId, and otherwise the public view of such a profile, whose projects
    are the public projects of that profile. *)
Theorem profile_by_user_id_outcomes :
  forall (userId : string) (db : Store),
    match ProfileRoutes.getProfileByUserId userId db with
    | ErrorHandler.Ok body =>
        ProfileRoutes.isObjectIdString userId = true /\
        exists p, In p db /\ Profile.userId p = Mongo.castObjectId userId /\
                  Profile.isPublic p = true /\
                  ErrorHandler.data body = ProfileModel.getPublicProfile p /\
                  Forall (fun x => In x (Profile.projects p) /\ Project.isPublic x = true)
                         (ProfileModel.projects (ErrorHandler.data body))
    | ErrorHandler.Throw e =>
        (ProfileRoutes.isObjectIdString userId = false /\
         forall development,
           @ErrorHandler.errorHandler ProfileModel.PublicProfile development e
           = ErrorHandler.Failed 400
               (ErrorHandler.mkErrorBody false "Invalid user ID format"
                  (if development then Some "Invalid user ID format"%string else None)))
        \/
        (ProfileRoutes.isObjectIdString userId = true /\
         e = ErrorHandler.createError.notFound "Profile not found or not public" /\
         forall p, In p db -> Profile.userId p = Mongo.castObjectId userId ->
                   Profile.isPublic p = false)
    end.
Proof.
  intros userId db. unfold ProfileRoutes.getProfileByUserId.
  destruct (ProfileRoutes.isObjectIdString userId) eqn:Hid.
  - assert (Hne : String.eqb userId EmptyString = false).
    { destruct userId; [discriminate Hid|reflexivity]. }
    rewrite Hne. simpl orb. cbv iota.
    destruct (Mongo.findOne _ db) as [p|] eqn:Hf.
    + split; [reflexivity|].
      apply find_some in Hf as [Hin Hp]. apply andb_true_iff in Hp as [Hu Hpub].
      apply String.eqb_eq in Hu.
      exists p. repeat split; try assumption.
      cbn [ErrorHandler.data ProfileModel.getPublicProfile ProfileModel.projects].
      apply Forall_forall. intros x Hx. apply filter_In in Hx. exact Hx.
    + right. split; [reflexivity|]. split; [reflexivity|].
      intros p Hin Hu.
      pose proof (find_none _ _ Hf p Hin) as Hp. cbv beta in Hp.
      apply String.eqb_eq in Hu. rewrite Hu in Hp. exact Hp.
  - rewrite orb_true_r. left. split; [reflexivity|].
    intros development. reflexivity.
Qed.

(** ** Sections of the unified search *)

Section SearchSections.
Context {RE : RegexEngine}.

Lemma search_ok (q type : option string) (limit page : option Z) (db : Store)
      (body : ErrorHandler.Envelope SearchRoutes.SearchData) :
  SearchRoutes.search q type limit page db = ErrorHandler.Ok body ->
  let searchQuery := JS.trim (AdvancedSearch.or_empty q) in
  let searchType := if JS.truthy type then AdvancedSearch.or_empty type
                    else "all"%string in
  let pageLimit := SearchRoutes.default limit 20 in
  let currentPage := SearchRoutes.default page 1 in
  let wants (t : string) := String.eqb searchType "all" || String.eqb searchType t in
  Spec.isBlank q = false /\
  SearchRoutes.query (ErrorHandler.data body) = searchQuery /\
  SearchRoutes.type (ErrorHandler.data body) = searchType /\
  SearchRoutes.results (ErrorHandler.data body)
  = SearchRoutes.mkResults
      (if wants "profiles"%string
       then Some (SearchRoutes.searchProfiles searchQuery pageLimit currentPage db)
       else None)
      (if wants "projects"%string
       then Some (SearchRoutes.searchProjects searchQuery pageLimit currentPage db)
       else None)
      (if wants "skills"%string
       then Some (SearchRoutes.searchSkills searchQuery pageLimit currentPage db)
       else None) /\
  SearchRoutes.totalResults (ErrorHandler.data body)
  = SearchRoutes.section_total
      (SearchRoutes.profiles (SearchRoutes.results (ErrorHandler.data body)))
    + SearchRoutes.section_total
        (SearchRoutes.projects (SearchRoutes.results (ErrorHandler.data body)))
    + SearchRoutes.section_total
        (SearchRoutes.skills (SearchRoutes.results (ErrorHandler.data body))).
Proof.
  unfold SearchRoutes.search. rewrite noQuery_iff_blank.
  destruct (Spec.isBlank q) eqn:Hb; [discriminate|].
  intros H. injection H as <-. cbv zeta.
  split; [reflexivity|].
  destruct q as [query|]; [|discriminate Hb].
  destruct type as [t|]; repeat split; reflexivity.
Qed.

End SearchSections.

(** X17.  The sections of GET /api/search follow the type parameter: the
    type that is answered is the given one, or 'all' when none or the empty
    text is given; a section is present exactly when the type is 'all' or the
    name of the section; the overall total is the sum of the totals of the
    sections that are present; and a type that names no section is not
    refused: the answer then has no section and a total of 0. *)
Theorem search_sections_follow_type :
  forall (RE : RegexEngine) (q type : option string) (limit page : option Z)
         (db : Store) (body : ErrorHandler.Envelope SearchRoutes.SearchData),
    SearchRoutes.search q type limit page db = ErrorHandler.Ok body ->
    let d := ErrorHandler.data body in
    let t := SearchRoutes.type d in
    let r := SearchRoutes.results d in
    t = (if JS.truthy type then AdvancedSearch.or_empty type else "all"%string) /\
    (SearchRoutes.profiles r <> None <-> t = "all"%string \/ t = "profiles"%string) /\
    (SearchRoutes.projects r <> None <-> t = "all"%string \/ t = "projects"%string) /\
    (SearchRoutes.skills r <> None <-> t = "all"%string \/ t = "skills"%string) /\
    SearchRoutes.totalResults d
    = SearchRoutes.section_total (SearchRoutes.profiles r)
      + SearchRoutes.section_total (SearchRoutes.projects r)
      + SearchRoutes.section_total (SearchRoutes.skills r) /\
    (t <> "all"%string -> t <> "profiles"%string -> t <> "projects"%string ->
     t <> "skills"%string ->
     r = SearchRoutes.mkResults None None None /\ SearchRoutes.totalResults d = 0).
Proof.
  intros RE q type limit page db body Hok. cbv zeta.
  destruct (search_ok q type limit page db body Hok) as [_ [_ [Ht [Hr Htot]]]].
  cbv zeta in Ht, Hr.
  assert (Hsec : forall (A : Type) (x : SearchRoutes.Page A) (name : string),
             (if String.eqb (SearchRoutes.type (ErrorHandler.data body)) "all"
                 || String.eqb (SearchRoutes.type (ErrorHandler.data body)) name
              then Some x else None) <> None
             <-> SearchRoutes.type (ErrorHandler.data body) = "all"%string \/
                 SearchRoutes.type (ErrorHandler.data body) = name).
  { intros A x name.
    destruct (String.eqb_spec (SearchRoutes.type (ErrorHandler.data body)) "all") as [Ha|Ha];
      destruct (String.eqb_spec (SearchRoutes.type (ErrorHandler.data body)) name) as [Hn|Hn];
      simpl; split; intros H; try tauto; try discriminate. }
  rewrite <- Ht in Hr.
  split; [exact Ht|].
  split; [rewrite Hr; apply Hsec|].
  split; [rewrite Hr; apply Hsec|].
  split; [rewrite Hr; apply Hsec|].
  split; [exact Htot|].
  intros Ha Hp Hj Hs. rewrite Htot, Hr.
  apply String.eqb_neq in Ha, Hp, Hj, Hs. simpl. rewrite Ha, Hp, Hj, Hs. simpl.
  split; reflexivity.
Qed.

Lemma search_sections_follow_type_witness :
  exists body,
    @SearchRoutes.search LiteralRegex AsciiCase (Some "react"%string) (Some "people"%string)
                         None None Sample.skillStore
    = ErrorHandler.Ok body /\
    SearchRoutes.totalResults (ErrorHandler.data body) = 0.
Proof.
  eexists. split; [reflexivity|].
  refine (proj2 (proj2 (proj2 (proj2 (proj2 (proj2
            (search_sections_follow_type LiteralRegex (Some "react"%string)
               (Some "people"%string) None None Sample.skillStore _ eq_refl))))) _ _ _ _));
    discriminate.
Defined.

(** X18.  The profiles section of GET /api/search, for a limit and a page of
    at least 1: the hits are in ascending order of name, there are at most
    [limit] of them, every hit shows a public profile of the store that the
    trimmed query matches in name, bio, education or location, and the total
    of the section counts all such profiles, not the page. *)
Theorem search_profile_hits :
  forall (RE : RegexEngine) (q : string) (type : option string) (limit page : Z)
         (db : Store) (body : ErrorHandler.Envelope SearchRoutes.SearchData)
         (section : SearchRoutes.Page SearchRoutes.ProfileHit),
    0 < limit -> 1 <= page ->
    SearchRoutes.search (Some q) type (Some limit) (Some page) db = ErrorHandler.Ok body ->
    SearchRoutes.profiles (SearchRoutes.results (ErrorHandler.data body)) = Some section ->
    StronglySorted (fun a b => String.leb (SearchRoutes.ph_name a) (SearchRoutes.ph_name b)
                               = true)
                   (SearchRoutes.data section) /\
    Z.of_nat (length (SearchRoutes.data section)) <= limit /\
    Forall (fun hit =>
              exists p, In p db /\ Profile.isPublic p = true /\
                        SearchRoutes.profileMatches (JS.trim q) p = true /\
                        SearchRoutes.ph_id hit = Profile._id p /\
                        SearchRoutes.ph_name hit = Profile.name p)
           (SearchRoutes.data section) /\
    SearchRoutes.total section
    = Z.of_nat (length (filter (SearchRoutes.profileMatches (JS.trim q)) db)).
Proof.
  intros RE q type limit page db body section Hl Hp Hok Hsec.
  destruct (search_ok (Some q) type (Some limit) (Some page) db body Hok)
    as [_ [_ [_ [Hr _]]]].
  cbv zeta in Hr. rewrite Hr in Hsec. cbn [SearchRoutes.profiles] in Hsec.
  destruct (_ || _) in Hsec; [|discriminate]. injection Hsec as <-.
  cbn [AdvancedSearch.or_empty SearchRoutes.default].
  unfold SearchRoutes.searchProfiles, SearchRoutes.page_of.
  cbn [SearchRoutes.data SearchRoutes.total].
  split; [|split; [|split; [|reflexivity]]].
  - eapply StronglySorted_map; [|apply StronglySorted_firstn, StronglySorted_skipn,
                                  sortBy_sorted].
    + intros a b H. exact H.
    + intros a b. apply leb_total'.
    + intros a b c. apply leb_trans.
  - rewrite length_map. unfold Mongo.limit.
    pose proof (firstn_le_length (Z.to_nat limit)
                  (Mongo.skip ((page - 1) * limit)
                     (Mongo.sortBy (fun a b => String.leb (Profile.name a) (Profile.name b))
                        (filter (SearchRoutes.profileMatches (JS.trim q)) db)))).
    lia.
  - apply Forall_forall. intros hit Hhit.
    apply in_map_iff in Hhit as [p [<- Hin]].
    apply limit_In, skip_In, sortBy_In, filter_In in Hin as [Hin Hm].
    exists p. repeat split; try assumption.
    unfold SearchRoutes.profileMatches in Hm. apply andb_true_iff in Hm. tauto.
Qed.

Lemma search_profile_hits_witness :
  exists body section,
    @SearchRoutes.search LiteralRegex AsciiCase (Some " a "%string) (Some "profiles"%string)
                         (Some 5) (Some 1) Sample.skillStore
    = ErrorHandler.Ok body /\
    SearchRoutes.profiles (SearchRoutes.results (ErrorHandler.data body)) = Some section /\
    SearchRoutes.total section = 1.
Proof.
  eexists. eexists. split; [reflexivity|]. split; [reflexivity|].
  exact (proj2 (proj2 (proj2
           (search_profile_hits LiteralRegex " a " (Some "profiles"%string) 5 1
              Sample.skillStore _ _ ltac:(lia) ltac:(lia) eq_refl eq_refl)))).
Defined.

(** ** Error responses *)

Section ErrorResponses.

Lemma status_named (e : ErrorHandler.JsError) :
  In (ErrorHandler.name e) Facts.named_errors ->
  In (ErrorHandler.status_and_message e) Facts.fixed_answers.
Proof.
  intros Hin. unfold ErrorHandler.status_and_message.
  simpl in Hin.
  destruct Hin as [H|[H|[H|[H|[H|[H|[]]]]]]]; rewrite <- H; simpl; try tauto.
  destruct (ErrorHandler.code e) as [c|]; [|tauto].
  destruct c as [|p|p]; try tauto.
  repeat (destruct p as [p|p|]; try tauto).
Qed.

Lemma status_unnamed (e : ErrorHandler.JsError) :
  ~ In (ErrorHandler.name e) Facts.named_errors ->
  ErrorHandler.status_and_message e
  = match ErrorHandler.statusCode e with
    | Some c => if c =? 0 then (500, "Internal server error"%string)
                else (c, ErrorHandler.message e)
    | None => (500, "Internal server error"%string)
    end.
Proof.
  intros Hn. unfold ErrorHandler.status_and_message.
  repeat match goal with
         | |- context [String.eqb (ErrorHandler.name e) ?s] =>
             destruct (String.eqb_spec (ErrorHandler.name e) s) as [H|_];
             [exfalso; apply Hn; rewrite H; simpl; tauto|]
         end.
  reflexivity.
Qed.

End ErrorResponses.

(** X19.  What [errorHandler] lets through.  In production the body of an
    error response carries no [error] field, and an error that has one of
    the six names the handler knows, or no status code of its own (or the
    status code 0), is answered by one of eight fixed pairs of status and
    message: the message that was thrown is not sent, and the name decides
    even when the error carries a status code.  Only an error of another
    name with a status code other than 0 is answered with its own status and
    message. *)
Theorem error_handler_answers :
  forall (A : Type) (e : ErrorHandler.JsError),
    (ErrorHandler.statusCode e = None \/ ErrorHandler.statusCode e = Some 0 \/
     In (ErrorHandler.name e) Facts.named_errors ->
     exists status message,
       @ErrorHandler.errorHandler A false e
       = ErrorHandler.Failed status (ErrorHandler.mkErrorBody false message None) /\
       In (status, message) Facts.fixed_answers) /\
    (forall c development,
        ~ In (ErrorHandler.name e) Facts.named_errors ->
        ErrorHandler.statusCode e = Some c -> c <> 0 ->
        @ErrorHandler.errorHandler A development e
        = ErrorHandler.Failed c
            (ErrorHandler.mkErrorBody false (ErrorHandler.message e)
               (if development then Some (ErrorHandler.message e) else None))).
Proof.
  intros A e. split.
  - intros Hcase. unfold ErrorHandler.errorHandler.
    assert (Hfix : In (ErrorHandler.status_and_message e) Facts.fixed_answers).
    { destruct (in_dec string_dec (ErrorHandler.name e) Facts.named_errors) as [Hin|Hn];
        [exact (status_named e Hin)|].
      rewrite (status_unnamed e Hn).
      destruct Hcase as [H|[H|H]]; [rewrite H|rewrite H|contradiction];
        simpl; tauto. }
    destruct (ErrorHandler.status_and_message e) as [status message].
    exists status, message. split; [reflexivity|exact Hfix].
  - intros c development Hn Hc Hnz. unfold ErrorHandler.errorHandler.
    rewrite (status_unnamed e Hn), Hc.
    apply Z.eqb_neq in Hnz. rewrite Hnz. reflexivity.
Qed.

Lemma error_handler_answers_witness :
  exists status message,
    @ErrorHandler.errorHandler unit false
       (ErrorHandler.mkError "ValidationError" "Path `email` is invalid" (Some 422) None)
    = ErrorHandler.Failed status (ErrorHandler.mkErrorBody false message None) /\
    In (status, message) Facts.fixed_answers.
Proof.
  apply (proj1 (error_handler_answers unit
                  (ErrorHandler.mkError "ValidationError" "Path `email` is invalid"
                                        (Some 422) None))).
  right. right. simpl. tauto.
Defined.

(** ** Updates of the caller's profile *)

Section OwnProfileUpdates.
Variable schemaError : Profile.t -> option string.

Lemma putProfile_ok (user_id : ObjectId) (value : OwnProfileRoutes.ProfileUpdate)
      (db : Store) (profile : Profile.t) (body : ErrorHandler.Envelope Profile.t) :
  ProfileRoutes.ownProfile user_id db = Some profile ->
  fst (OwnProfileRoutes.putProfile schemaError user_id (ProfileRoutes.Valid value) db)
  = ErrorHandler.Ok body ->
  OwnProfileRoutes.putProfile schemaError user_id (ProfileRoutes.Valid value) db
  = (ErrorHandler.Ok
       (ErrorHandler.mkEnvelope true (Some "Profile updated successfully"%string)
                                (OwnProfileRoutes.assign profile value)),
     Mongo.save (OwnProfileRoutes.assign profile value) db) /\
  ErrorHandler.data body = OwnProfileRoutes.assign profile value.
Proof.
  intros Hown. unfold OwnProfileRoutes.putProfile. rewrite Hown.
  destruct (schemaError (OwnProfileRoutes.assign profile value)); simpl; [discriminate|].
  intros H. injection H as <-. split; reflexivity.
Qed.

End OwnProfileUpdates.

Section HiddenProfiles.

Lemma save_hidden_public (doc : Profile.t) (db : Store) :
  Profile.isPublic doc = false ->
  (forall x, In x db ->
     (Profile.userId x = Profile.userId doc <-> Profile._id x = Profile._id doc)) ->
  filter Profile.isPublic (Mongo.save doc db)
  = filter (fun x => Profile.isPublic x
                     && negb (String.eqb (Profile.userId x) (Profile.userId doc))) db.
Proof.
  intros Hpriv. unfold Mongo.save.
  induction db as [|x r IH]; intros Hid; [reflexivity|].
  assert (Hr : forall y, In y r ->
                 (Profile.userId y = Profile.userId doc <-> Profile._id y = Profile._id doc))
    by (intros y Hy; apply Hid; now right).
  specialize (IH Hr). simpl map. simpl filter.
  pose proof (Hid x (or_introl eq_refl)) as Hx.
  destruct (String.eqb_spec (Profile._id x) (Profile._id doc)) as [He|Hne].
  - rewrite Hpriv.
    assert (String.eqb (Profile.userId x) (Profile.userId doc) = true) as ->
      by (apply String.eqb_eq; tauto).
    rewrite andb_false_r. exact IH.
  - assert (String.eqb (Profile.userId x) (Profile.userId doc) = false) as ->
      by (apply String.eqb_neq; tauto).
    rewrite andb_true_r. destruct (Profile.isPublic x); [now rewrite IH|exact IH].
Qed.

End HiddenProfiles.

(** X20.  PUT /api/profile changes the given fields and nothing else: after
    a successful update the stored profile of the caller is the one that is
    returned; its ids, skills, projects, work entries and links are the old
    ones; a given name is stored trimmed, a given email trimmed and in lower
    case, a field that is not given keeps its value.  When the validators of
    the model reject the updated document, the store is left as it was and
    the client gets 400 'Validation failed'. *)
Theorem put_profile_changes_given_fields_only :
  forall (schemaError : Profile.t -> option string) (user_id : ObjectId)
         (value : OwnProfileRoutes.ProfileUpdate) (db : Store) (profile : Profile.t),
    ProfileRoutes.ownProfile user_id db = Some profile ->
    let out := OwnProfileRoutes.putProfile schemaError user_id
                 (ProfileRoutes.Valid value) db in
    match fst out with
    | ErrorHandler.Ok body =>
        let updated := ErrorHandler.data body in
        ProfileRoutes.ownProfile user_id (snd out) = Some updated /\
        Profile._id updated = Profile._id profile /\
        Profile.userId updated = Profile.userId profile /\
        Profile.skills updated = Profile.skills profile /\
        Profile.projects updated = Profile.projects profile /\
        Profile.work updated = Profile.work profile /\
        Profile.links updated = Profile.links profile /\
        (forall x, OwnProfileRoutes.name value = Some x ->
                   Profile.name updated = JS.trim x) /\
        (forall x, OwnProfileRoutes.email value = Some x ->
                   Profile.email updated = JS.toLowerCase (JS.trim x)) /\
        (OwnProfileRoutes.name value = None -> Profile.name updated = Profile.name profile) /\
        (OwnProfileRoutes.isPublic value = None ->
         Profile.isPublic updated = Profile.isPublic profile)
    | ErrorHandler.Throw e =>
        snd out = db /\
        forall development,
          @ErrorHandler.errorHandler (ErrorHandler.Envelope Profile.t) development e
          = ErrorHandler.Failed 400
              (ErrorHandler.mkErrorBody false "Validation failed"
                 (if development then Some (ErrorHandler.message e) else None))
    end.
Proof.
  intros schemaError user_id value db profile Hown. cbv zeta.
  unfold OwnProfileRoutes.putProfile. rewrite Hown.
  destruct (schemaError (OwnProfileRoutes.assign profile value)) as [message|];
    cbn [fst snd ErrorHandler.data].
  - split; [reflexivity|]. intros development. reflexivity.
  - split.
    { erewrite ownProfile_save; [reflexivity|exact Hown|reflexivity|reflexivity]. }
    repeat split.
    + intros x Hx. simpl. now rewrite Hx.
    + intros x Hx. simpl. now rewrite Hx.
    + intros Hx. simpl. now rewrite Hx.
    + intros Hx. simpl. now rewrite Hx.
Qed.

Lemma put_profile_changes_given_fields_only_witness :
  option_map Profile.isPublic
    (ProfileRoutes.ownProfile Sample.aliceUser
       (snd (OwnProfileRoutes.putProfile Sample.accepts Sample.aliceUser
               (ProfileRoutes.Valid Sample.hide) [Sample.alice; Sample.bob])))
  = Some false.
Proof.
  rewrite (proj1 (put_profile_changes_given_fields_only Sample.accepts Sample.aliceUser
                    Sample.hide [Sample.alice; Sample.bob] Sample.alice eq_refl)).
  reflexivity.
Defined.

(** X21.  Hiding a profile takes it out of every public view.  When the
    caller sets isPublic to false through PUT /api/profile, in a store with
    one profile per user (its userIds being ObjectIds as the store shows
    them): GET /api/profile/:userId and
    GET /api/projects/user/:userId for the caller answer 404 afterwards, the
    public profiles of the store are the former ones without the caller's
    (so every route that reads public profiles only answers as if the
    profile were not there), and GET /api/profile still shows the caller
    the profile. *)
Theorem hidden_profile_leaves_public_views :
  forall (schemaError : Profile.t -> option string) (user_id : ObjectId)
         (value : OwnProfileRoutes.ProfileUpdate) (db : Store) (profile : Profile.t)
         (body : ErrorHandler.Envelope Profile.t),
    Facts.one_profile_per_user db ->
    ProfileRoutes.isObjectIdString user_id = true ->
    ProfileRoutes.ownProfile user_id db = Some profile ->
    OwnProfileRoutes.isPublic value = Some false ->
    fst (OwnProfileRoutes.putProfile schemaError user_id (ProfileRoutes.Valid value) db)
    = ErrorHandler.Ok body ->
    let db' := snd (OwnProfileRoutes.putProfile schemaError user_id
                      (ProfileRoutes.Valid value) db) in
    filter Profile.isPublic db'
    = filter (fun x => Profile.isPublic x && negb (String.eqb (Profile.userId x) user_id))
             db /\
    ProfileRoutes.getProfileByUserId user_id db'
    = ErrorHandler.Throw
        (ErrorHandler.createError.notFound "Profile not found or not public") /\
    (forall limit page,
        ProjectBrowsing.getUserProjects user_id limit page db'
        = ErrorHandler.Throw
            (ErrorHandler.createError.notFound "User profile not found or not public")) /\
    exists own,
      OwnProfileRoutes.getOwnProfile user_id db' = ErrorHandler.Ok own /\
      Profile.isPublic (ErrorHandler.data own) = false.
Proof.
  intros schemaError user_id value db profile body Huniq Hid Hown Hhide Hok. cbv zeta.
  destruct Huniq as [Hshown Huniq].
  destruct (putProfile_ok schemaError user_id value db profile body Hown Hok)
    as [Hput _].
  rewrite Hput. cbn [snd].
  set (doc := OwnProfileRoutes.assign profile value).
  assert (Hin : In profile db /\ Profile.userId profile = user_id).
  { unfold ProfileRoutes.ownProfile, Mongo.findOne in Hown.
    apply find_some in Hown as [Hin Hu]. apply String.eqb_eq in Hu. tauto. }
  destruct Hin as [Hin Huser].
  assert (Hcast : Mongo.castObjectId user_id = user_id)
    by (rewrite <- Huser; exact (Hshown profile Hin)).
  assert (Hpriv : Profile.isPublic doc = false) by (simpl; now rewrite Hhide).
  assert (Hdoc : Profile.userId doc = user_id) by exact Huser.
  assert (Hpub : filter Profile.isPublic (Mongo.save doc db)
                 = filter (fun x => Profile.isPublic x
                                    && negb (String.eqb (Profile.userId x) user_id)) db).
  { rewrite <- Hdoc. apply save_hidden_public; [exact Hpriv|].
    intros x Hx. exact (Huniq x profile Hx Hin). }
  assert (Hnone : Mongo.findOne
                    (fun p => String.eqb (Profile.userId p) (Mongo.castObjectId user_id)
                              && Profile.isPublic p)
                    (Mongo.save doc db) = None).
  { rewrite Hcast. unfold Mongo.findOne.
    rewrite <- (find_public_absorb
                  (fun p => String.eqb (Profile.userId p) user_id && Profile.isPublic p))
      by public_only.
    rewrite Hpub.
    destruct (find _ _) as [p|] eqn:Hf; [|reflexivity].
    apply find_some in Hf as [Hp Hq]. apply filter_In in Hp as [_ Hp].
    apply andb_true_iff in Hp as [_ Hp]. apply andb_true_iff in Hq as [Hq _].
    rewrite Hq in Hp. discriminate Hp. }
  split; [exact Hpub|]. split; [|split].
  - unfold ProfileRoutes.getProfileByUserId. rewrite Hid.
    assert (String.eqb user_id EmptyString = false) as ->
      by (destruct user_id; [discriminate Hid|reflexivity]).
    simpl orb. cbv iota. now rewrite Hnone.
  - intros limit page. unfold ProjectBrowsing.getUserProjects.
    change (Mongo.isObjectIdHex user_id) with (ProfileRoutes.isObjectIdString user_id).
    rewrite Hid. cbn [negb]. now rewrite Hnone.
  - unfold OwnProfileRoutes.getOwnProfile.
    erewrite ownProfile_save; [|exact Hown|reflexivity|reflexivity].
    eexists. split; [reflexivity|exact Hpriv].
Qed.

Lemma hidden_profile_leaves_public_views_witness :
  ProfileRoutes.getProfileByUserId Sample.aliceUser
    (snd (OwnProfileRoutes.putProfile Sample.accepts Sample.aliceUser
            (ProfileRoutes.Valid Sample.hide) [Sample.alice; Sample.bob]))
  = ErrorHandler.Throw
      (ErrorHandler.createError.notFound "Profile not found or not public").
Proof.
  assert (Huniq : Facts.one_profile_per_user [Sample.alice; Sample.bob]).
  { split.
    - intros x [<-|[<-|[]]]; reflexivity.
    - intros x y [<-|[<-|[]]] [<-|[<-|[]]]; split; intros H;
        try reflexivity; discriminate H. }
  exact (proj1 (proj2 (hidden_profile_leaves_public_views Sample.accepts
                         Sample.aliceUser Sample.hide [Sample.alice; Sample.bob]
                         Sample.alice _ Huniq eq_refl eq_refl eq_refl eq_refl))).
Defined.

(** ** The skill detail *)

(** X22.  Every detail that GET /api/skills/:skillName answers, for a limit
    and a page of at least 1: some public profile has a skill that the name
    matches, and the detail counts all such profiles (at least one) as
    totalProfiles; it reports as totalProjects all public projects of those
    profiles that use the skill while it lists the first ten of them at
    most; it lists at most [limit] profiles, none of them with a userId, and
    at most five related skills. *)
Theorem skill_detail_outcomes :
  forall (RE : RegexEngine) (LC : LowerCase) (skillName : string) (limit page : Z)
         (db : Store) (body : ErrorHandler.Envelope SkillRoutes.SkillDetail),
    0 < limit -> 1 <= page ->
    SkillRoutes.getSkill skillName (Some limit) (Some page) db = ErrorHandler.Ok body ->
    let d := ErrorHandler.data body in
    (exists p, In p db /\ Profile.isPublic p = true /\
               existsb (regex_i skillName) (Profile.skills p) = true) /\
    1 <= SkillRoutes.totalProfiles (SkillRoutes.skill d) /\
    SkillRoutes.totalProfiles (SkillRoutes.skill d)
    = Z.of_nat (length (filter (SkillRoutes.hasSkill skillName) db)) /\
    SkillRoutes.totalProjects (SkillRoutes.skill d)
    = Z.of_nat (length
        (flat_map (fun profile =>
                     filter (SkillRoutes.usesSkill skillName) (Profile.projects profile))
                  (filter (SkillRoutes.hasSkill skillName) db))) /\
    Z.of_nat (length (SkillRoutes.projects d))
    = Z.min 10 (SkillRoutes.totalProjects (SkillRoutes.skill d)) /\
    Z.of_nat (length (SkillRoutes.profiles d)) <= limit /\
    Forall (fun item => SkillRoutes.pi_userId item = None) (SkillRoutes.profiles d) /\
    Z.of_nat (length (SkillRoutes.relatedSkills d)) <= 5.
Proof.
  intros RE LC skillName limit page db body Hl Hp Hbody.
  unfold SkillRoutes.getSkill in Hbody.
  destruct (Nat.eqb (length (filter (SkillRoutes.hasSkill skillName) db)) 0) eqn:Hz;
    [discriminate|].
  injection Hbody as <-. cbv zeta.
  cbn [ErrorHandler.data SkillRoutes.skill SkillRoutes.totalProfiles
       SkillRoutes.totalProjects SkillRoutes.projects SkillRoutes.profiles
       SkillRoutes.relatedSkills SearchRoutes.default].
  apply Nat.eqb_neq in Hz.
  split; [|split; [lia|split; [reflexivity|split; [|split; [|split; [|split]]]]]].
  - destruct (filter (SkillRoutes.hasSkill skillName) db) as [|p r] eqn:Hf;
      [contradiction Hz; reflexivity|].
    assert (Hin : In p (filter (SkillRoutes.hasSkill skillName) db))
      by (rewrite Hf; now left).
    apply filter_In in Hin as [Hin Hs]. unfold SkillRoutes.hasSkill in Hs.
    apply andb_true_iff in Hs as [Hs Hpub]. exists p. tauto.
  - f_equal. rewrite !flat_map_concat_map, !length_concat. f_equal.
    rewrite !map_map. apply map_ext. intros p. apply length_map.
  - rewrite slice_prefix by lia. rewrite length_firstn. lia.
  - rewrite length_map. apply slice_length_le; nia.
  - apply Forall_forall. intros item Hitem.
    apply in_map_iff in Hitem as [p [<- _]]. reflexivity.
  - rewrite length_map. apply (slice_length_le _ 0 5); lia.
Qed.

Lemma skill_detail_outcomes_witness :
  exists body,
    @SkillRoutes.getSkill LiteralRegex AsciiCase "react" (Some 5) (Some 1) Sample.skillStore
    = ErrorHandler.Ok body /\
    SkillRoutes.totalProfiles (SkillRoutes.skill (ErrorHandler.data body)) = 2.
Proof.
  eexists. split; [reflexivity|].
  exact (proj1 (proj2 (proj2
           (skill_detail_outcomes LiteralRegex AsciiCase "react" 5 1 Sample.skillStore _
              ltac:(lia) ltac:(lia) eq_refl)))).
Defined.

(** ** Cards of the advanced search *)

Section AdvancedCards.
Context {RE : RegexEngine}.

Lemma advanced_ok (q skills location education projectTech : option string)
      (limit page : option Z) (db : Store)
      (body : ErrorHandler.Envelope AdvancedSearch.AdvancedData) :
  AdvancedSearch.advanced q skills location education projectTech limit page db
  = ErrorHandler.Ok body ->
  AdvancedSearch.profiles (ErrorHandler.data body)
  = map AdvancedSearch.profileCard
        (Mongo.limit (SearchRoutes.default limit 20)
           (Mongo.skip ((SearchRoutes.default page 1 - 1) * SearchRoutes.default limit 20)
              (Mongo.sortBy (fun a b => String.leb (Profile.name a) (Profile.name b))
                 (filter (AdvancedSearch.searchQuery q skills location education
                                                     projectTech) db)))) /\
  AdvancedSearch.pagination (ErrorHandler.data body)
  = Pagination.paginate
      (Z.of_nat (length (filter (AdvancedSearch.searchQuery q skills location education
                                                            projectTech) db)))
      (SearchRoutes.default limit 20) (SearchRoutes.default page 1).
Proof.
  unfold AdvancedSearch.advanced. intros H. injection H as <-. split; reflexivity.
Qed.

End AdvancedCards.

(** X23.  The cards of GET /api/search/advanced, for a limit and a page of
    at least 1: there are at most [limit] cards, in ascending order of name;
    every card shows a public profile of the store, with at most three of
    its projects, all of them public, and at most two of its work entries. *)
Theorem advanced_search_cards :
  forall (RE : RegexEngine) (q skills location education projectTech : option string)
         (limit page : Z) (db : Store)
         (body : ErrorHandler.Envelope AdvancedSearch.AdvancedData),
    0 < limit -> 1 <= page ->
    AdvancedSearch.advanced q skills location education projectTech
                            (Some limit) (Some page) db
    = ErrorHandler.Ok body ->
    let cards := AdvancedSearch.profiles (ErrorHandler.data body) in
    Z.of_nat (length cards) <= limit /\
    StronglySorted (fun a b => String.leb (AdvancedSearch.name a) (AdvancedSearch.name b)
                               = true) cards /\
    Forall (fun card =>
              exists p, In p db /\ Profile.isPublic p = true /\
                        AdvancedSearch.id card = Profile._id p /\
                        (length (AdvancedSearch.projects card) <= 3)%nat /\
                        Forall (fun x => In x (Profile.projects p) /\
                                         Project.isPublic x = true)
                               (AdvancedSearch.projects card) /\
                        (length (AdvancedSearch.work card) <= 2)%nat /\
                        Forall (fun w => In w (Profile.work p)) (AdvancedSearch.work card))
           cards.
Proof.
  intros RE q skills location education projectTech limit page db body Hl Hp Hok.
  cbv zeta.
  destruct (advanced_ok q skills location education projectTech
                        (Some limit) (Some page) db body Hok) as [Hcards _].
  rewrite Hcards. cbn [SearchRoutes.default].
  split; [|split].
  - rewrite length_map. unfold Mongo.limit.
    pose proof (firstn_le_length (Z.to_nat limit)
                  (Mongo.skip ((page - 1) * limit)
                     (Mongo.sortBy (fun a b => String.leb (Profile.name a) (Profile.name b))
                        (filter (AdvancedSearch.searchQuery q skills location education
                                                            projectTech) db)))).
    lia.
  - eapply StronglySorted_map; [|apply StronglySorted_firstn, StronglySorted_skipn,
                                  sortBy_sorted].
    + intros a b H. exact H.
    + intros a b. apply leb_total'.
    + intros a b c. apply leb_trans.
  - apply Forall_forall. intros card Hcard.
    apply in_map_iff in Hcard as [p [<- Hin]].
    apply limit_In, skip_In, sortBy_In, filter_In in Hin as [Hin Hm].
    assert (Hpub : Profile.isPublic p = true).
    { unfold AdvancedSearch.searchQuery in Hm.
      repeat (apply andb_true_iff in Hm as [Hm _]). exact Hm. }
    exists p. split; [exact Hin|]. split; [exact Hpub|]. split; [reflexivity|].
    cbn [AdvancedSearch.profileCard AdvancedSearch.projects AdvancedSearch.work].
    split; [|split; [|split]].
    + pose proof (slice_length_le (filter Project.isPublic (Profile.projects p)) 0 3
                                  ltac:(lia) ltac:(lia)). simpl in *. lia.
    + apply Forall_slice. apply Forall_forall. intros x Hx.
      apply filter_In in Hx. exact Hx.
    + pose proof (slice_length_le (Profile.work p) 0 2 ltac:(lia) ltac:(lia)).
      simpl in *. lia.
    + apply Forall_slice. apply Forall_forall. intros w Hw. exact Hw.
Qed.

Lemma advanced_search_cards_witness :
  exists body,
    @AdvancedSearch.advanced LiteralRegex None (Some "react, go"%string) None None None
                             (Some 5) (Some 1) Sample.skillStore
    = ErrorHandler.Ok body /\
    Z.of_nat (length (AdvancedSearch.profiles (ErrorHandler.data body))) <= 5.
Proof.
  eexists. split; [reflexivity|].
  exact (proj1 (advanced_search_cards LiteralRegex None (Some "react, go"%string)
                  None None None 5 1 Sample.skillStore _ ltac:(lia) ltac:(lia) eq_refl)).
Defined.

(** X24.  The text filter of GET /api/search/advanced looks at the titles of
    all embedded projects, private ones included: a public profile with a
    project whose title the trimmed query matches is found (it is on the
    first page when the page holds the whole store), also when that project
    is private, and the card then does not show the project. *)
Theorem private_project_title_finds_owner :
  forall (RE : RegexEngine) (q : string) (limit : Z) (db : Store)
         (p : Profile.t) (x : Project.t)
         (body : ErrorHandler.Envelope AdvancedSearch.AdvancedData),
    0 < limit -> Z.of_nat (length db) <= limit ->
    Spec.isBlank (Some q) = false ->
    In p db -> Profile.isPublic p = true ->
    In x (Profile.projects p) ->
    regex_i (JS.trim q) (Project.title x) = true ->
    AdvancedSearch.advanced (Some q) None None None None (Some limit) (Some 1) db
    = ErrorHandler.Ok body ->
    In (AdvancedSearch.profileCard p) (AdvancedSearch.profiles (ErrorHandler.data body)) /\
    (Project.isPublic x = false ->
     ~ In x (AdvancedSearch.projects (AdvancedSearch.profileCard p))).
Proof.
  intros RE q limit db p x body Hl Hfit Hb Hin Hpub Hx Hm Hok.
  destruct (advanced_ok (Some q) None None None None (Some limit) (Some 1) db body Hok)
    as [Hcards _].
  rewrite Hcards. cbn [SearchRoutes.default]. split.
  - apply in_map. unfold Mongo.limit, Mongo.skip.
    change (Z.to_nat ((1 - 1) * limit)) with 0%nat. simpl skipn.
    rewrite firstn_all2.
    + apply sortBy_In. apply filter_In. split; [exact Hin|].
      unfold AdvancedSearch.searchQuery.
      rewrite Hpub, noQuery_iff_blank, Hb. cbn [JS.truthy AdvancedSearch.or_empty].
      assert (existsb (fun y => regex_i (JS.trim q) (Project.title y)) (Profile.projects p)
              = true) as ->
        by (apply existsb_exists; exists x; tauto).
      rewrite !orb_true_r. reflexivity.
    + rewrite (Permutation_length (sortBy_perm _ _)).
      pose proof (filter_length_le
                    (AdvancedSearch.searchQuery (Some q) None None None None) db).
      lia.
  - intros Hpriv Hshown.
    cbn [AdvancedSearch.profileCard AdvancedSearch.projects] in Hshown.
    apply slice_In, filter_In in Hshown as [_ Hshown]. congruence.
Qed.

Lemma private_project_title_finds_owner_witness :
  exists body,
    @AdvancedSearch.advanced LiteralRegex (Some "draft"%string) None None None None
                             (Some 5) (Some 1) [Sample.alice; Sample.bob]
    = ErrorHandler.Ok body /\
    In (AdvancedSearch.profileCard Sample.alice)
       (AdvancedSearch.profiles (ErrorHandler.data body)).
Proof.
  eexists. split; [reflexivity|].
  apply (proj1 (private_project_title_finds_owner LiteralRegex "draft" 5
                  [Sample.alice; Sample.bob] Sample.alice Sample.draft _
                  ltac:(simpl; lia) ltac:(simpl; lia) eq_refl
                  (or_introl eq_refl) eq_refl
                  (or_intror (or_introl eq_refl)) eq_refl eq_refl)).
Defined.

(** ** White space around the query *)

Section TrimFacts.

Lemma noQuery_trim (s : string) :
  SearchRoutes.noQuery (Some (JS.trim s)) = SearchRoutes.noQuery (Some s).
Proof.
  unfold SearchRoutes.noQuery. rewrite trim_idem.
  destruct (Nat.eqb (String.length (JS.trim s)) 0) eqn:Hl;
    [now rewrite !orb_true_r|].
  rewrite !orb_false_r.
  assert (Ht : JS.trim s <> EmptyString) by (intros H; rewrite H in Hl; discriminate Hl).
  assert (Hne : s <> EmptyString) by (intros H; apply Ht; rewrite H; reflexivity).
  apply String.eqb_neq in Ht, Hne. now rewrite Ht, Hne.
Qed.

End TrimFacts.

(** X25.  White space around the query does not change the answer:
    GET /api/search and GET /api/search/suggestions answer a query and the
    same query without its leading and trailing white space alike, and
    GET /api/search/advanced finds the same profiles for both. *)
Theorem surrounding_white_space_is_ignored :
  forall (RE : RegexEngine) (q : string) (db : Store),
    (forall type limit page,
        SearchRoutes.search (Some (JS.trim q)) type limit page db
        = SearchRoutes.search (Some q) type limit page db) /\
    (forall limit,
        SearchRoutes.getSuggestions (Some (JS.trim q)) limit db
        = SearchRoutes.getSuggestions (Some q) limit db) /\
    (forall skills location education projectTech p,
        AdvancedSearch.searchQuery (Some (JS.trim q)) skills location education
                                   projectTech p
        = AdvancedSearch.searchQuery (Some q) skills location education projectTech p).
Proof.
  intros RE q db. split; [|split].
  - intros type limit page. unfold SearchRoutes.search.
    now rewrite noQuery_trim, trim_idem.
  - intros limit. unfold SearchRoutes.getSuggestions.
    now rewrite noQuery_trim, trim_idem.
  - intros skills location education projectTech p.
    unfold AdvancedSearch.searchQuery.
    rewrite noQuery_trim. cbn [AdvancedSearch.or_empty]. now rewrite trim_idem.
Qed.

(** ** The secret of the tokens *)

(** X26.  Which secret signs a token.  [generateToken] signs with
    JWT_SECRET whenever that variable is set and not empty; the built-in
    fallback secret is used only when JWT_SECRET is missing or empty and
    NODE_ENV is exactly 'development'; in every other case no token is
    signed: the function throws an error that the error handler answers, in
    production, with 500 'Internal server error' and no detail.  The token
    always carries the given user id, and expires after JWT_EXPIRES_IN, or
    7d when that is missing or empty. *)
Theorem token_secret_policy :
  forall (env : Auth.Env) (userId : ObjectId),
    match Auth.generateToken env userId with
    | ErrorHandler.Ok call =>
        Auth.payload_userId call = userId /\
        Auth.expiresIn call = Auth.or_default (Auth.JWT_EXPIRES_IN env) "7d" /\
        ((JS.truthy (Auth.JWT_SECRET env) = true /\
          Auth.JWT_SECRET env = Some (Auth.secret call))
         \/
         (JS.truthy (Auth.JWT_SECRET env) = false /\
          Auth.NODE_ENV env = Some "development"%string /\
          Auth.secret call = "dev-secret-key-for-development-only"%string))
    | ErrorHandler.Throw e =>
        JS.truthy (Auth.JWT_SECRET env) = false /\
        Auth.NODE_ENV env <> Some "development"%string /\
        @ErrorHandler.errorHandler Auth.SignCall false e
        = ErrorHandler.Failed 500
            (ErrorHandler.mkErrorBody false "Internal server error" None)
    end.
Proof.
  intros env userId. unfold Auth.generateToken.
  destruct (JS.truthy (Auth.JWT_SECRET env)) eqn:Hs; cbn [negb].
  - split; [reflexivity|]. split; [reflexivity|]. left. split; [reflexivity|].
    destruct (Auth.JWT_SECRET env); [reflexivity|discriminate Hs].
  - destruct (Auth.NODE_ENV env) as [mode|] eqn:Hm.
    + destruct (String.eqb_spec mode "development") as [->|Hne].
      * split; [reflexivity|]. split; [reflexivity|]. right. repeat split.
      * split; [reflexivity|]. split; [congruence|reflexivity].
    + split; [reflexivity|]. split; [discriminate|reflexivity].
Qed.
